(** * ChainLottery client: state synchronisation and fallback logic

    A shallow embedding of the React components of the lottery
    dashboard (PastWinners and its backup copy, ParticipantsList, Home,
    BuyTickets, PromoBanner).  Component state is a record, every
    [setX] call is a record update, asynchronous contract reads are
    oracles that either return or throw, and event handlers are
    functions from state to state. *)

From Stdlib Require Import ZArith List String Ascii Bool Lia DecimalString.
Import ListNotations.
Local Open Scope string_scope.
Local Open Scope list_scope.
Local Open Scope Z_scope.

(** ** JavaScript values used by the components *)

Module JS.

(** Result of awaiting a contract call: the promise resolves or rejects. *)
Inductive Outcome (A : Type) : Type :=
| Returned (a : A)
| Thrown.
Arguments Returned {A} a.
Arguments Thrown {A}.

(** [number | undefined]: truthiness of an optional number ([!x] is its
    negation): [undefined] and [0] are falsy. *)
Definition truthy (x : option Z) : bool :=
  match x with
  | Some n => negb (n =? 0)
  | None => false
  end.

(** Strict equality [===] on [number | undefined]. *)
Definition strict_eq (x y : option Z) : bool :=
  match x, y with
  | Some a, Some b => a =? b
  | None, None => true
  | _, _ => false
  end.

Definition is_undefined (x : option Z) : bool :=
  match x with None => true | Some _ => false end.

(** Truthiness of a string: only the empty string is falsy. *)
Definition truthy_str (s : string) : bool :=
  match s with EmptyString => false | String _ _ => true end.

(** Template-literal rendering of an integer. *)
Definition show (n : Z) : string := NilZero.string_of_int (Z.to_int n).

(** [Array.prototype.includes] on numbers. *)
Definition includes (l : list Z) (n : Z) : bool := existsb (Z.eqb n) l.

(** [Array.prototype.slice(start, end)]: negative indices count from the
    end, and both bounds are clamped to the array. *)
Definition rel_index (len k : Z) : Z :=
  if k <? 0 then Z.max (len + k) 0 else Z.min k len.

Definition slice {A : Type} (l : list A) (start stop : Z) : list A :=
  let len := Z.of_nat (List.length l) in
  let k := rel_index len start in
  let final := rel_index len stop in
  firstn (Z.to_nat (final - k)) (skipn (Z.to_nat k) l).

(** [Math.ceil(a / b)] for a positive divisor. *)
Definition ceil_div (a b : Z) : Z := - ((- a) / b).

(** [parseInt(s)] with no radix argument: leading white space is skipped,
    one sign is read, a [0x] or [0X] prefix selects base 16 and anything
    else base 10, and the value is that of the longest run of digits that
    follows; what comes after the run is ignored.  [None] stands for
    [NaN], the result when the run is empty.  White space is the ASCII
    part of it: space, tab, line feed, vertical tab, form feed, carriage
    return. *)
Definition digit_of (c : ascii) : option Z :=
  let n := nat_of_ascii c in
  if (48 <=? n)%nat && (n <=? 57)%nat then Some (Z.of_nat (n - 48)) else None.

Definition hex_digit_of (c : ascii) : option Z :=
  let n := nat_of_ascii c in
  if (48 <=? n)%nat && (n <=? 57)%nat then Some (Z.of_nat (n - 48))
  else if (97 <=? n)%nat && (n <=? 102)%nat then Some (Z.of_nat (n - 87))
  else if (65 <=? n)%nat && (n <=? 70)%nat then Some (Z.of_nat (n - 55))
  else None.

Definition is_space (c : ascii) : bool :=
  let n := nat_of_ascii c in
  (n =? 32)%nat || ((9 <=? n)%nat && (n <=? 13)%nat).

Fixpoint trim_start (s : string) : string :=
  match s with
  | EmptyString => EmptyString
  | String c rest => if is_space c then trim_start rest else s
  end.

Fixpoint parse_run (digit : ascii -> option Z) (radix : Z) (s : string)
    (acc : option Z) : option Z :=
  match s with
  | EmptyString => acc
  | String c rest =>
      match digit c with
      | Some d =>
          parse_run digit radix rest
            (Some (radix * match acc with Some a => a | None => 0 end + d))
      | None => acc
      end
  end.

Definition parse_digits (s : string) (acc : option Z) : option Z :=
  parse_run digit_of 10 s acc.

Definition parse_unsigned (s : string) : option Z :=
  match s with
  | String "0" (String x rest) =>
      if Ascii.eqb x "x" || Ascii.eqb x "X"
      then parse_run hex_digit_of 16 rest None
      else parse_digits s None
  | _ => parse_digits s None
  end.

Definition parseInt (s : string) : option Z :=
  match trim_start s with
  | String "-" rest =>
      match parse_unsigned rest with Some n => Some (- n) | None => None end
  | String "+" rest => parse_unsigned rest
  | rest => parse_unsigned rest
  end.

(** The remainder operator [%]: the result takes the sign of the dividend. *)
Definition rem (a b : Z) : Z := Z.rem a b.

End JS.

Import JS.

(** ** ParticipantsList *)

Module ParticipantsList.

Record Ticket : Type := mkTicket {
  walletAddress : string;
  numbers : list Z;
  lottoNumber : option Z;
  timestamp : Z;
  ticketId : string
}.

Record ContractData : Type := mkContractData {
  tickets : list Ticket;
  participantCount : Z
}.

(** What [contract.tickets(drawId, i)] resolves to:
    [lottoNumber, buyer, buyTime, closed]. *)
Record TicketData : Type := mkTicketData {
  td_lottoNumber : Z;
  td_buyer : string;
  td_buyTime : Z;
  td_closed : bool
}.

(** The contract instance: each method either returns or throws.  A falsy
    [ticketData] or [fullTicketDetails] is [None]; the details carry the
    [numbers] array when it is present. *)
Record Contract : Type := mkContract {
  getTotalTicketsSold : Z -> Outcome Z;
  ticketsMapping : Z -> nat -> Outcome (option TicketData);
  getTicketDetails : Z -> nat -> Outcome (option (option (list Z)))
}.

Record Props : Type := mkProps {
  sharedSeriesIndex : option Z;
  sharedDrawId : option Z
}.

(** [useWallet] and [getLotteryContract]. *)
Record Wallet : Type := mkWallet {
  provider : bool;
  chainId : option Z;
  getLotteryContract : Outcome (option Contract)
}.

Definition zeroAddress : string := "0x0000000000000000000000000000000000000000".

Definition emptyData : ContractData := mkContractData [] 0.

(** The [catch] branch of step 1: verified counts used as fallback. *)
Definition verifiedCount (series : option Z) (draw : Z) : Z :=
  if strict_eq series (Some 0) && (draw =? 1) then 8
  else if strict_eq series (Some 1) && (draw =? 2) then 6
  else if strict_eq series (Some 2) && (draw =? 1) then 5
  else if strict_eq series (Some 3) && (draw =? 1) then 7
  else if strict_eq series (Some 3) && (draw =? 2) then 4
  else if strict_eq series (Some 4) && (draw =? 1) then 6
  else if strict_eq series (Some 5) && (draw =? 1) then 9
  else 0.

(** Step 1 of [queryFn]: the ticket count of the draw. *)
Definition ticketCount (c : Contract) (series : option Z) (draw : Z) : Z :=
  match getTotalTicketsSold c draw with
  | Returned count => count
  | Thrown => verifiedCount series draw
  end.

(** One iteration of the scan loop of step 2, for ticket index [i];
    [now] is [Date.now()] at that iteration. *)
Definition scanTicket (c : Contract) (draw : Z) (now : Z) (i : nat)
    (acc : list Ticket) : list Ticket :=
  match ticketsMapping c draw i with
  | Thrown => acc
  | Returned None => acc
  | Returned (Some td) =>
      if truthy_str (td_buyer td) && negb (String.eqb (td_buyer td) zeroAddress) then
        let buyTimeSeconds := td_buyTime td in
        let ts := if buyTimeSeconds >? 0 then buyTimeSeconds * 1000
                  else now - 3600000 in
        match getTicketDetails c draw i with
        | Thrown => acc
        | Returned details =>
            let nums :=
              match details with
              | Some (Some (n :: ns)) => firstn 5 (n :: ns)
              | _ => []
              end in
            acc ++ [mkTicket (td_buyer td) nums (Some (td_lottoNumber td)) ts
                      (show draw ++ "-" ++ show (Z.of_nat i))%string]
        end
      else acc
  end.

(** Step 2: [for (let i = 0; i < participantCount; i++)]. *)
Definition scanTickets (c : Contract) (draw : Z) (now : nat -> Z)
    (count : Z) : list Ticket :=
  fold_left (fun acc i => scanTicket c draw (now i) i acc)
    (seq 0 (Z.to_nat count)) [].

Definition queryFn (w : Wallet) (p : Props) (now : nat -> Z) : ContractData :=
  match sharedDrawId p with
  | None => emptyData
  | Some draw =>
      if negb (provider w) || negb (truthy (chainId w)) then emptyData
      else
        match getLotteryContract w with
        | Thrown => emptyData
        | Returned None => emptyData
        | Returned (Some c) =>
            let count := ticketCount c (sharedSeriesIndex p) draw in
            mkContractData (scanTickets c draw now count) count
        end
  end.

Definition getSeriesTitle (p : Props) : string :=
  match sharedSeriesIndex p with
  | Some 0 => "Beginner Series"
  | Some 1 => "Intermediate Series"
  | Some 2 => "Monthly Mega Series"
  | Some 3 => "Weekly Express Series"
  | Some 4 => "Quarterly Rewards Series"
  | Some 5 => "Annual Championship Series"
  | _ => "Lottery Series"
  end.

Definition getTicketPrice (p : Props) : string :=
  match sharedSeriesIndex p with
  | Some 0 => "0.0001"
  | Some 1 => "0.0002"
  | Some 2 => "0.0005"
  | Some 3 => "0.0001"
  | Some 4 => "0.0008"
  | Some 5 => "0.001"
  | _ => "0.0001"
  end.

(** Pagination state of the component. *)
Record PageState : Type := mkPageState {
  currentPage : Z;
  pageSize : string
}.

Definition initialPageState : PageState := mkPageState 1 "10".

(** The values of the [SelectItem]s of the page-size select. *)
Definition pageSizeChoices : list string := ["5"; "10"; "20"; "50"].

(** What [renderParticipantsView] computes and renders. *)
Record View : Type := mkView {
  totalTickets : Z;
  pageCount : Z;
  startIndex : Z;
  endIndex : Z;
  currentTickets : list Ticket;
  shownTo : Z;
  pageLinks : list Z;
  lastPageLink : option Z;
  previousTarget : Z;
  nextTarget : Z
}.

(** The page number shown by the [i]-th numbered link. *)
Definition pageNumber (pageCount currentPage i : Z) : Z :=
  if (pageCount <=? 5) || (currentPage <=? 3) then i + 1
  else if currentPage >=? pageCount - 2 then pageCount - 4 + i
  else currentPage - 2 + i.

Definition numberedLinks (pageCount currentPage : Z) : list Z :=
  filter (fun n => (n >? 0) && (n <=? pageCount))
    (map (fun i => pageNumber pageCount currentPage (Z.of_nat i))
       (seq 0 (Z.to_nat (Z.min 5 pageCount)))).

(** [None] when [parseInt(pageSize)] is [NaN]. *)
Definition renderParticipantsView (s : PageState)
    (ticketsToRender : list Ticket) : option View :=
  match parseInt (pageSize s) with
  | None => None
  | Some size =>
      let total := Z.of_nat (List.length ticketsToRender) in
      let pc := Z.max 1 (ceil_div total size) in
      let start := (currentPage s - 1) * size in
      let stop := start + size in
      Some {|
        totalTickets := total;
        pageCount := pc;
        startIndex := start;
        endIndex := stop;
        currentTickets := slice ticketsToRender start stop;
        shownTo := Z.min stop total;
        pageLinks := numberedLinks pc (currentPage s);
        lastPageLink :=
          if (pc >? 5) && (currentPage s <? pc - 2) then Some pc else None;
        previousTarget := Z.max 1 (currentPage s - 1);
        nextTarget := Z.min pc (currentPage s + 1)
      |}
  end.

(** Handlers of the pagination controls. *)
Definition onPrevious (v : View) (s : PageState) : PageState :=
  mkPageState (previousTarget v) (pageSize s).

Definition onNext (v : View) (s : PageState) : PageState :=
  mkPageState (nextTarget v) (pageSize s).

Definition onPageLink (n : Z) (s : PageState) : PageState :=
  mkPageState n (pageSize s).

Definition onPageSizeChange (value : string) (s : PageState) : PageState :=
  mkPageState 1 value.

End ParticipantsList.

(** ** PastWinners: the types and helpers the active component and its
    backup copy have in common *)

Module Winners.

Record TicketNumbers : Type := mkTicketNumbers {
  numbers : list Z;
  lottoNumber : Z
}.

(** [Winner] of the contract library, with the [winningNumbers] field the
    component attaches by object spread. *)
Record Winner : Type := mkWinner {
  winnerAddress : string;
  amountWon : string;
  drawId : Z;
  timestamp : Z;
  ticketNumbers : list TicketNumbers;
  winningNumbers : option (list Z)
}.

Record Props : Type := mkProps {
  sharedDrawId : option Z;
  sharedSeriesIndex : option Z
}.

(** [useWallet]. *)
Record Wallet : Type := mkWallet {
  provider : bool;
  chainId : option Z
}.

Definition connected (w : Wallet) : bool := provider w && truthy (chainId w).

(** The contract reads, by draw ID and series index, as the component
    passes them.  [getDrawInfo] resolves to the draw's [completed] flag,
    or to nothing. *)
Record Chain : Type := mkChain {
  getDrawInfo : option Z -> option Z -> Outcome (option bool);
  getTotalWinners : Outcome Z;
  getDrawWinners : option Z -> option Z -> Outcome (list Winner);
  getWinningNumbers : option Z -> Outcome (option (list Z))
}.

Record State : Type := mkState {
  winners : list Winner;
  isLoading : bool;
  error : option string;
  isDrawCompleted : bool;
  totalWinnersCount : Z;
  previousDrawId : option Z;
  previousSeriesIndex : option Z
}.

Definition initialState : State :=
  mkState [] true None false 0 None None.

Definition setWinners (ws : list Winner) (s : State) : State :=
  mkState ws (isLoading s) (error s) (isDrawCompleted s)
    (totalWinnersCount s) (previousDrawId s) (previousSeriesIndex s).

Definition setIsLoading (b : bool) (s : State) : State :=
  mkState (winners s) b (error s) (isDrawCompleted s)
    (totalWinnersCount s) (previousDrawId s) (previousSeriesIndex s).

Definition setError (e : option string) (s : State) : State :=
  mkState (winners s) (isLoading s) e (isDrawCompleted s)
    (totalWinnersCount s) (previousDrawId s) (previousSeriesIndex s).

Definition setIsDrawCompleted (b : bool) (s : State) : State :=
  mkState (winners s) (isLoading s) (error s) b
    (totalWinnersCount s) (previousDrawId s) (previousSeriesIndex s).

Definition setTotalWinnersCount (n : Z) (s : State) : State :=
  mkState (winners s) (isLoading s) (error s) (isDrawCompleted s)
    n (previousDrawId s) (previousSeriesIndex s).

Definition setPreviousDrawId (d : option Z) (s : State) : State :=
  mkState (winners s) (isLoading s) (error s) (isDrawCompleted s)
    (totalWinnersCount s) d (previousSeriesIndex s).

Definition setPreviousSeriesIndex (i : option Z) (s : State) : State :=
  mkState (winners s) (isLoading s) (error s) (isDrawCompleted s)
    (totalWinnersCount s) (previousDrawId s) i.

(** [sharedDrawId === 1 && (sharedSeriesIndex === 0 ||
    sharedSeriesIndex === undefined)]. *)
Definition isSpecialDraw (p : Props) : bool :=
  strict_eq (sharedDrawId p) (Some 1)
  && (strict_eq (sharedSeriesIndex p) (Some 0)
      || is_undefined (sharedSeriesIndex p)).

(** The hardcoded winner of draw 1; [now] is [Date.now()]. *)
Definition fallbackWinner (now : Z) : Winner :=
  {| winnerAddress := "0x03C4bcC1599627e0f766069Ae70E40C62b5d6f1e";
     amountWon := "0.0000064";
     drawId := 1;
     timestamp := now;
     ticketNumbers := [mkTicketNumbers [1; 2; 3; 4; 5] 8];
     winningNumbers := None |}.

(** [{ ...winner, winningNumbers }]. *)
Definition withWinningNumbers (wn : list Z) (w : Winner) : Winner :=
  {| winnerAddress := winnerAddress w;
     amountWon := amountWon w;
     drawId := drawId w;
     timestamp := timestamp w;
     ticketNumbers := ticketNumbers w;
     winningNumbers := Some wn |}.

Definition checkDrawCompletion (w : Wallet) (c : Chain) (p : Props) : bool :=
  if negb (provider w) || negb (truthy (chainId w))
     || negb (truthy (sharedDrawId p)) then false
  else
    match getDrawInfo c (sharedDrawId p) (sharedSeriesIndex p) with
    | Returned (Some completed) => completed
    | Returned None => isSpecialDraw p
    | Thrown => isSpecialDraw p
    end.

Definition fetchTotalWinners (w : Wallet) (c : Chain) (s : State) : State :=
  if negb (provider w) || negb (truthy (chainId w)) then s
  else
    match getTotalWinners c with
    | Returned total => setTotalWinnersCount total s
    | Thrown => s
    end.

Definition cannotRefresh : string :=
  "Cannot refresh without blockchain connection".

Definition refreshFailed : string :=
  "Failed to refresh winner data. Please try again later.".

End Winners.

(** ** PastWinners, the active component *)

Module PastWinners.
Import Winners.

(** The winners of the draw as [fetchWinners] assembles them before the
    winning numbers are attached. *)
Definition fetchedFromContract (c : Chain) (p : Props) (now : Z)
    : list Winner :=
  let fetched0 : list Winner := [] in
  let fetched1 :=
    if isSpecialDraw p then
      if (Z.of_nat (List.length fetched0) =? 0) then [fallbackWinner now]
      else fetched0
    else fetched0 in
  match getDrawWinners c (sharedDrawId p) (sharedSeriesIndex p) with
  | Returned contractWinners =>
      if Z.of_nat (List.length contractWinners) >? 0 then contractWinners
      else fetched1
  | Thrown => fetched1
  end.

(** Attaching the winning numbers when there are winners and the draw is
    completed. *)
Definition attachWinningNumbers (c : Chain) (p : Props) (completed : bool)
    (fetched : list Winner) : list Winner :=
  if (Z.of_nat (List.length fetched) >? 0) && completed then
    match getWinningNumbers c (sharedDrawId p) with
    | Returned (Some (n :: ns)) => map (withWinningNumbers (n :: ns)) fetched
    | Returned _ => fetched
    | Thrown => fetched
    end
  else fetched.

(** [fetchWinners], run by the load effect once a draw ID and a
    connection are there. *)
Definition fetchWinners (w : Wallet) (c : Chain) (p : Props) (now : Z)
    (s : State) : State :=
  let s := setIsLoading true s in
  let s := setError None s in
  let completed := checkDrawCompletion w c p in
  let s := setIsDrawCompleted completed s in
  let s := fetchTotalWinners w c s in
  let fetched := fetchedFromContract c p now in
  let fetched := attachWinningNumbers c p completed fetched in
  let s := setWinners fetched s in
  setIsLoading false s.

(** [previousDrawId !== undefined && sharedDrawId !== previousDrawId ||
    previousSeriesIndex !== undefined && sharedSeriesIndex !==
    previousSeriesIndex]. *)
Definition parametersChanged (p : Props) (s : State) : bool :=
  (negb (is_undefined (previousDrawId s))
   && negb (strict_eq (sharedDrawId p) (previousDrawId s)))
  || (negb (is_undefined (previousSeriesIndex s))
      && negb (strict_eq (sharedSeriesIndex p) (previousSeriesIndex s))).

(** First statement of the load effect. *)
Definition resetOnChange (p : Props) (s : State) : State :=
  if parametersChanged p s then setIsLoading true (setWinners [] s) else s.

(** Second and third statements of the load effect. *)
Definition trackProps (p : Props) (s : State) : State :=
  setPreviousSeriesIndex (sharedSeriesIndex p)
    (setPreviousDrawId (sharedDrawId p) s).

(** The load effect. *)
Definition loadEffect (w : Wallet) (c : Chain) (p : Props) (now : Z)
    (s : State) : State :=
  let s := resetOnChange p s in
  let s := trackProps p s in
  if negb (truthy (sharedDrawId p)) then
    setIsLoading false (setWinners [] s)
  else if negb (provider w) || negb (truthy (chainId w)) then
    setIsLoading false s
  else fetchWinners w c p now s.

(** What the [.then] callback of [refreshWinners] does with the three
    results. *)
Definition refreshed (completed : bool) (fetched : list Winner)
    (wn : option (list Z)) (s : State) : State :=
  let s := setIsDrawCompleted completed s in
  let fetched :=
    match wn with
    | Some (n :: ns) =>
        if completed && (Z.of_nat (List.length fetched) >? 0)
        then map (withWinningNumbers (n :: ns)) fetched
        else fetched
    | _ => fetched
    end in
  setWinners fetched s.


Definition refreshWinners (w : Wallet) (c : Chain) (p : Props)
    (s : State) : State :=
  let s := setIsLoading true s in
  let s := setError None s in
  if negb (provider w) || negb (truthy (chainId w))
     || negb (truthy (sharedDrawId p)) then
    setError (Some cannotRefresh) (setIsLoading false s)
  else
    let completed := checkDrawCompletion w c p in
    match getDrawWinners c (sharedDrawId p) (sharedSeriesIndex p),
          getWinningNumbers c (sharedDrawId p) with
    | Returned fetched, Returned wn =>
        setIsLoading false (refreshed completed fetched wn s)
    | _, _ =>
        setIsLoading false (setError (Some refreshFailed) s)
    end.

End PastWinners.

(** ** PastWinners, the backup copy *)

Module PastWinnersBackup.
Import Winners.

Definition refreshed (p : Props) (now : Z) (completed : bool)
    (fetched : list Winner) (wn : option (list Z)) (s : State) : State :=
  let s := setIsDrawCompleted completed s in
  let fetched :=
    if isSpecialDraw p && (Z.of_nat (List.length fetched) =? 0)
    then [fallbackWinner now] else fetched in
  let fetched :=
    match wn with
    | Some (n :: ns) =>
        if completed && (Z.of_nat (List.length fetched) >? 0)
        then map (withWinningNumbers (n :: ns)) fetched
        else fetched
    | _ => fetched
    end in
  setWinners fetched s.

Definition refreshWinners (w : Wallet) (c : Chain) (p : Props) (now : Z)
    (forceReset : bool) (s : State) : State :=
  let s :=
    if forceReset then
      setPreviousSeriesIndex None (setPreviousDrawId None (setWinners [] s))
    else s in
  let s := setIsLoading true s in
  let s := setError None s in
  if negb (provider w) || negb (truthy (chainId w))
     || negb (truthy (sharedDrawId p)) then
    setError (Some cannotRefresh) (setIsLoading false s)
  else
    let completed := checkDrawCompletion w c p in
    match getDrawWinners c (sharedDrawId p) (sharedSeriesIndex p),
          getWinningNumbers c (sharedDrawId p) with
    | Returned fetched, Returned wn =>
        setIsLoading false (refreshed p now completed fetched wn s)
    | _, _ =>
        setIsLoading false (setError (Some refreshFailed) s)
    end.

End PastWinnersBackup.

(** ** Home *)

Module Home.

(** [React.SetStateAction<number | undefined>]. *)
Inductive SetStateAction : Type :=
| Value (v : option Z)
| Updater (f : option Z -> option Z).

(** Modelled from the spec: the [useLotteryData] hook is not among the
    sources.  Following the glossary's shared state and the comments of
    the page ("update the lottery data state"), its [selectedSeriesIndex]
    and [selectedDrawId] are state values, and [setSelectedSeriesIndex]
    and [setSelectedDrawId] store their argument.  [refetches] counts the
    calls of [refetchDrawParticipants]. *)
Record LotteryData : Type := mkLotteryData {
  selectedSeriesIndex : option Z;
  selectedDrawId : option Z;
  refetches : nat
}.

(** The state of the page, and the hook's state next to it. *)
Record State : Type := mkState {
  homeSeriesIndex : option Z;
  homeDrawId : option Z;
  refreshTrigger : Z;
  lotteryData : LotteryData
}.

Definition setHomeSeriesIndex (v : option Z) (s : State) : State :=
  mkState v (homeDrawId s) (refreshTrigger s) (lotteryData s).

Definition setHomeDrawId (v : option Z) (s : State) : State :=
  mkState (homeSeriesIndex s) v (refreshTrigger s) (lotteryData s).

Definition bumpRefreshTrigger (s : State) : State :=
  mkState (homeSeriesIndex s) (homeDrawId s) (refreshTrigger s + 1)
    (lotteryData s).

Definition withLotteryData (f : LotteryData -> LotteryData) (s : State)
    : State :=
  mkState (homeSeriesIndex s) (homeDrawId s) (refreshTrigger s)
    (f (lotteryData s)).

Definition setLotteryDataSeriesIndex (v : option Z) : State -> State :=
  withLotteryData
    (fun d => mkLotteryData v (selectedDrawId d) (refetches d)).

Definition setLotteryDataDrawId (v : option Z) : State -> State :=
  withLotteryData
    (fun d => mkLotteryData (selectedSeriesIndex d) v (refetches d)).

Definition refetchDrawParticipants : State -> State :=
  withLotteryData
    (fun d => mkLotteryData (selectedSeriesIndex d) (selectedDrawId d)
                (S (refetches d))).

(** The default draw ID the handler picks for a series. *)
Definition defaultDrawId (newSeriesIndex : option Z) : Z :=
  if strict_eq newSeriesIndex (Some 0) then 1
  else if strict_eq newSeriesIndex (Some 1) then 2
  else if strict_eq newSeriesIndex (Some 2) then 3
  else if strict_eq newSeriesIndex (Some 3) then 4
  else if strict_eq newSeriesIndex (Some 4) then 5
  else if strict_eq newSeriesIndex (Some 5) then 6
  else 1.

Definition handleHomeSeriesIndexChange (value : SetStateAction)
    (s : State) : State :=
  let newSeriesIndex :=
    match value with
    | Updater f => f (homeSeriesIndex s)
    | Value v => v
    end in
  let d := defaultDrawId newSeriesIndex in
  let s := setHomeSeriesIndex newSeriesIndex s in
  let s := setHomeDrawId (Some d) s in
  let s := setLotteryDataSeriesIndex newSeriesIndex s in
  let s := setLotteryDataDrawId (Some d) s in
  let s := bumpRefreshTrigger s in
  refetchDrawParticipants s.

(** The one-way synchronisation effect Home -> useLotteryData. *)
Definition syncEffect (s : State) : State :=
  let seriesUpdate :=
    negb (is_undefined (homeSeriesIndex s))
    && negb (strict_eq (homeSeriesIndex s)
               (selectedSeriesIndex (lotteryData s))) in
  let drawUpdate :=
    negb (is_undefined (homeDrawId s))
    && negb (strict_eq (homeDrawId s) (selectedDrawId (lotteryData s))) in
  let s1 := if seriesUpdate then setLotteryDataSeriesIndex (homeSeriesIndex s) s
            else s in
  let s2 := if drawUpdate then setLotteryDataDrawId (homeDrawId s) s1
            else s1 in
  if seriesUpdate || drawUpdate then
    let s3 := bumpRefreshTrigger s2 in
    if drawUpdate then refetchDrawParticipants s3 else s3
  else s2.

End Home.

(** ** BuyTickets *)

Module BuyTickets.

Definition DEFAULT_SELECTED_NUMBERS : list Z := [7; 14; 21; 42; 63].
Definition DEFAULT_LOTTO_NUMBER : Z := 17.

Record TimeRemaining : Type := mkTimeRemaining {
  days : Z;
  hours : Z;
  minutes : Z;
  seconds : Z
}.

Record BuyResult : Type := mkBuyResult {
  success : bool;
  txHash : option string
}.

(** What the hooks hand to the component at the render an event is
    handled in: [useWallet], and of [useLotteryData] the selection, the
    draw availability, the remaining time, and what [generateQuickPick]
    and [buyCustomTicket] would return. *)
Record Env : Type := mkEnv {
  isConnected : bool;
  isDrawAvailable : bool;
  timeRemaining : option TimeRemaining;
  selectedSeriesIndex : option Z;
  selectedDrawId : option Z;
  genQuickPick : list Z * Z;
  buyResult : BuyResult
}.

Record State : Type := mkState {
  selectedNumbers : list Z;
  selectedLottoNumber : option Z;
  showWalletModal : bool;
  showBuyConfirmModal : bool;
  showReconfirmModal : bool;
  showPendingModal : bool;
  showSuccessModal : bool;
  transactionHash : string
}.

Definition initialState : State :=
  mkState DEFAULT_SELECTED_NUMBERS (Some DEFAULT_LOTTO_NUMBER)
    false false false false false "".

Definition setSelectedNumbers (l : list Z) (s : State) : State :=
  mkState l (selectedLottoNumber s) (showWalletModal s)
    (showBuyConfirmModal s) (showReconfirmModal s) (showPendingModal s)
    (showSuccessModal s) (transactionHash s).

Definition setSelectedLottoNumber (n : option Z) (s : State) : State :=
  mkState (selectedNumbers s) n (showWalletModal s)
    (showBuyConfirmModal s) (showReconfirmModal s) (showPendingModal s)
    (showSuccessModal s) (transactionHash s).

Definition setShowWalletModal (b : bool) (s : State) : State :=
  mkState (selectedNumbers s) (selectedLottoNumber s) b
    (showBuyConfirmModal s) (showReconfirmModal s) (showPendingModal s)
    (showSuccessModal s) (transactionHash s).

Definition setShowBuyConfirmModal (b : bool) (s : State) : State :=
  mkState (selectedNumbers s) (selectedLottoNumber s) (showWalletModal s)
    b (showReconfirmModal s) (showPendingModal s)
    (showSuccessModal s) (transactionHash s).

Definition setShowReconfirmModal (b : bool) (s : State) : State :=
  mkState (selectedNumbers s) (selectedLottoNumber s) (showWalletModal s)
    (showBuyConfirmModal s) b (showPendingModal s)
    (showSuccessModal s) (transactionHash s).

Definition setShowPendingModal (b : bool) (s : State) : State :=
  mkState (selectedNumbers s) (selectedLottoNumber s) (showWalletModal s)
    (showBuyConfirmModal s) (showReconfirmModal s) b
    (showSuccessModal s) (transactionHash s).

Definition setShowSuccessModal (b : bool) (s : State) : State :=
  mkState (selectedNumbers s) (selectedLottoNumber s) (showWalletModal s)
    (showBuyConfirmModal s) (showReconfirmModal s) (showPendingModal s)
    b (transactionHash s).

Definition setTransactionHash (h : string) (s : State) : State :=
  mkState (selectedNumbers s) (selectedLottoNumber s) (showWalletModal s)
    (showBuyConfirmModal s) (showReconfirmModal s) (showPendingModal s)
    (showSuccessModal s) h.

(** The updater [toggleNumber] hands to [setSelectedNumbers]. *)
Definition toggled (num : Z) (prev : list Z) : list Z :=
  if includes prev num then filter (fun n => negb (n =? num)) prev
  else if Z.of_nat (List.length prev) <? 5 then prev ++ [num]
  else prev.

Definition toggleNumber (num : Z) (s : State) : State :=
  setSelectedNumbers (toggled num (selectedNumbers s)) s.

Definition toggleLottoNumber (num : Z) (s : State) : State :=
  setSelectedLottoNumber
    (if strict_eq (selectedLottoNumber s) (Some num) then None else Some num) s.

Definition handleQuickPick (e : Env) (s : State) : State :=
  if negb (isConnected e) then
    setSelectedLottoNumber (Some DEFAULT_LOTTO_NUMBER)
      (setSelectedNumbers DEFAULT_SELECTED_NUMBERS s)
  else
    setSelectedLottoNumber (Some (snd (genQuickPick e)))
      (setSelectedNumbers (fst (genQuickPick e)) s).

Definition isTimeRemainingZero (e : Env) : bool :=
  match timeRemaining e with
  | None => false
  | Some t =>
      (days t =? 0) && (hours t =? 0) && (minutes t =? 0) && (seconds t =? 0)
  end.

(** [selectedNumbers.length !== 5 || selectedLottoNumber === null]. *)
Definition selectionIncomplete (s : State) : bool :=
  negb (Z.of_nat (List.length (selectedNumbers s)) =? 5)
  || match selectedLottoNumber s with None => true | Some _ => false end.

Definition handleBuyClick (e : Env) (s : State) : State :=
  if negb (isConnected e) then setShowWalletModal true s
  else if selectionIncomplete s then s
  else if negb (isDrawAvailable e) then s
  else if isTimeRemainingZero e then s
  else setShowBuyConfirmModal true s.

Definition handleInitialConfirm (e : Env) (s : State) : State :=
  if selectionIncomplete s then s
  else if negb (isDrawAvailable e) then setShowBuyConfirmModal false s
  else if isTimeRemainingZero e then setShowBuyConfirmModal false s
  else setShowReconfirmModal true (setShowBuyConfirmModal false s).

(** The arguments of one [buyTicket] call. *)
Record BuyCall : Type := mkBuyCall {
  call_numbers : list Z;
  call_lottoNumber : option Z;
  call_seriesIndex : option Z;
  call_drawId : option Z
}.

(** [handleConfirmPurchase]: the state it leaves, and the [buyTicket]
    call it made, if any. *)
Definition handleConfirmPurchase (e : Env) (s : State)
    : State * option BuyCall :=
  if selectionIncomplete s then (s, None)
  else if negb (isDrawAvailable e) then (setShowReconfirmModal false s, None)
  else if isTimeRemainingZero e then (setShowReconfirmModal false s, None)
  else
    let s := setShowPendingModal true (setShowReconfirmModal false s) in
    let call := mkBuyCall (selectedNumbers s) (selectedLottoNumber s)
                  (selectedSeriesIndex e) (selectedDrawId e) in
    let result := buyResult e in
    let s := setShowPendingModal false s in
    let s :=
      match txHash result with
      | Some h =>
          if success result && truthy_str h
          then setShowSuccessModal true (setTransactionHash h s)
          else s
      | None => s
      end in
    (s, Some call).

(** What the user can do with the rendered component. *)
Inductive Event : Type :=
| ClickConnectWallet
| ClickBuy
| ConfirmInitial
| ConfirmPurchase
| CloseWalletModal
| CloseBuyConfirmModal
| CloseReconfirmModal
| ClosePendingModal
| CloseSuccessModal
| ClickNumber (n : Z)
| ClickLottoNumber (n : Z)
| ClickQuickPick.

(** A modal's confirm button exists only while the modal is open. *)
Definition enabled (ev : Event) (s : State) : bool :=
  match ev with
  | ConfirmInitial => showBuyConfirmModal s
  | ConfirmPurchase => showReconfirmModal s
  | _ => true
  end.

Definition handle (e : Env) (ev : Event) (s : State)
    : State * option BuyCall :=
  match ev with
  | ClickConnectWallet => (setShowWalletModal true s, None)
  | ClickBuy => (handleBuyClick e s, None)
  | ConfirmInitial => (handleInitialConfirm e s, None)
  | ConfirmPurchase => handleConfirmPurchase e s
  | CloseWalletModal => (setShowWalletModal false s, None)
  | CloseBuyConfirmModal => (setShowBuyConfirmModal false s, None)
  | CloseReconfirmModal => (setShowReconfirmModal false s, None)
  | ClosePendingModal => (setShowPendingModal false s, None)
  | CloseSuccessModal => (setShowSuccessModal false s, None)
  | ClickNumber n => (toggleNumber n s, None)
  | ClickLottoNumber n => (toggleLottoNumber n s, None)
  | ClickQuickPick => (handleQuickPick e s, None)
  end.

Definition step (e : Env) (ev : Event) (s : State)
    : State * option BuyCall :=
  if enabled ev s then handle e ev s else (s, None).

(** Running a session: each event comes with the hook values of the
    render it is handled in; the result is the final state and the
    [buyTicket] calls made, each with the hook values at the call. *)
Fixpoint run (session : list (Env * Event)) (s : State)
    : State * list (Env * BuyCall) :=
  match session with
  | [] => (s, [])
  | (e, ev) :: rest =>
      let '(s1, call) := step e ev s in
      let '(s2, calls) := run rest s1 in
      (s2, match call with
           | Some c => (e, c) :: calls
           | None => calls
           end)
  end.

End BuyTickets.

(** ** PromoBanner *)

Module PromoBanner.

(** [bannerImages.length]. *)
Definition bannerCount : Z := 6.

(** The updater of [goToNextSlide]. *)
Definition nextSlideIndex (prevIndex : Z) : Z :=
  rem (prevIndex + 1) bannerCount.

(** The updater of [goToPrevSlide]. *)
Definition prevSlideIndex (prevIndex : Z) : Z :=
  rem (prevIndex - 1 + bannerCount) bannerCount.

Record State : Type := mkState {
  currentIndex : Z;
  autoplay : bool
}.

Definition initialState : State := mkState 0 true.

Definition goToNextSlide (s : State) : State :=
  mkState (nextSlideIndex (currentIndex s)) (autoplay s).

Definition goToPrevSlide (s : State) : State :=
  mkState (prevSlideIndex (currentIndex s)) (autoplay s).

Definition handleManualNavigation (index : Z) (s : State) : State :=
  mkState index false.

End PromoBanner.

(** ** Browser facilities: localStorage and string helpers *)

Module Browser.

(** [localStorage]: a finite map from keys to strings. *)
Definition Storage : Type := string -> option string.

Definition emptyStorage : Storage := fun _ => None.

Definition getItem (key : string) (st : Storage) : option string := st key.

Definition setItem (key value : string) (st : Storage) : Storage :=
  fun k => if String.eqb k key then Some value else st k.

Definition removeItem (key : string) (st : Storage) : Storage :=
  fun k => if String.eqb k key then None else st k.

(** [String.prototype.toLowerCase] on ASCII text such as hex addresses. *)
Definition lower_ascii (c : ascii) : ascii :=
  let n := nat_of_ascii c in
  if (65 <=? n)%nat && (n <=? 90)%nat then ascii_of_nat (n + 32) else c.

Fixpoint toLowerCase (s : string) : string :=
  match s with
  | EmptyString => EmptyString
  | String c rest => String (lower_ascii c) (toLowerCase rest)
  end.

(** [String.prototype.includes]. *)
Definition str_includes (s sub : string) : bool :=
  match String.index 0 sub s with
  | Some _ => true
  | None => false
  end.

(** [String.prototype.charAt]: the empty string out of range. *)
Definition charAt (s : string) (k : nat) : string :=
  match String.get k s with
  | Some c => String c EmptyString
  | None => EmptyString
  end.

(** Truthiness of [string | null | undefined]. *)
Definition truthy_opt (s : option string) : bool :=
  match s with
  | Some t => truthy_str t
  | None => false
  end.

End Browser.

(** ** useAdmin *)

Module Admin.
Import Browser.

Inductive TwoFactorState : Type :=
| NotSetup
| Setup
| Verified.

Definition is_verified (t : TwoFactorState) : bool :=
  match t with Verified => true | _ => false end.

Definition ADMIN_2FA_KEY : string := "admin_2fa_verified".
Definition ADMIN_2FA_SECRET_KEY : string := "admin_2fa_secret".

(** The arguments of a transaction sent to the contract. *)
Inductive ContractCall : Type :=
| StartNewFutureBlockDraw (priceInWei jackpotInWei futureBlockNumber seriesIndex : Z)
| StartNewXDraw (priceInWei jackpotInWei drawTime seriesIndex : Z)
| CompleteDrawManually (drawId : Z) (winningNumbers : list Z).

(** A sent transaction: [tx.wait()] resolves or rejects. *)
Record Tx : Type := mkTx { wait : Outcome unit }.

(** The provider, with what the contract library makes of it: the network's
    chain ID, the block number, the read-only contract (its [admin]
    address) and the contract with signer (sending a call). *)
Record Provider : Type := mkProvider {
  getNetwork : Outcome string;
  getBlockNumber : Outcome Z;
  getLotteryContract : string -> Outcome (option (Outcome string));
  getLotteryContractWithSigner :
    string -> Outcome (option (ContractCall -> Outcome Tx))
}.

(** [useWallet]. *)
Record Wallet : Type := mkWallet {
  isConnected : bool;
  account : option string;
  provider : option Provider
}.

(** Library functions that can throw. *)
Record Libs : Type := mkLibs {
  encodeURIComponent : string -> Outcome string;
  toDataURL : string -> Outcome string;
  parseEther : string -> Outcome Z
}.

Record State : Type := mkState {
  isAdmin : bool;
  twoFactorState : TwoFactorState;
  twoFactorSecret : option string;
  twoFactorQrCode : option string
}.

(** The hook's state together with the browser state it reads and writes. *)
Record Hook : Type := mkHook {
  state : State;
  localStorage : Storage;
  alerts : list string
}.

Definition setIsAdmin (b : bool) (h : Hook) : Hook :=
  mkHook (mkState b (twoFactorState (state h)) (twoFactorSecret (state h))
            (twoFactorQrCode (state h)))
    (localStorage h) (alerts h).

Definition setTwoFactorState (t : TwoFactorState) (h : Hook) : Hook :=
  mkHook (mkState (isAdmin (state h)) t (twoFactorSecret (state h))
            (twoFactorQrCode (state h)))
    (localStorage h) (alerts h).

Definition setTwoFactorSecret (s : option string) (h : Hook) : Hook :=
  mkHook (mkState (isAdmin (state h)) (twoFactorState (state h)) s
            (twoFactorQrCode (state h)))
    (localStorage h) (alerts h).

Definition setTwoFactorQrCode (q : option string) (h : Hook) : Hook :=
  mkHook (mkState (isAdmin (state h)) (twoFactorState (state h))
            (twoFactorSecret (state h)) q)
    (localStorage h) (alerts h).

Definition withStorage (f : Storage -> Storage) (h : Hook) : Hook :=
  mkHook (state h) (f (localStorage h)) (alerts h).

Definition alert (msg : string) (h : Hook) : Hook :=
  mkHook (state h) (localStorage h) (alerts h ++ [msg]).

(** The initialiser of the [twoFactorState] state. *)
Definition initialTwoFactorState (st : Storage) : TwoFactorState :=
  match getItem ADMIN_2FA_KEY st with
  | Some v => if String.eqb v "true" then Verified else NotSetup
  | None => NotSetup
  end.

(** The hook as first rendered in a browser with storage [st]. *)
Definition mount (st : Storage) : Hook :=
  mkHook (mkState false (initialTwoFactorState st) None None) st [].

Definition placeholderQrCode : string :=
  "data:image/png;base64,iVBORw0KGgoAAAANSUhEUgAAAKAAAACgCAMAAAC8EZcfAAAABlBMVEX///8AAABVwtN+AAAB9klEQVR4nO3V0WrEIBAF0Pn/n+5WKCHozKiZxHva3gqeYzQuPB4RERERERERERERERERERERERFRP8sCiIiIiIiIiIiIiIiIiIiIiIiIiIioJYA+j1PktmzlcQkQkaIadzmwgGH+I6+LJyeTUfOkHKKxYbNkTmZ0ysCSs2WTIx/9FptzjzO+u7b59jlPEUVEvAkiIk6HXjuRK4q5ByLmFyVzkS/PO/4dDolz+ggqk/VRJN+knsJZqvj2QH+WmlTpV3w1ZiKMdztF/BBvDsZbJffDaZQifQZ0n1H2FGc0TVLtMNXcE2c0OAOgP5xGS1+IVDNUc/txRopYGk5jRJSKoJrbjjMCZsHUcMz/MoN65tEomtB3XCBvifcGxGWB1+O3hnqSqIXiOnEZLmLVG8H1WixBZd13XMY9AFr7Qpya24wjopQEVHO7cQwYASPg+3FEpCKomtuMsxFjRs1txRkQJwPqnKq5nTgDoS8AUc1txJllgF5RzfXHmU2IiFgfoDYnInFJUN31xdmVwXJB1V1fnNmKMQW4Lqi664szW4HXNVV3XXH2BWB1TdVdT5wjVtdU3XXE+UB1TdVdPA6o7qq7cJy9wN9Vd9E4K+MZ/qi6C8ZZ4G+qu1icBf6uugvF2RF8rO4icY44UFwgzlFn6+Z/4hwVEREREY3zAwkzfipOxM6kAAAAAElFTkSuQmCC".

(** The [otpauth] URL of [generateQrCode]; encoding a component can throw. *)
Definition otpauthUrl (l : Libs) (secret account : string) : Outcome string :=
  let service := "CryptoLotto" in
  match encodeURIComponent l service, encodeURIComponent l account with
  | Returned svc, Returned acc =>
      Returned ("otpauth://totp/" ++ svc ++ ":" ++ acc ++ "?secret=" ++ secret
                ++ "&issuer=" ++ svc)%string
  | _, _ => Thrown
  end.

(** [generateQrCode]: the QR code set and returned; it never throws. *)
Definition generateQrCode (l : Libs) (secret account : string) (h : Hook)
    : Hook * string :=
  match otpauthUrl l secret account with
  | Returned url =>
      match toDataURL l url with
      | Returned qrCode => (setTwoFactorQrCode (Some qrCode) h, qrCode)
      | Thrown =>
          (setTwoFactorQrCode (Some placeholderQrCode) h, placeholderQrCode)
      end
  | Thrown => (setTwoFactorQrCode (Some placeholderQrCode) h, placeholderQrCode)
  end.

(** The admin check of the query function: [Some b] when it got as far as
    comparing [contract.admin()] with the account. *)
Definition compareAdmin (w : Wallet) : option bool :=
  if negb (isConnected w) || negb (truthy_opt (account w)) then None
  else
    match account w, provider w with
    | Some acct, Some p =>
        match getNetwork p with
        | Returned chainId =>
            match getLotteryContract p chainId with
            | Returned (Some admin) =>
                match admin with
                | Returned adminAddress =>
                    Some (String.eqb (toLowerCase adminAddress) (toLowerCase acct))
                | Thrown => None
                end
            | Returned None => None
            | Thrown => None
            end
        | Thrown => None
        end
    | _, _ => None
    end.

(** The 2FA part of the query function, for a current admin. *)
Definition loadTwoFactor (l : Libs) (acct : string) (h : Hook) : Hook :=
  let storedSecret := getItem ADMIN_2FA_SECRET_KEY (localStorage h) in
  let verified :=
    match getItem ADMIN_2FA_KEY (localStorage h) with
    | Some v => String.eqb v "true"
    | None => false
    end in
  match storedSecret with
  | Some secret =>
      if truthy_str secret then
        let h := setTwoFactorSecret (Some secret) h in
        if verified then setTwoFactorState Verified h
        else fst (generateQrCode l secret acct (setTwoFactorState Setup h))
      else setTwoFactorState NotSetup h
  | None => setTwoFactorState NotSetup h
  end.

(** The query function that checks whether the wallet is the admin. *)
Definition queryFn (l : Libs) (w : Wallet) (h : Hook) : Hook * bool :=
  match compareAdmin w with
  | Some isCurrentAdmin =>
      let h := setIsAdmin isCurrentAdmin h in
      let h :=
        if isCurrentAdmin then
          match account w with
          | Some acct => loadTwoFactor l acct h
          | None => h
          end
        else h in
      (h, isCurrentAdmin)
  | None => (setIsAdmin false h, false)
  end.

(** The Base32 alphabet of [generateCustomSecret]. *)
Definition base32Chars : string := "ABCDEFGHIJKLMNOPQRSTUVWXYZ234567".

(** [generateCustomSecret]; [random i] is the value of
    [Math.floor(Math.random() * chars.length)] at iteration [i]. *)
Definition generateCustomSecret (random : nat -> nat) (length : nat) : string :=
  fold_left (fun result i => (result ++ charAt base32Chars (random i))%string)
    (seq 0 length) EmptyString.

Definition demoAccount : string := "0xAbc123DemoWalletAddress456Def789".

(** [setupTwoFactor]: the hook afterwards, and the secret and QR code
    returned. *)
Definition setupTwoFactor (l : Libs) (random : nat -> nat) (w : Wallet)
    (h : Hook) : Hook * (string * string) :=
  let userAccount :=
    match account w with
    | Some a => if truthy_str a then a else demoAccount
    | None => demoAccount
    end in
  let secret := generateCustomSecret random 20 in
  let h := withStorage (setItem ADMIN_2FA_SECRET_KEY secret) h in
  let h := setTwoFactorSecret (Some secret) h in
  let '(h, qrCode) := generateQrCode l secret userAccount h in
  let h := setTwoFactorState Setup h in
  (h, (secret, qrCode)).

(** [verifyTwoFactor]; [String.length] stands for [token.length], with
    which it agrees on ASCII tokens. *)
Definition verifyTwoFactor (token : string) (h : Hook) : Hook * bool :=
  if negb (truthy_opt (twoFactorSecret (state h))) then
    (alert "Error verifying 2FA: Two-factor authentication not set up" h, false)
  else
    let isValid :=
      String.eqb token "123456" || (String.length token =? 6)%nat in
    if isValid then
      let h := withStorage (setItem ADMIN_2FA_KEY "true") h in
      (setTwoFactorState Verified h, true)
    else (h, false).

(** [clearTwoFactorState], at the given [window.location.pathname]. *)
Definition clearTwoFactorState (pathname : string) (h : Hook) : Hook :=
  let isAdminPageActive := str_includes pathname "/admin" in
  if negb isAdminPageActive then
    let h := withStorage (removeItem ADMIN_2FA_KEY) h in
    setTwoFactorState
      (if truthy_opt (twoFactorSecret (state h)) then Setup else NotSetup) h
  else h.

(** The effect on account changes; [refetch] stands for [refetchAdmin]. *)
Definition accountEffect (l : Libs) (w : Wallet) (h : Hook) : Hook :=
  if isConnected w && truthy_opt (account w) then fst (queryFn l w h)
  else setTwoFactorState NotSetup (setIsAdmin false h).

(** What an admin operation reports: its result, the contract calls it
    sent, whether it invalidated the lottery queries, and its alert. *)
Record Report : Type := mkReport {
  result : bool;
  calls : list ContractCall;
  invalidated : bool;
  shown : option string
}.

Definition notAuthorized : string :=
  "Not authorized - Admin status and 2FA verification required".

(** Sending one call and waiting for it: [Some] report when the operation
    returns from inside the [try], [None] when it falls through to the mock
    implementation; the call is recorded once sent. *)
Definition sendAndWait (contract : ContractCall -> Outcome Tx)
    (call : ContractCall) : list ContractCall * bool :=
  match contract call with
  | Returned tx =>
      match wait tx with
      | Returned _ => ([call], true)
      | Thrown => ([call], false)
      end
  | Thrown => ([call], false)
  end.

(** The contract of the provider's network, with signer, if it can be had. *)
Definition signerContract (w : Wallet)
    : option (Provider * (ContractCall -> Outcome Tx)) :=
  match provider w with
  | Some p =>
      match getNetwork p with
      | Returned chainId =>
          match getLotteryContractWithSigner p chainId with
          | Returned (Some contract) => Some (p, contract)
          | _ => None
          end
      | Thrown => None
      end
  | None => None
  end.

Definition startNewDraw (l : Libs) (w : Wallet) (h : Hook)
    (ticketPrice initialJackpot : string) (drawTime seriesIndex : Z)
    (useFutureBlock : bool) : Report :=
  if negb (isAdmin (state h)) || negb (is_verified (twoFactorState (state h)))
  then mkReport false [] false
         (Some ("Error starting new draw: " ++ notAuthorized)%string)
  else
    let mock sent :=
      mkReport true sent false
        (Some "Development mode: New draw started successfully!") in
    match signerContract w with
    | Some (p, contract) =>
        match parseEther l ticketPrice, parseEther l initialJackpot with
        | Returned priceInWei, Returned jackpotInWei =>
            let attempt :=
              if useFutureBlock then
                match getBlockNumber p with
                | Returned currentBlock =>
                    sendAndWait contract
                      (StartNewFutureBlockDraw priceInWei jackpotInWei
                         (currentBlock + 200) seriesIndex)
                | Thrown => ([], false)
                end
              else
                sendAndWait contract
                  (StartNewXDraw priceInWei jackpotInWei drawTime seriesIndex) in
            if snd attempt then mkReport true (fst attempt) true None
            else mock (fst attempt)
        | _, _ => mock []
        end
    | None => mock []
    end.

(** [winningNumbers.join(', ')]. *)
Fixpoint joinNumbers (l : list Z) : string :=
  match l with
  | [] => EmptyString
  | [n] => show n
  | n :: rest => (show n ++ ", " ++ joinNumbers rest)%string
  end.

Definition completeDrawManually (w : Wallet) (h : Hook) (drawId : Z)
    (winningNumbers : list Z) : Report :=
  if negb (isAdmin (state h)) || negb (is_verified (twoFactorState (state h)))
  then mkReport false [] false
         (Some ("Error completing draw: " ++ notAuthorized)%string)
  else if negb (List.length winningNumbers =? 6)%nat
  then mkReport false [] false
         (Some "Error completing draw: Must provide exactly 6 winning numbers")
  else
    let mock sent :=
      mkReport true sent false
        (Some ("Development mode: Draw #" ++ show drawId
               ++ " completed successfully with winning numbers: "
               ++ joinNumbers winningNumbers ++ "!")%string) in
    match signerContract w with
    | Some (_, contract) =>
        let attempt :=
          sendAndWait contract (CompleteDrawManually drawId winningNumbers) in
        if snd attempt then mkReport true (fst attempt) true None
        else mock (fst attempt)
    | None => mock []
    end.

End Admin.

(** ** Header *)

Module Header.
Import Browser.

Record State : Type := mkState {
  isOpen : bool;
  showWalletModal : bool;
  location : string
}.

(** [handleAdminClick]: the state afterwards and the titles of the toasts
    shown. *)
Definition handleAdminClick (w : Admin.Wallet) (s : State)
    : State * list string :=
  if negb (Admin.isConnected w) then (s, ["Wallet Not Connected"])
  else
    match Admin.provider w, Admin.account w with
    | Some p, Some acct =>
        if negb (truthy_str acct) then (s, ["Wallet Error"])
        else
          match Admin.getNetwork p with
          | Returned chainId =>
              match Admin.getLotteryContract p chainId with
              | Returned (Some admin) =>
                  match admin with
                  | Returned adminAddress =>
                      if String.eqb (toLowerCase adminAddress) (toLowerCase acct)
                      then (mkState (isOpen s) (showWalletModal s) "/admin", [])
                      else (s, ["Access Denied"])
                  | Thrown => (s, ["Error"])
                  end
              | Returned None => (s, ["Contract Error"])
              | Thrown => (s, ["Error"])
              end
          | Thrown => (s, ["Error"])
          end
    | _, _ => (s, ["Wallet Error"])
    end.

Definition toggleMobileMenu (s : State) : State :=
  mkState (negb (isOpen s)) (showWalletModal s) (location s).

End Header.

(** ** PastWinners: the time helper of the winner cards *)

Module WinnerCards.

(** [getTimeDifference]; [now] is [Date.now()]. *)
Definition getTimeDifference (timestamp : option Z) (now : Z) : string :=
  match timestamp with
  | None => "Unknown time"
  | Some ts =>
      if negb (truthy (Some ts)) then "Unknown time"
      else
        let diffHours := (now - ts) / (1000 * 60 * 60) in
        if diffHours <? 24 then (show diffHours ++ " hours ago")%string
        else
          let diffDays := diffHours / 24 in
          (show diffDays ++ " days ago")%string
  end.

End WinnerCards.

(** ** PastWinners, the backup copy: its load effect *)

Module BackupEffect.
Import Winners.

(** A [setTimeout] that will call [refreshWinners(forceReset)]. *)
Record Timer : Type := mkTimer {
  delay : Z;
  forceReset : bool
}.

(** The load effect: the state it leaves and the timers it sets. *)
Definition loadEffect (w : Wallet) (c : Chain) (p : Props) (now : Z)
    (s : State) : State * list Timer :=
  if (negb (is_undefined (previousDrawId s))
      && negb (strict_eq (sharedDrawId p) (previousDrawId s)))
     || (negb (is_undefined (previousSeriesIndex s))
         && negb (strict_eq (sharedSeriesIndex p) (previousSeriesIndex s)))
  then
    (setPreviousSeriesIndex (sharedSeriesIndex p)
       (setPreviousDrawId (sharedDrawId p) s),
     [mkTimer 100 true])
  else
    let initial :=
      is_undefined (previousDrawId s) || is_undefined (previousSeriesIndex s) in
    let s1 :=
      if initial then
        setPreviousSeriesIndex (sharedSeriesIndex p)
          (setPreviousDrawId (sharedDrawId p) s)
      else s in
    if initial && truthy (sharedDrawId p) then (s1, [mkTimer 100 false])
    else if (Z.of_nat (List.length (winners s)) =? 0)
            && truthy (sharedDrawId p) && provider w && truthy (chainId w)
    then (PastWinnersBackup.refreshWinners w c p now false s1, [])
    else (s1, []).

(** A timer of the effect going off. *)
Definition fire (w : Wallet) (c : Chain) (p : Props) (now : Z) (t : Timer)
    (s : State) : State :=
  PastWinnersBackup.refreshWinners w c p now (forceReset t) s.

End BackupEffect.

(** ** ParticipantsList, the variant with an effective draw ID *)

Module ParticipantsListAlt.

Definition getDefaultDrawIdForSeries (seriesIndex : option Z) : Z :=
  match seriesIndex with
  | None => 1
  | Some 0 => 1
  | Some 1 => 2
  | Some 2 => 3
  | Some 3 => 4
  | Some 4 => 5
  | Some 5 => 6
  | Some _ => 1
  end.

(** [effectiveDrawId], never undefined. *)
Definition effectiveDrawId (sharedSeriesIndex sharedDrawId : option Z) : Z :=
  match sharedDrawId with
  | Some d => d
  | None => getDefaultDrawIdForSeries sharedSeriesIndex
  end.

End ParticipantsListAlt.

(** ** HeroBanner *)

Module HeroBanner.

(** The selection the banner holds through [useLotteryData]. *)
Record Local : Type := mkLocal {
  selectedSeriesIndex : option Z;
  selectedDrawId : option Z
}.

(** The optional setter props, acting on the state of the page. *)
Record Setters : Type := mkSetters {
  setSharedSeriesIndex : option (Home.SetStateAction -> Home.State -> Home.State);
  setSharedDrawId : option (option Z -> Home.State -> Home.State)
}.


(** The effect that follows the shared props. *)
Definition syncEffect (sharedSeriesIndex sharedDrawId : option Z)
    (l : Local) : Local :=
  let l1 :=
    if negb (is_undefined sharedSeriesIndex)
       && negb (strict_eq sharedSeriesIndex (selectedSeriesIndex l))
    then mkLocal sharedSeriesIndex (selectedDrawId l) else l in
  if negb (is_undefined sharedDrawId)
     && negb (strict_eq sharedDrawId (selectedDrawId l))
  then mkLocal (selectedSeriesIndex l1) sharedDrawId else l1.


Definition callDraw (st : Setters) (v : option Z) (h : Home.State)
    : Home.State :=
  match setSharedDrawId st with
  | Some set => set v h
  | None => h
  end.


(** [handleDrawChange], for a value that [parseInt] reads as a number;
    [None] marks a value read as [NaN], left out of the model as above. *)
Definition handleDrawChange (st : Setters) (value : string)
    (l : Local) (h : Home.State) : option (Local * Home.State) :=
  match parseInt value with
  | None => None
  | Some newDrawId =>
      if negb (strict_eq (selectedDrawId l) (Some newDrawId)) then
        let l := mkLocal (selectedSeriesIndex l) (Some newDrawId) in
        let h := callDraw st (Some newDrawId) h in
        Some (l, h)
      else Some (l, h)
  end.

End HeroBanner.

(** ** Home: the props it hands to its children *)

Module HomeChildren.



End HomeChildren.

(** ** BuyTickets: the number grids *)

Module NumberGrid.

(** The numbers [renderNumberGrid] and [renderLottoNumberGrid] offer. *)
Definition mainNumbers : list Z := map Z.of_nat (seq 1 70).
Definition lottoNumbers : list Z := map Z.of_nat (seq 1 30).

(** [isDisabled] of a main-number button. *)
Definition isDisabled (selectedNumbers : list Z) (i : Z) : bool :=
  (Z.of_nat (List.length selectedNumbers) >=? 5)
  && negb (includes selectedNumbers i).

End NumberGrid.

(** ** PromoBanner: the arrow buttons and the timers *)

Module BannerControls.
Import PromoBanner.

(** The previous-slide button: both state updates of its handler, in
    order, on the state the button was rendered from. *)
Definition clickPrevious (s : State) : State :=
  handleManualNavigation
    (if currentIndex s >? 0 then currentIndex s - 1 else bannerCount - 1)
    (goToPrevSlide s).

Definition clickNext (s : State) : State :=
  handleManualNavigation (rem (currentIndex s + 1) bannerCount)
    (goToNextSlide s).

Inductive Event : Type :=
| AutoplayTick
| ResumeAutoplay
| ClickPrevious
| ClickNext
| ClickDot (index : nat).

(** The interval exists only while [autoplay] is set, and there is a dot
    for each banner image only. *)
Definition step (ev : Event) (s : State) : State :=
  match ev with
  | AutoplayTick => if autoplay s then goToNextSlide s else s
  | ResumeAutoplay => mkState (currentIndex s) true
  | ClickPrevious => clickPrevious s
  | ClickNext => clickNext s
  | ClickDot index =>
      if Z.of_nat index <? bannerCount
      then handleManualNavigation (Z.of_nat index) s
      else s
  end.

Definition run (events : list Event) (s : State) : State :=
  fold_left (fun s ev => step ev s) events s.

End BannerControls.

(** * Vocabulary of the properties *)

(** ** Predicates and tables the properties are stated with *)

(** The series with a name of their own are exactly the indices 0 to 5. *)
Definition namedSeries (i : option Z) : Prop :=
  exists n, i = Some n /\ 0 <= n <= 5.

(** The verified counts as a table, (series, draw, count) by row. *)
Definition verifiedCountsTable : list (Z * Z * Z) :=
  [(0, 1, 8); (1, 2, 6); (2, 1, 5); (3, 1, 7); (3, 2, 4); (4, 1, 6); (5, 1, 9)].

(** Looking a pair up in the table; 0 when it has no row. *)
Definition tableCount (series : option Z) (draw : Z) : Z :=
  match series with
  | None => 0
  | Some s =>
      match find (fun row => (fst (fst row) =? s) && (snd (fst row) =? draw))
              verifiedCountsTable with
      | Some row => snd row
      | None => 0
      end
  end.

(** An index that names one of the banner images. *)
Definition validIndex (i : Z) : Prop := 0 <= i < PromoBanner.bannerCount.

(** A selection the grid can show: at most 5 numbers, no number twice. *)
Definition validSelection (l : list Z) : Prop :=
  NoDup l /\ (List.length l <= 5)%nat.

(** Pressing the numbers of [presses] one after the other. *)
Definition toggleAll (presses : list Z) (s : BuyTickets.State)
    : BuyTickets.State :=
  fold_left (fun s n => BuyTickets.toggleNumber n s) presses s.

(** A tracked previous value is defined and differs from the current prop. *)
Definition definedAndDiffers (previous current : option Z) : Prop :=
  previous <> None /\ current <> previous.

(** Draw 1 of series 0, the series index possibly missing. *)
Definition firstDrawOfFirstSeries (p : Winners.Props) : Prop :=
  Winners.sharedDrawId p = Some 1
  /\ (Winners.sharedSeriesIndex p = Some 0 \/ Winners.sharedSeriesIndex p = None).

(** The hardcoded winner, with or without winning numbers attached. *)
Definition isFallbackWinner (now : Z) (x : Winners.Winner) : Prop :=
  x = Winners.fallbackWinner now
  \/ exists wn, x = Winners.withWinningNumbers wn (Winners.fallbackWinner now).

(** A contract list, with or without winning numbers attached. *)
Definition isContractList (ws result : list Winners.Winner) : Prop :=
  result = ws \/ exists wn, result = map (Winners.withWinningNumbers wn) ws.

(** What [handleConfirmPurchase] itself checks before calling [buyTicket]. *)
Definition purchaseChecked (e : BuyTickets.Env) (s : BuyTickets.State) : Prop :=
  List.length (BuyTickets.selectedNumbers s) = 5%nat
  /\ BuyTickets.selectedLottoNumber s <> None
  /\ BuyTickets.isDrawAvailable e = true
  /\ BuyTickets.isTimeRemainingZero e = false.

(** The state a session leads to from the initial state. *)
Definition stateAfter (session : list (BuyTickets.Env * BuyTickets.Event))
    : BuyTickets.State :=
  fst (BuyTickets.run session BuyTickets.initialState).

(** One of the two confirmation modals is open. *)
Definition confirming (s : BuyTickets.State) : bool :=
  BuyTickets.showBuyConfirmModal s || BuyTickets.showReconfirmModal s.

(** ** Concrete inputs *)

(** A contract whose ticket count cannot be read, with one buyer's ticket
    at every index. *)
Definition sampleContract : ParticipantsList.Contract :=
  ParticipantsList.mkContract
    (fun _ => Thrown)
    (fun _ _ => Returned (Some (ParticipantsList.mkTicketData 6
        "0x03C4bcC1599627e0f766069Ae70E40C62b5d6f1e" 1700000000 false)))
    (fun _ _ => Returned (Some (Some [1; 2; 3; 4; 5; 6]))).

(** A connected wallet on that contract. *)
Definition sampleWallet : ParticipantsList.Wallet :=
  ParticipantsList.mkWallet true (Some 11155111) (Returned (Some sampleContract)).

(** Twelve tickets of one buyer. *)
Definition sampleTickets : list ParticipantsList.Ticket :=
  map (fun i => ParticipantsList.mkTicket
                  "0x494B917114173eD0636A7B18a7DC1D007fc289AF"
                  [1; 2; 3; 4; 5] (Some 6) 1700000000000
                  ("1-" ++ show (Z.of_nat i))%string)
    (seq 0 12).

(** A state showing the winner of draw 1 of series 0. *)
Definition sampleShown : Winners.State :=
  Winners.mkState [Winners.fallbackWinner 1700000000000] false None true 1
    (Some 1) (Some 0).

(** A chain that has lost the winners of every draw: draws are reported
    completed, winning numbers can be read, the winners list is empty. *)
Definition emptyChain : Winners.Chain :=
  Winners.mkChain
    (fun _ _ => Returned (Some true))
    (Returned 1)
    (fun _ _ => Returned [])
    (fun _ => Returned (Some [1; 2; 3; 4; 5; 8])).

(** A connected wallet. *)
Definition onlineWallet : Winners.Wallet := Winners.mkWallet true (Some 11155111).

(** Draw 1 of series 0. *)
Definition firstDraw : Winners.Props := Winners.mkProps (Some 1) (Some 0).

(** The hook values of a render with the wallet connected, a draw open and
    an hour left. *)
Definition onlineEnv : BuyTickets.Env :=
  BuyTickets.mkEnv true true (Some (BuyTickets.mkTimeRemaining 0 1 0 0))
    (Some 0) (Some 1) ([3; 11; 25; 40; 68], 9)
    (BuyTickets.mkBuyResult false None).

(** The same render after the wallet has disconnected. *)
Definition offlineEnv : BuyTickets.Env :=
  BuyTickets.mkEnv false true (Some (BuyTickets.mkTimeRemaining 0 1 0 0))
    (Some 0) (Some 1) ([3; 11; 25; 40; 68], 9)
    (BuyTickets.mkBuyResult false None).

(** A purchase started with the wallet connected, up to the open
    reconfirmation modal. *)
Definition startedPurchase : list (BuyTickets.Env * BuyTickets.Event) :=
  [(onlineEnv, BuyTickets.ClickBuy); (onlineEnv, BuyTickets.ConfirmInitial)].

(** The [buyTicket] call for the default selection. *)
Definition defaultCall : BuyTickets.BuyCall :=
  BuyTickets.mkBuyCall [7; 14; 21; 42; 63] (Some 17) (Some 0) (Some 1).

(** ** Vocabulary for the admin hook *)

(** The hook allows admin operations: admin wallet and verified 2FA. *)
Definition authorized (h : Admin.Hook) : bool :=
  Admin.isAdmin (Admin.state h)
  && Admin.is_verified (Admin.twoFactorState (Admin.state h)).

(** Every character of [s] is a Base32 character. *)
Definition isBase32 (s : string) : Prop :=
  Forall (fun c => In c (list_ascii_of_string Admin.base32Chars))
    (list_ascii_of_string s).

(** A call [startNewDraw] may send for the given arguments. *)
Definition expectedDrawCall (l : Admin.Libs) (w : Admin.Wallet)
    (ticketPrice initialJackpot : string) (drawTime seriesIndex : Z)
    (useFutureBlock : bool) (c : Admin.ContractCall) : Prop :=
  exists price jackpot,
    Admin.parseEther l ticketPrice = Returned price
    /\ Admin.parseEther l initialJackpot = Returned jackpot
    /\ if useFutureBlock then
         exists p block,
           Admin.provider w = Some p
           /\ Admin.getBlockNumber p = Returned block
           /\ c = Admin.StartNewFutureBlockDraw price jackpot (block + 200)
                    seriesIndex
       else c = Admin.StartNewXDraw price jackpot drawTime seriesIndex.

(** Library functions that never throw. *)
Definition plainLibs : Admin.Libs :=
  Admin.mkLibs (fun s => Returned s) (fun url => Returned ("qr:" ++ url)%string)
    (fun s => match parseInt s with Some n => Returned n | None => Thrown end).

(** A provider whose contract names [admin] as its admin and rejects every
    transaction. *)
Definition rejectingProvider (admin : string) : Admin.Provider :=
  Admin.mkProvider (Returned "11155111") (Returned 1000)
    (fun _ => Returned (Some (Returned admin)))
    (fun _ => Returned (Some (fun _ => Thrown))).







(** The admin's wallet, the address in another letter case than the
    contract's. *)
Definition adminWallet : Admin.Wallet :=
  Admin.mkWallet true (Some "0x03c4bcc1599627e0f766069ae70e40c62b5d6f1e")
    (Some (rejectingProvider "0x03C4bcC1599627e0f766069Ae70E40C62b5d6f1e")).


(** A disconnected wallet. *)
Definition noWallet : Admin.Wallet := Admin.mkWallet false None None.

(** A hook of a verified admin. *)
Definition verifiedHook : Admin.Hook :=
  Admin.mkHook (Admin.mkState true Admin.Verified (Some "JBSWY3DPEHPK3PXPJBSW") None)
    (Browser.setItem Admin.ADMIN_2FA_KEY "true"
       (Browser.setItem Admin.ADMIN_2FA_SECRET_KEY "JBSWY3DPEHPK3PXPJBSW"
          Browser.emptyStorage))
    [].

(** A random source cycling through the alphabet. *)
Definition cyclingRandom (i : nat) : nat := (7 * i + 3) mod 32.

(** ** Vocabulary for the further properties *)

(** Both trackers of a PastWinners state equal the current props. *)
Definition tracksProps (p : Winners.Props) (s : Winners.State) : Prop :=
  Winners.previousDrawId s = Winners.sharedDrawId p
  /\ Winners.previousSeriesIndex s = Winners.sharedSeriesIndex p.

(** No tracker of a PastWinners state is set. *)
Definition untracked (s : Winners.State) : Prop :=
  Winners.previousDrawId s = None /\ Winners.previousSeriesIndex s = None.

(** The props have changed against the trackers, as both load effects test. *)
Definition propsChanged (p : Winners.Props) (s : Winners.State) : Prop :=
  definedAndDiffers (Winners.previousDrawId s) (Winners.sharedDrawId p)
  \/ definedAndDiffers (Winners.previousSeriesIndex s)
       (Winners.sharedSeriesIndex p).

(** A scanned ticket as [queryFn] can produce it. *)
Definition wellFormedTicket (t : ParticipantsList.Ticket) : Prop :=
  (List.length (ParticipantsList.numbers t) <= 5)%nat
  /\ ParticipantsList.walletAddress t <> EmptyString
  /\ ParticipantsList.walletAddress t <> ParticipantsList.zeroAddress
  /\ ParticipantsList.lottoNumber t <> None.

(** The tickets shown on page [page] for page size [size]. *)
Definition pageOf {A : Type} (l : list A) (size page : Z) : list A :=
  slice l ((page - 1) * size) ((page - 1) * size + size).

(** The pages 1 .. [n]. *)
Definition pagesUpTo (n : nat) : list Z := map Z.of_nat (seq 1 n).

(** A main-number selection that can be bought: 5 distinct numbers of the
    grid. *)
Definition gridSelection (l : list Z) : Prop :=
  NoDup l /\ (forall n, In n l -> 1 <= n <= 70).

(** The selection a session of grid events keeps. *)
Definition gridState (s : BuyTickets.State) : Prop :=
  gridSelection (BuyTickets.selectedNumbers s)
  /\ (List.length (BuyTickets.selectedNumbers s) <= 5)%nat
  /\ (forall k, BuyTickets.selectedLottoNumber s = Some k -> 1 <= k <= 30).

(** A quick pick that is a valid ticket. *)
Definition validPick (pick : list Z * Z) : Prop :=
  gridSelection (fst pick) /\ List.length (fst pick) = 5%nat
  /\ 1 <= snd pick <= 30.

(** An event the rendered number grids and buttons can produce. *)
Definition gridEvent (x : BuyTickets.Env * BuyTickets.Event) : Prop :=
  match snd x with
  | BuyTickets.ClickNumber n => 1 <= n <= 70
  | BuyTickets.ClickLottoNumber n => 1 <= n <= 30
  | BuyTickets.ClickQuickPick =>
      BuyTickets.isConnected (fst x) = false
      \/ validPick (BuyTickets.genQuickPick (fst x))
  | _ => True
  end.

(** A [buyTicket] call for a well-formed ticket. *)
Definition validCall (c : BuyTickets.BuyCall) : Prop :=
  gridSelection (BuyTickets.call_numbers c)
  /\ List.length (BuyTickets.call_numbers c) = 5%nat
  /\ exists k, BuyTickets.call_lottoNumber c = Some k /\ 1 <= k <= 30.

(** A chain on which the winners can be read but the winning numbers
    cannot. *)
Definition numbersUnreadable : Winners.Chain :=
  Winners.mkChain
    (fun _ _ => Returned (Some true))
    (Returned 1)
    (fun _ _ => Returned [Winners.fallbackWinner 1700000000000])
    (fun _ => Thrown).

(** Draw 2 of series 1. *)
Definition secondDraw : Winners.Props := Winners.mkProps (Some 2) (Some 1).



(** A render with the wallet connected and a purchase that succeeds. *)
Definition successEnv : BuyTickets.Env :=
  BuyTickets.mkEnv true true (Some (BuyTickets.mkTimeRemaining 0 1 0 0))
    (Some 0) (Some 1) ([3; 11; 25; 40; 68], 9)
    (BuyTickets.mkBuyResult true (Some "0xabc123")).

(** * Properties *)

(** ** ParticipantsList: series table and ticket-count fallback *)

Section SeriesTable.
Import ParticipantsList.

Variable draw : option Z.

Let props (i : option Z) : Props := mkProps i draw.

Lemma unnamed_series_default (i : option Z) :
  ~ namedSeries i ->
  getSeriesTitle (props i) = "Lottery Series"
  /\ getTicketPrice (props i) = "0.0001".
Proof.
  intros Hno. unfold getSeriesTitle, getTicketPrice, props; simpl.
  destruct i as [n|]; [|split; reflexivity].
  destruct n as [|q|q]; try (split; reflexivity).
  - exfalso. apply Hno. exists 0. split; [reflexivity | lia].
  - assert (Hq : (q <= 5)%positive \/ (5 < q)%positive) by lia.
    destruct Hq as [Hq|Hq].
    + exfalso. apply Hno. exists (Z.pos q). split; [reflexivity | lia].
    + do 3 (destruct q as [q|q|]; try lia; try (split; reflexivity)).
Qed.

End SeriesTable.

(** C6: [getSeriesTitle] and [getTicketPrice] give each of the series 0 to 5
    its fixed name and ticket price, and every other index (a number
    outside 0..5, or no index at all) the name "Lottery Series" and the
    price "0.0001". *)
Theorem series_title_and_price (draw : option Z) :
  let title i := ParticipantsList.getSeriesTitle (ParticipantsList.mkProps i draw) in
  let price i := ParticipantsList.getTicketPrice (ParticipantsList.mkProps i draw) in
  (title (Some 0) = "Beginner Series" /\ price (Some 0) = "0.0001")
  /\ (title (Some 1) = "Intermediate Series" /\ price (Some 1) = "0.0002")
  /\ (title (Some 2) = "Monthly Mega Series" /\ price (Some 2) = "0.0005")
  /\ (title (Some 3) = "Weekly Express Series" /\ price (Some 3) = "0.0001")
  /\ (title (Some 4) = "Quarterly Rewards Series" /\ price (Some 4) = "0.0008")
  /\ (title (Some 5) = "Annual Championship Series" /\ price (Some 5) = "0.001")
  /\ (forall i, ~ namedSeries i ->
        title i = "Lottery Series" /\ price i = "0.0001").
Proof.
  intros title price.
  repeat (split; [split; reflexivity|]).
  intros i Hi. apply unnamed_series_default; exact Hi.
Qed.

Lemma series_title_and_price_witness :
  ~ namedSeries (Some 7)
  /\ ParticipantsList.getSeriesTitle (ParticipantsList.mkProps (Some 7) (Some 1))
     = "Lottery Series"
  /\ ParticipantsList.getTicketPrice (ParticipantsList.mkProps (Some 7) (Some 1))
     = "0.0001".
Proof.
  assert (H : ~ namedSeries (Some 7)).
  { intros [n [E B]]. injection E as E. lia. }
  split; [exact H|].
  exact (proj2 (proj2 (proj2 (proj2 (proj2 (proj2
           (series_title_and_price (Some 1))))))) (Some 7) H).
Defined.

Section TicketScan.
Import ParticipantsList.

Lemma verifiedCount_table (series : option Z) (draw : Z) :
  verifiedCount series draw = tableCount series draw.
Proof.
  unfold verifiedCount, tableCount, verifiedCountsTable, strict_eq.
  destruct series as [s|]; [|reflexivity].
  cbn [find fst snd].
  rewrite (Z.eqb_sym 0 s), (Z.eqb_sym 1 s), (Z.eqb_sym 2 s),
    (Z.eqb_sym 3 s), (Z.eqb_sym 4 s), (Z.eqb_sym 5 s),
    (Z.eqb_sym 1 draw), (Z.eqb_sym 2 draw).
  destruct (draw =? 1), (draw =? 2), (s =? 0), (s =? 1), (s =? 2),
    (s =? 3), (s =? 4), (s =? 5); reflexivity.
Qed.

Lemma scanTicket_length c draw now i acc :
  (List.length (scanTicket c draw now i acc) <= S (List.length acc))%nat.
Proof.
  unfold scanTicket.
  destruct (ticketsMapping c draw i) as [[td|]|]; try lia.
  destruct (truthy_str (td_buyer td) && _); try lia.
  destruct (getTicketDetails c draw i); try lia.
  rewrite length_app; simpl; lia.
Qed.

Lemma scan_fold_length c draw now (idx : list nat) (acc : list Ticket) :
  (List.length
     (fold_left (fun acc i => scanTicket c draw (now i) i acc) idx acc)
   <= List.length idx + List.length acc)%nat.
Proof.
  revert acc. induction idx as [|i idx IH]; intros acc; simpl; [lia|].
  specialize (IH (scanTicket c draw (now i) i acc)).
  pose proof (scanTicket_length c draw (now i) i acc). lia.
Qed.

Lemma scanTickets_length c draw now count :
  (List.length (scanTickets c draw now count) <= Z.to_nat count)%nat.
Proof.
  unfold scanTickets.
  pose proof (scan_fold_length c draw now (seq 0 (Z.to_nat count)) []) as H.
  rewrite length_seq in H. simpl in H. lia.
Qed.

End TicketScan.

(** C3: when [getTotalTicketsSold] throws, [queryFn] scans the tickets with
    the verified count of the (series, draw) pair, which is the table's
    entry for the pair (8 for (0,1), 6 for (1,2), 5 for (2,1), 7 for (3,1),
    4 for (3,2), 6 for (4,1), 9 for (5,1)) and 0 for every other pair; the
    scan reads the ticket indices below that count, so it yields at most
    that many tickets. *)
Theorem ticket_count_fallback
    (w : ParticipantsList.Wallet) (c : ParticipantsList.Contract)
    (series : option Z) (draw : Z) (now : nat -> Z) :
  ParticipantsList.provider w = true ->
  truthy (ParticipantsList.chainId w) = true ->
  ParticipantsList.getLotteryContract w = Returned (Some c) ->
  ParticipantsList.getTotalTicketsSold c draw = Thrown ->
  let data :=
    ParticipantsList.queryFn w (ParticipantsList.mkProps series (Some draw)) now in
  ParticipantsList.participantCount data = tableCount series draw
  /\ ParticipantsList.tickets data
     = ParticipantsList.scanTickets c draw now (tableCount series draw)
  /\ (List.length (ParticipantsList.tickets data)
      <= Z.to_nat (tableCount series draw))%nat.
Proof.
  intros Hp Hc Hl Ht data.
  assert (E : data = ParticipantsList.mkContractData
                (ParticipantsList.scanTickets c draw now (tableCount series draw))
                (tableCount series draw)).
  { unfold data, ParticipantsList.queryFn; simpl.
    rewrite Hp, Hc, Hl; simpl.
    unfold ParticipantsList.ticketCount. rewrite Ht.
    rewrite verifiedCount_table. reflexivity. }
  rewrite E; simpl. repeat split.
  apply scanTickets_length.
Qed.

Lemma ticket_count_fallback_witness :
  let data :=
    ParticipantsList.queryFn sampleWallet
      (ParticipantsList.mkProps (Some 0) (Some 1)) (fun _ => 0) in
  ParticipantsList.participantCount data = tableCount (Some 0) 1
  /\ ParticipantsList.tickets data
     = ParticipantsList.scanTickets sampleContract 1 (fun _ => 0)
         (tableCount (Some 0) 1)
  /\ Nat.le (List.length (ParticipantsList.tickets data))
       (Z.to_nat (tableCount (Some 0) 1)).
Proof.
  exact (ticket_count_fallback sampleWallet sampleContract (Some 0) 1
           (fun _ => 0) eq_refl eq_refl eq_refl eq_refl).
Defined.

(** ** Home: the series handler keeps both selections equal *)

Section HomeSelection.
Import Home.

Lemma defaultDrawId_in_range (n : Z) :
  0 <= n <= 5 -> defaultDrawId (Some n) = n + 1.
Proof.
  intros H. unfold defaultDrawId, strict_eq.
  assert (C : n = 0 \/ n = 1 \/ n = 2 \/ n = 3 \/ n = 4 \/ n = 5) by lia.
  destruct C as [->|[->|[->|[->|[->| ->]]]]]; reflexivity.
Qed.

Lemma defaultDrawId_out_of_range (n : Z) :
  n < 0 \/ 5 < n -> defaultDrawId (Some n) = 1.
Proof.
  intros H. unfold defaultDrawId, strict_eq.
  repeat match goal with
         | |- context [n =? ?k] => destruct (Z.eqb_spec n k); [lia|]
         end.
  reflexivity.
Qed.

Lemma defaultDrawId_undefined : defaultDrawId None = 1.
Proof. reflexivity. Qed.

(** After the handler the synchronisation effect has nothing to push. *)
Lemma syncEffect_after_handler (value : SetStateAction) (s : State) :
  syncEffect (handleHomeSeriesIndexChange value s)
  = handleHomeSeriesIndexChange value s.
Proof.
  unfold syncEffect, handleHomeSeriesIndexChange; simpl.
  set (i := match value with Updater f => f (homeSeriesIndex s) | Value v => v end).
  rewrite Z.eqb_refl.
  assert (E : strict_eq i i = true).
  { destruct i as [n|]; simpl; [apply Z.eqb_refl | reflexivity]. }
  rewrite E. destruct (is_undefined i); reflexivity.
Qed.

End HomeSelection.

(** C5: after [handleHomeSeriesIndexChange] is applied with a series index
    [n], given directly or through an updater, the page state and the
    lottery-data state hold the same selection: both series indices are [n]
    and both draw IDs are the default draw of the series, [n + 1] for [n]
    in 0..5 and 1 for any other [n]. *)
Theorem home_series_change_consistent (n : Z) (s : Home.State) :
  let s' := Home.handleHomeSeriesIndexChange (Home.Value (Some n)) s in
  let d := if (0 <=? n) && (n <=? 5) then n + 1 else 1 in
  Home.homeSeriesIndex s' = Some n
  /\ Home.selectedSeriesIndex (Home.lotteryData s') = Some n
  /\ Home.homeDrawId s' = Some d
  /\ Home.selectedDrawId (Home.lotteryData s') = Some d
  /\ Home.handleHomeSeriesIndexChange (Home.Updater (fun _ => Some n)) s = s'
  /\ Home.syncEffect s' = s'.
Proof.
  intros s' d.
  assert (E : Home.defaultDrawId (Some n) = d).
  { unfold d. destruct ((0 <=? n) && (n <=? 5)) eqn:B.
    - apply defaultDrawId_in_range. lia.
    - apply defaultDrawId_out_of_range. lia. }
  repeat split;
    try (unfold s', Home.handleHomeSeriesIndexChange; simpl;
         rewrite ?E; reflexivity).
  apply syncEffect_after_handler.
Qed.

(** ** PromoBanner: the two rotations *)

Section Rotation.
Import PromoBanner.

Lemma nextSlideIndex_mod (i : Z) :
  0 <= i -> nextSlideIndex i = (i + 1) mod 6.
Proof.
  intros H. unfold nextSlideIndex, rem, bannerCount.
  apply Z.rem_mod_nonneg; lia.
Qed.

Lemma prevSlideIndex_mod (i : Z) :
  1 <= i + 6 -> prevSlideIndex i = (i + 5) mod 6.
Proof.
  intros H. unfold prevSlideIndex, rem, bannerCount.
  rewrite Z.rem_mod_nonneg by lia. f_equal. lia.
Qed.

Lemma validIndex_cases (i : Z) :
  validIndex i -> i = 0 \/ i = 1 \/ i = 2 \/ i = 3 \/ i = 4 \/ i = 5.
Proof. unfold validIndex, bannerCount. lia. Qed.

End Rotation.

(** C9: on an index in 0..5, [goToNextSlide] and [goToPrevSlide] are
    rotations modulo the 6 banners that undo each other, and both give an
    index in 0..5 again. *)
Theorem slide_rotations_inverse (s : PromoBanner.State) :
  validIndex (PromoBanner.currentIndex s) ->
  PromoBanner.goToPrevSlide (PromoBanner.goToNextSlide s) = s
  /\ PromoBanner.goToNextSlide (PromoBanner.goToPrevSlide s) = s
  /\ validIndex (PromoBanner.currentIndex (PromoBanner.goToNextSlide s))
  /\ validIndex (PromoBanner.currentIndex (PromoBanner.goToPrevSlide s))
  /\ PromoBanner.currentIndex (PromoBanner.goToNextSlide s)
     = (PromoBanner.currentIndex s + 1) mod 6
  /\ PromoBanner.currentIndex (PromoBanner.goToPrevSlide s)
     = (PromoBanner.currentIndex s - 1) mod 6.
Proof.
  destruct s as [i a]. simpl. intros H.
  unfold PromoBanner.goToPrevSlide, PromoBanner.goToNextSlide; simpl.
  destruct (validIndex_cases i H) as [->|[->|[->|[->|[->| ->]]]]];
    repeat split; try reflexivity; vm_compute; discriminate.
Qed.

Lemma slide_rotations_inverse_witness :
  validIndex 5
  /\ PromoBanner.goToPrevSlide (PromoBanner.goToNextSlide (PromoBanner.mkState 5 true))
     = PromoBanner.mkState 5 true
  /\ PromoBanner.currentIndex
       (PromoBanner.goToNextSlide (PromoBanner.mkState 5 true)) = 0.
Proof.
  assert (H : validIndex 5) by (unfold validIndex, PromoBanner.bannerCount; lia).
  pose proof (slide_rotations_inverse (PromoBanner.mkState 5 true) H) as T.
  split; [exact H|]. split; [exact (proj1 T)|].
  reflexivity.
Defined.

(** ** BuyTickets: the number selection *)

Section Selection.
Import BuyTickets.

Lemma includes_In (l : list Z) (n : Z) : includes l n = true <-> In n l.
Proof.
  unfold includes. rewrite existsb_exists. split.
  - intros [x [Hx E]]. apply Z.eqb_eq in E. subst. exact Hx.
  - intros H. exists n. split; [exact H | apply Z.eqb_refl].
Qed.

Lemma includes_not_In (l : list Z) (n : Z) : includes l n = false <-> ~ In n l.
Proof.
  rewrite <- includes_In. destruct (includes l n); split; congruence.
Qed.

Lemma toggled_present (n : Z) (l : list Z) :
  In n l -> toggled n l = filter (fun m => negb (m =? n)) l.
Proof.
  intros H. unfold toggled. apply includes_In in H. rewrite H. reflexivity.
Qed.

Lemma toggled_absent_room (n : Z) (l : list Z) :
  ~ In n l -> (List.length l < 5)%nat -> toggled n l = l ++ [n].
Proof.
  intros H L. unfold toggled. apply includes_not_In in H. rewrite H.
  destruct (Z.ltb_spec (Z.of_nat (List.length l)) 5); [reflexivity | lia].
Qed.

Lemma toggled_absent_full (n : Z) (l : list Z) :
  ~ In n l -> (5 <= List.length l)%nat -> toggled n l = l.
Proof.
  intros H L. unfold toggled. apply includes_not_In in H. rewrite H.
  destruct (Z.ltb_spec (Z.of_nat (List.length l)) 5); [lia | reflexivity].
Qed.

Lemma In_filter_neq (n m : Z) (l : list Z) :
  In m (filter (fun k => negb (k =? n)) l) <-> In m l /\ m <> n.
Proof.
  rewrite filter_In. rewrite negb_true_iff, Z.eqb_neq. reflexivity.
Qed.

Lemma toggled_valid (n : Z) (l : list Z) :
  validSelection l -> validSelection (toggled n l).
Proof.
  intros [ND L]. unfold validSelection.
  destruct (in_dec Z.eq_dec n l) as [Hin|Hout].
  - rewrite toggled_present by exact Hin. split.
    + apply NoDup_filter; exact ND.
    + pose proof (filter_length_le (fun m => negb (m =? n)) l). lia.
  - destruct (Nat.lt_ge_cases (List.length l) 5) as [Hlt|Hge].
    + rewrite toggled_absent_room by assumption. split.
      * apply NoDup_app; [exact ND | repeat constructor; intros [] |].
        intros a Ha [E|[]]. subst. contradiction.
      * rewrite length_app; simpl; lia.
    + rewrite toggled_absent_full by assumption. split; assumption.
Qed.

Lemma toggleAll_numbers (presses : list Z) (s : State) :
  selectedNumbers (toggleAll presses s)
  = fold_left (fun l n => toggled n l) presses (selectedNumbers s).
Proof.
  unfold toggleAll. revert s. induction presses as [|n ps IH]; intros s.
  - reflexivity.
  - simpl. rewrite IH. reflexivity.
Qed.

Lemma toggled_fold_valid (presses : list Z) (l : list Z) :
  validSelection l ->
  validSelection (fold_left (fun l n => toggled n l) presses l).
Proof.
  revert l. induction presses as [|n ps IH]; intros l H; simpl.
  - exact H.
  - apply IH. apply toggled_valid. exact H.
Qed.

End Selection.

(** C8: from a selection of at most 5 pairwise distinct numbers, every
    sequence of [toggleNumber] calls leaves a selection of at most 5
    pairwise distinct numbers; one call removes the number when it is
    selected (and nothing else), appends it when it is not selected and
    fewer than 5 numbers are, and changes nothing otherwise. *)
Theorem toggle_number_invariant (presses : list Z) (s : BuyTickets.State) :
  validSelection (BuyTickets.selectedNumbers s) ->
  validSelection (BuyTickets.selectedNumbers (toggleAll presses s))
  /\ (forall n,
        let l := BuyTickets.selectedNumbers s in
        let l' := BuyTickets.selectedNumbers (BuyTickets.toggleNumber n s) in
        (In n l -> ~ In n l' /\ forall m, In m l' <-> In m l /\ m <> n)
        /\ (~ In n l -> (List.length l < 5)%nat -> l' = l ++ [n])
        /\ (~ In n l -> (5 <= List.length l)%nat -> l' = l)).
Proof.
  intros H. split.
  - rewrite toggleAll_numbers. apply toggled_fold_valid. exact H.
  - intros n l l'. unfold l', l. simpl. split; [|split].
    + intros Hin. rewrite toggled_present by exact Hin. split.
      * rewrite In_filter_neq. intros [_ E]. apply E. reflexivity.
      * intros m. apply In_filter_neq.
    + apply toggled_absent_room.
    + apply toggled_absent_full.
Qed.

Lemma toggle_number_invariant_witness :
  validSelection (BuyTickets.selectedNumbers BuyTickets.initialState)
  /\ validSelection
       (BuyTickets.selectedNumbers
          (toggleAll [7; 9; 14; 3; 3; 70] BuyTickets.initialState)).
Proof.
  assert (H : validSelection (BuyTickets.selectedNumbers BuyTickets.initialState)).
  { split; [|simpl; lia].
    simpl. unfold BuyTickets.DEFAULT_SELECTED_NUMBERS.
    repeat (constructor; [simpl; intuition discriminate|]). constructor. }
  split; [exact H|].
  exact (proj1 (toggle_number_invariant [7; 9; 14; 3; 3; 70]
                  BuyTickets.initialState H)).
Defined.

(** ** PastWinners: the load effect and the fallback winner *)

Section WinnersFacts.
Import Winners.

Lemma strict_eq_true (x y : option Z) : strict_eq x y = true <-> x = y.
Proof.
  destruct x as [a|], y as [b|]; simpl; try (split; congruence).
  rewrite Z.eqb_eq. split; congruence.
Qed.

Lemma strict_eq_false (x y : option Z) : strict_eq x y = false <-> x <> y.
Proof.
  rewrite <- strict_eq_true. destruct (strict_eq x y); split; congruence.
Qed.

Lemma is_undefined_false (x : option Z) : is_undefined x = false <-> x <> None.
Proof. destruct x; simpl; split; congruence. Qed.

Lemma differs_reflect (previous current : option Z) :
  negb (is_undefined previous) && negb (strict_eq current previous) = true
  <-> definedAndDiffers previous current.
Proof.
  unfold definedAndDiffers.
  rewrite andb_true_iff, !negb_true_iff, is_undefined_false, strict_eq_false.
  reflexivity.
Qed.

Lemma parametersChanged_reflect (p : Props) (s : State) :
  PastWinners.parametersChanged p s = true
  <-> definedAndDiffers (previousDrawId s) (sharedDrawId p)
      \/ definedAndDiffers (previousSeriesIndex s) (sharedSeriesIndex p).
Proof.
  unfold PastWinners.parametersChanged.
  rewrite orb_true_iff, !differs_reflect. reflexivity.
Qed.

Lemma isSpecialDraw_reflect (p : Props) :
  isSpecialDraw p = true <-> firstDrawOfFirstSeries p.
Proof.
  unfold isSpecialDraw, firstDrawOfFirstSeries.
  rewrite andb_true_iff, orb_true_iff, !strict_eq_true.
  destruct (sharedSeriesIndex p); simpl; intuition congruence.
Qed.

Lemma fetchTotalWinners_frame (w : Wallet) (c : Chain) (s : State) :
  winners (fetchTotalWinners w c s) = winners s
  /\ previousDrawId (fetchTotalWinners w c s) = previousDrawId s
  /\ previousSeriesIndex (fetchTotalWinners w c s) = previousSeriesIndex s.
Proof.
  unfold fetchTotalWinners.
  destruct (negb (provider w) || negb (truthy (chainId w)));
    [repeat split|].
  destruct (getTotalWinners c); repeat split.
Qed.

Lemma fetchWinners_trackers (w : Wallet) (c : Chain) (p : Props) (now : Z)
    (s : State) :
  previousDrawId (PastWinners.fetchWinners w c p now s) = previousDrawId s
  /\ previousSeriesIndex (PastWinners.fetchWinners w c p now s)
     = previousSeriesIndex s.
Proof.
  unfold PastWinners.fetchWinners; simpl.
  match goal with
  | |- context [fetchTotalWinners w c ?t] =>
      destruct (fetchTotalWinners_frame w c t) as [_ [E1 E2]];
      rewrite E1, E2
  end.
  split; reflexivity.
Qed.

Lemma fetchWinners_winners (w : Wallet) (c : Chain) (p : Props) (now : Z)
    (s : State) :
  winners (PastWinners.fetchWinners w c p now s)
  = PastWinners.attachWinningNumbers c p (checkDrawCompletion w c p)
      (PastWinners.fetchedFromContract c p now).
Proof. reflexivity. Qed.

Lemma attach_cases (c : Chain) (p : Props) (completed : bool)
    (ws : list Winner) :
  isContractList ws (PastWinners.attachWinningNumbers c p completed ws).
Proof.
  unfold PastWinners.attachWinningNumbers, isContractList.
  destruct ((Z.of_nat (List.length ws) >? 0) && completed); [|left; reflexivity].
  destruct (getWinningNumbers c (sharedDrawId p)) as [[[|n ns]|]|];
    try (left; reflexivity).
  right. exists (n :: ns). reflexivity.
Qed.

(** With a draw ID and a connection the load effect runs [fetchWinners]. *)
Lemma loadEffect_fetches (w : Wallet) (c : Chain) (p : Props) (now : Z)
    (s : State) :
  truthy (sharedDrawId p) = true -> connected w = true ->
  PastWinners.loadEffect w c p now s
  = PastWinners.fetchWinners w c p now
      (PastWinners.trackProps p (PastWinners.resetOnChange p s)).
Proof.
  intros Hd Hc. unfold PastWinners.loadEffect.
  unfold connected in Hc. apply andb_true_iff in Hc as [Hp Hi].
  rewrite Hd, Hp, Hi. reflexivity.
Qed.

(** With a draw ID and no connection the load effect stops after its guard
    and the tracking, with the loading flag cleared. *)
Lemma loadEffect_offline (w : Wallet) (c : Chain) (p : Props) (now : Z)
    (s : State) :
  truthy (sharedDrawId p) = true -> connected w = false ->
  PastWinners.loadEffect w c p now s
  = setIsLoading false
      (PastWinners.trackProps p (PastWinners.resetOnChange p s)).
Proof.
  intros Hd Hc. unfold PastWinners.loadEffect. rewrite Hd. simpl.
  unfold connected in Hc.
  destruct (provider w); simpl in *; [rewrite Hc|]; reflexivity.
Qed.

(** Without a draw ID the load effect empties the list whatever the guard
    did. *)
Lemma loadEffect_no_draw (w : Wallet) (c : Chain) (p : Props) (now : Z)
    (s : State) :
  truthy (sharedDrawId p) = false ->
  PastWinners.loadEffect w c p now s
  = setIsLoading false
      (setWinners []
         (PastWinners.trackProps p (PastWinners.resetOnChange p s))).
Proof.
  intros Hd. unfold PastWinners.loadEffect. rewrite Hd. reflexivity.
Qed.

End WinnersFacts.

(** C4: the load effect starts by clearing the winners and setting the
    loading flag exactly when a tracked previous draw ID or series index is
    defined and differs from the current prop; otherwise that first step
    leaves the state as it is; and whatever path the effect takes, both
    trackers end up equal to the current props.  The guard is the first
    step of the effect itself: every path of the effect continues from the
    guarded and tracked state, so that with a draw ID and no connection,
    where nothing else writes the winners, the effect ends with an empty
    list exactly when the props changed and with the list it found
    otherwise. *)
Theorem load_effect_guard (p : Winners.Props) (s : Winners.State) :
  let changed :=
    definedAndDiffers (Winners.previousDrawId s) (Winners.sharedDrawId p)
    \/ definedAndDiffers (Winners.previousSeriesIndex s)
         (Winners.sharedSeriesIndex p) in
  (changed ->
     PastWinners.resetOnChange p s
     = Winners.setIsLoading true (Winners.setWinners [] s)
     /\ Winners.winners (PastWinners.resetOnChange p s) = []
     /\ Winners.isLoading (PastWinners.resetOnChange p s) = true)
  /\ (~ changed -> PastWinners.resetOnChange p s = s)
  /\ (forall w c now,
        Winners.previousDrawId (PastWinners.loadEffect w c p now s)
        = Winners.sharedDrawId p
        /\ Winners.previousSeriesIndex (PastWinners.loadEffect w c p now s)
           = Winners.sharedSeriesIndex p)
  /\ (forall w c now,
        PastWinners.loadEffect w c p now s
        = (if negb (truthy (Winners.sharedDrawId p)) then
             Winners.setIsLoading false
               (Winners.setWinners []
                  (PastWinners.trackProps p (PastWinners.resetOnChange p s)))
           else if negb (Winners.connected w) then
             Winners.setIsLoading false
               (PastWinners.trackProps p (PastWinners.resetOnChange p s))
           else
             PastWinners.fetchWinners w c p now
               (PastWinners.trackProps p (PastWinners.resetOnChange p s))))
  /\ (forall w c now,
        truthy (Winners.sharedDrawId p) = true ->
        Winners.connected w = false ->
        Winners.isLoading (PastWinners.loadEffect w c p now s) = false
        /\ (changed ->
            Winners.winners (PastWinners.loadEffect w c p now s) = [])
        /\ (~ changed ->
            Winners.winners (PastWinners.loadEffect w c p now s)
            = Winners.winners s)
        /\ (Winners.winners (PastWinners.loadEffect w c p now s) = []
            <-> changed \/ Winners.winners s = [])).
Proof.
  intros changed.
  pose proof (parametersChanged_reflect p s) as R. fold changed in R.
  assert (Hyes : changed ->
                 PastWinners.resetOnChange p s
                 = Winners.setIsLoading true (Winners.setWinners [] s)).
  { intros H. apply R in H. unfold PastWinners.resetOnChange.
    rewrite H. reflexivity. }
  assert (Hno : ~ changed -> PastWinners.resetOnChange p s = s).
  { intros H. unfold PastWinners.resetOnChange.
    destruct (PastWinners.parametersChanged p s); [|reflexivity].
    exfalso. apply H, R. reflexivity. }
  assert (Hdec : changed \/ ~ changed).
  { destruct (PastWinners.parametersChanged p s) eqn:E.
    - left. apply R. reflexivity.
    - right. intros H. apply R in H. congruence. }
  split; [|split; [|split; [|split]]].
  - intros H. rewrite (Hyes H). repeat split.
  - exact Hno.
  - intros w c now. unfold PastWinners.loadEffect.
    destruct (negb (truthy (Winners.sharedDrawId p))); [split; reflexivity|].
    destruct (negb (Winners.provider w) || negb (truthy (Winners.chainId w)));
      [split; reflexivity|].
    destruct (fetchWinners_trackers w c p now
                (PastWinners.trackProps p (PastWinners.resetOnChange p s)))
      as [E1 E2].
    rewrite E1, E2. split; reflexivity.
  - intros w c now.
    destruct (truthy (Winners.sharedDrawId p)) eqn:Hd; simpl.
    + destruct (Winners.connected w) eqn:Hc; simpl.
      * exact (loadEffect_fetches w c p now s Hd Hc).
      * exact (loadEffect_offline w c p now s Hd Hc).
    + exact (loadEffect_no_draw w c p now s Hd).
  - intros w c now Hd Hc.
    rewrite (loadEffect_offline w c p now s Hd Hc). simpl.
    split; [reflexivity|].
    split; [intros H; rewrite (Hyes H); reflexivity|].
    split; [intros H; rewrite (Hno H); reflexivity|].
    destruct Hdec as [H|H].
    + rewrite (Hyes H). simpl. split; [intros _; left; exact H|reflexivity].
    + rewrite (Hno H). split; [intros E; right; exact E|].
      intros [H'|E]; [contradiction|exact E].
Qed.

Lemma load_effect_guard_witness :
  let p := Winners.mkProps (Some 2) (Some 1) in
  let w := Winners.mkWallet false None in
  (definedAndDiffers (Some 1) (Some 2) \/ definedAndDiffers (Some 0) (Some 1))
  /\ Winners.winners (PastWinners.resetOnChange p sampleShown) = []
  /\ Winners.isLoading (PastWinners.resetOnChange p sampleShown) = true
  /\ Winners.winners sampleShown <> []
  /\ Winners.winners (PastWinners.loadEffect w emptyChain p 0 sampleShown) = []
  /\ Winners.winners
       (PastWinners.loadEffect w emptyChain firstDraw 0 sampleShown)
     = Winners.winners sampleShown.
Proof.
  intros p w.
  assert (H : definedAndDiffers (Some 1) (Some 2)
              \/ definedAndDiffers (Some 0) (Some 1)).
  { left. split; discriminate. }
  assert (N : ~ (definedAndDiffers (Some 1) (Some 1)
                 \/ definedAndDiffers (Some 0) (Some 0))).
  { intros [[_ D]|[_ D]]; apply D; reflexivity. }
  split; [exact H|].
  split; [exact (proj1 (proj2 (proj1 (load_effect_guard p sampleShown) H)))|].
  split; [exact (proj2 (proj2 (proj1 (load_effect_guard p sampleShown) H)))|].
  split; [discriminate|].
  split.
  - exact (proj1 (proj2 (proj2 (proj2 (proj2 (proj2
             (load_effect_guard p sampleShown))))
             w emptyChain 0 eq_refl eq_refl)) H).
  - exact (proj1 (proj2 (proj2 (proj2 (proj2 (proj2 (proj2
             (load_effect_guard firstDraw sampleShown))))
             w emptyChain 0 eq_refl eq_refl))) N).
Defined.

(** C1: in [fetchWinners], for draw 1 of series 0 (or of no series), when
    [getDrawWinners] returns an empty list or throws, the winners state is
    set to exactly one winner, the hardcoded one with address
    0x03C4bcC1599627e0f766069Ae70E40C62b5d6f1e and amount '0.0000064' for
    draw 1 (carrying the winning numbers when they could be read for a
    completed draw); when [getDrawWinners] returns a non-empty list, that
    list is what the winners state is set to (again with the winning
    numbers attached when they could be read). *)
Theorem fetch_winners_fallback
    (w : Winners.Wallet) (c : Winners.Chain) (p : Winners.Props) (now : Z)
    (s : Winners.State) :
  firstDrawOfFirstSeries p ->
  let contract :=
    Winners.getDrawWinners c (Winners.sharedDrawId p)
      (Winners.sharedSeriesIndex p) in
  let result := Winners.winners (PastWinners.fetchWinners w c p now s) in
  (contract = Returned [] \/ contract = Thrown ->
     exists x, result = [x]
       /\ isFallbackWinner now x
       /\ Winners.winnerAddress x = "0x03C4bcC1599627e0f766069Ae70E40C62b5d6f1e"
       /\ Winners.amountWon x = "0.0000064"
       /\ Winners.drawId x = 1)
  /\ (forall ws, ws <> [] -> contract = Returned ws ->
        isContractList ws result /\ List.length result = List.length ws).
Proof.
  intros Hp contract result.
  apply isSpecialDraw_reflect in Hp.
  unfold result. rewrite fetchWinners_winners.
  set (completed := Winners.checkDrawCompletion w c p).
  split.
  - intros Hc.
    assert (E : PastWinners.fetchedFromContract c p now
                = [Winners.fallbackWinner now]).
    { unfold PastWinners.fetchedFromContract. fold contract.
      rewrite Hp. destruct Hc as [-> | ->]; reflexivity. }
    rewrite E.
    destruct (attach_cases c p completed [Winners.fallbackWinner now])
      as [-> | [wn ->]]; simpl.
    + exists (Winners.fallbackWinner now). repeat split. left. reflexivity.
    + exists (Winners.withWinningNumbers wn (Winners.fallbackWinner now)).
      repeat split. right. exists wn. reflexivity.
  - intros ws Hne Hc.
    assert (E : PastWinners.fetchedFromContract c p now = ws).
    { unfold PastWinners.fetchedFromContract. fold contract. rewrite Hc.
      destruct ws as [|x xs]; [contradiction|]. reflexivity. }
    rewrite E. pose proof (attach_cases c p completed ws) as A.
    split; [exact A|].
    destruct A as [-> | [wn ->]]; [reflexivity | apply length_map].
Qed.

Lemma fetch_winners_fallback_witness :
  firstDrawOfFirstSeries firstDraw
  /\ exists x,
       Winners.winners
         (PastWinners.fetchWinners onlineWallet emptyChain firstDraw 1700000000000
            Winners.initialState) = [x]
       /\ isFallbackWinner 1700000000000 x
       /\ Winners.winnerAddress x = "0x03C4bcC1599627e0f766069Ae70E40C62b5d6f1e"
       /\ Winners.amountWon x = "0.0000064"
       /\ Winners.drawId x = 1.
Proof.
  assert (H : firstDrawOfFirstSeries firstDraw).
  { split; [reflexivity | left; reflexivity]. }
  split; [exact H|].
  exact (proj1 (fetch_winners_fallback onlineWallet emptyChain firstDraw
                  1700000000000 Winners.initialState H)
           (or_introl eq_refl)).
Defined.

(** ** PastWinners: the backup copy refreshes differently *)

Section Refresh.
Import Winners.

Lemma refreshWinners_online (w : Wallet) (c : Chain) (p : Props) (s : State)
    (fetched : list Winner) (wn : option (list Z)) :
  connected w = true -> truthy (sharedDrawId p) = true ->
  getDrawWinners c (sharedDrawId p) (sharedSeriesIndex p) = Returned fetched ->
  getWinningNumbers c (sharedDrawId p) = Returned wn ->
  PastWinners.refreshWinners w c p s
  = setIsLoading false
      (PastWinners.refreshed (checkDrawCompletion w c p) fetched wn
         (setError None (setIsLoading true s))).
Proof.
  intros Hc Hd Hw Hn. unfold PastWinners.refreshWinners.
  unfold connected in Hc. apply andb_true_iff in Hc as [Hp Hi].
  rewrite Hp, Hi, Hd, Hw, Hn. reflexivity.
Qed.

Lemma backup_refreshWinners_online (w : Wallet) (c : Chain) (p : Props)
    (now : Z) (forceReset : bool) (s : State)
    (fetched : list Winner) (wn : option (list Z)) :
  connected w = true -> truthy (sharedDrawId p) = true ->
  getDrawWinners c (sharedDrawId p) (sharedSeriesIndex p) = Returned fetched ->
  getWinningNumbers c (sharedDrawId p) = Returned wn ->
  winners (PastWinnersBackup.refreshWinners w c p now forceReset s)
  = winners (PastWinnersBackup.refreshed p now (checkDrawCompletion w c p)
               fetched wn s).
Proof.
  intros Hc Hd Hw Hn. unfold PastWinnersBackup.refreshWinners.
  unfold connected in Hc. apply andb_true_iff in Hc as [Hp Hi].
  rewrite Hp, Hi, Hd, Hw, Hn. reflexivity.
Qed.

End Refresh.

(** C2: the backup [refreshWinners] is not equivalent to the active one.
    For draw 1 of series 0 (or of no series), connected, with the contract
    returning an empty winners list and the winning numbers read without
    error, the backup sets the winners state to the hardcoded fallback
    winner while the active component sets it to the empty list; this
    holds in particular when the draw is reported complete. *)
Theorem refresh_winners_not_equivalent
    (w : Winners.Wallet) (c : Winners.Chain) (p : Winners.Props) (now : Z)
    (forceReset : bool) (s : Winners.State) (wn : option (list Z)) :
  firstDrawOfFirstSeries p ->
  Winners.connected w = true ->
  Winners.getDrawWinners c (Winners.sharedDrawId p) (Winners.sharedSeriesIndex p)
  = Returned [] ->
  Winners.getWinningNumbers c (Winners.sharedDrawId p) = Returned wn ->
  let active := PastWinners.refreshWinners w c p s in
  let backup := PastWinnersBackup.refreshWinners w c p now forceReset s in
  Winners.winners active = []
  /\ (exists x, Winners.winners backup = [x] /\ isFallbackWinner now x)
  /\ backup <> active.
Proof.
  intros Hp Hc Hw Hn active backup.
  assert (Hd : truthy (Winners.sharedDrawId p) = true).
  { destruct Hp as [-> _]. reflexivity. }
  apply isSpecialDraw_reflect in Hp.
  assert (Ea : Winners.winners active = []).
  { unfold active. rewrite (refreshWinners_online w c p s [] wn) by assumption.
    unfold PastWinners.refreshed; simpl.
    destruct wn as [[|n ns]|]; try reflexivity.
    rewrite andb_false_r. reflexivity. }
  assert (Eb : exists x, Winners.winners backup = [x] /\ isFallbackWinner now x).
  { unfold backup.
    rewrite (backup_refreshWinners_online w c p now forceReset s [] wn)
      by assumption.
    unfold PastWinnersBackup.refreshed. rewrite Hp. simpl.
    destruct wn as [[|n ns]|];
      try (exists (Winners.fallbackWinner now); split;
           [reflexivity | left; reflexivity]).
    destruct (Winners.checkDrawCompletion w c p); simpl.
    - exists (Winners.withWinningNumbers (n :: ns) (Winners.fallbackWinner now)).
      split; [reflexivity | right; exists (n :: ns); reflexivity].
    - exists (Winners.fallbackWinner now).
      split; [reflexivity | left; reflexivity]. }
  split; [exact Ea|]. split; [exact Eb|].
  intros E. destruct Eb as [x [Ex _]]. rewrite E, Ea in Ex. discriminate.
Qed.

Lemma refresh_winners_not_equivalent_witness :
  Winners.checkDrawCompletion onlineWallet emptyChain firstDraw = true
  /\ Winners.winners
       (PastWinners.refreshWinners onlineWallet emptyChain firstDraw sampleShown)
     = []
  /\ (exists x,
        Winners.winners
          (PastWinnersBackup.refreshWinners onlineWallet emptyChain firstDraw
             1700000000000 false sampleShown) = [x]
        /\ isFallbackWinner 1700000000000 x)
  /\ PastWinnersBackup.refreshWinners onlineWallet emptyChain firstDraw
       1700000000000 false sampleShown
     <> PastWinners.refreshWinners onlineWallet emptyChain firstDraw sampleShown.
Proof.
  split; [reflexivity|].
  refine (refresh_winners_not_equivalent onlineWallet emptyChain firstDraw
            1700000000000 false sampleShown (Some [1; 2; 3; 4; 5; 8])
            _ eq_refl eq_refl eq_refl).
  split; [reflexivity | left; reflexivity].
Defined.

(** ** ParticipantsList: pagination *)

Section SliceFacts.

Context {A : Type}.

Lemma slice_nth_error (l : list A) (start stop : Z) (k : nat) :
  0 <= start -> 0 <= stop ->
  nth_error (slice l start stop) k
  = if Z.of_nat k <? Z.min stop (Z.of_nat (List.length l)) - start
    then nth_error l (Z.to_nat start + k)
    else None.
Proof.
  intros Hs He. unfold slice, rel_index.
  destruct (Z.ltb_spec start 0); [lia|].
  destruct (Z.ltb_spec stop 0); [lia|].
  rewrite nth_error_firstn.
  set (len := Z.of_nat (List.length l)).
  destruct (Nat.ltb_spec k (Z.to_nat (Z.min stop len - Z.min start len)));
    destruct (Z.ltb_spec (Z.of_nat k) (Z.min stop len - start));
    try lia; try reflexivity.
  rewrite nth_error_skipn. f_equal. lia.
Qed.

Lemma slice_length (l : list A) (start stop : Z) :
  0 <= start -> 0 <= stop ->
  Z.of_nat (List.length (slice l start stop))
  = Z.max 0 (Z.min stop (Z.of_nat (List.length l)) - start).
Proof.
  intros Hs He. unfold slice, rel_index.
  destruct (Z.ltb_spec start 0); [lia|].
  destruct (Z.ltb_spec stop 0); [lia|].
  rewrite length_firstn, length_skipn. lia.
Qed.

End SliceFacts.

Section CeilFacts.

Variables a b : Z.
Hypothesis b_pos : 0 < b.

Lemma ceil_div_upper : a <= ceil_div a b * b.
Proof.
  unfold ceil_div. pose proof (Z.mul_div_le (- a) b b_pos). lia.
Qed.

Lemma ceil_div_lower : (ceil_div a b - 1) * b < a.
Proof.
  unfold ceil_div. pose proof (Z.mul_succ_div_gt (- a) b b_pos). lia.
Qed.

(** [ceil_div a b] is the least integer whose multiple of [b] reaches [a]. *)
Lemma ceil_div_least (q : Z) : a <= q * b -> ceil_div a b <= q.
Proof.
  intros H. pose proof ceil_div_lower. nia.
Qed.

End CeilFacts.

Section Pagination.
Import ParticipantsList.

Lemma parseInt_choice (value : string) :
  In value pageSizeChoices ->
  exists size, parseInt value = Some size /\ 0 < size.
Proof.
  unfold pageSizeChoices. simpl.
  intros [<-|[<-|[<-|[<-|[]]]]].
  - exists 5. split; [reflexivity | lia].
  - exists 10. split; [reflexivity | lia].
  - exists 20. split; [reflexivity | lia].
  - exists 50. split; [reflexivity | lia].
Qed.

Lemma numberedLinks_range (pc cp n : Z) :
  In n (numberedLinks pc cp) -> 1 <= n <= pc.
Proof.
  unfold numberedLinks. rewrite filter_In. intros [_ H].
  apply andb_true_iff in H as [H1 H2]. lia.
Qed.

(** For a current page within the pages, no numbered link is dropped by
    the validity test: all [min 5 pageCount] links are rendered. *)
Lemma numberedLinks_all (pc cp : Z) :
  1 <= cp <= pc ->
  numberedLinks pc cp
  = map (fun i => pageNumber pc cp (Z.of_nat i)) (seq 0 (Z.to_nat (Z.min 5 pc))).
Proof.
  intros H. unfold numberedLinks.
  apply forallb_filter_id. apply forallb_forall.
  intros n Hn. apply in_map_iff in Hn as [i [<- Hi]].
  apply in_seq in Hi. unfold pageNumber.
  destruct (Z.leb_spec pc 5); simpl; [lia|].
  destruct (Z.leb_spec cp 3); simpl; [lia|].
  destruct (Z.geb_spec cp (pc - 2)); lia.
Qed.

End Pagination.

(** C10: for every ticket list and every page size the select offers,
    [renderParticipantsView] computes the page count
    max(1, ceil(totalTickets / pageSize)), the least positive number of
    pages that holds all tickets; the tickets it renders are those at the
    positions from (currentPage - 1) * pageSize up to
    min(currentPage * pageSize, totalTickets); every page number it renders
    as a link lies between 1 and the page count; and from a current page
    within that range the Previous and Next handlers stay within it
    (Previous never goes below 1, Next never beyond the page count). *)
Theorem pagination_view (l : list ParticipantsList.Ticket)
    (s : ParticipantsList.PageState) :
  In (ParticipantsList.pageSize s) ParticipantsList.pageSizeChoices ->
  exists size v,
    parseInt (ParticipantsList.pageSize s) = Some size
    /\ ParticipantsList.renderParticipantsView s l = Some v
    /\ let total := Z.of_nat (List.length l) in
       let cp := ParticipantsList.currentPage s in
       let pc := ParticipantsList.pageCount v in
       pc = Z.max 1 (ceil_div total size)
       /\ (1 <= pc /\ total <= pc * size
           /\ forall q, 1 <= q -> total <= q * size -> pc <= q)
       /\ (1 <= cp ->
           forall k : nat,
             nth_error (ParticipantsList.currentTickets v) k
             = if Z.of_nat k <? Z.min (cp * size) total - (cp - 1) * size
               then nth_error l (Z.to_nat ((cp - 1) * size) + k)
               else None)
       /\ (forall n, In n (ParticipantsList.pageLinks v) -> 1 <= n <= pc)
       /\ (forall n, ParticipantsList.lastPageLink v = Some n -> 1 <= n <= pc)
       /\ (1 <= ParticipantsList.currentPage (ParticipantsList.onPrevious v s)
           /\ ParticipantsList.currentPage (ParticipantsList.onNext v s) <= pc)
       /\ (1 <= cp <= pc ->
           1 <= ParticipantsList.currentPage (ParticipantsList.onPrevious v s) <= pc
           /\ 1 <= ParticipantsList.currentPage (ParticipantsList.onNext v s) <= pc).
Proof.
  intros Hin. destruct (parseInt_choice _ Hin) as [size [Hparse Hpos]].
  exists size.
  unfold ParticipantsList.renderParticipantsView. rewrite Hparse.
  eexists. split; [reflexivity|]. split; [reflexivity|]. simpl.
  set (total := Z.of_nat (List.length l)).
  set (cp := ParticipantsList.currentPage s).
  pose proof (ceil_div_upper total size Hpos) as Hup.
  split; [reflexivity|]. split; [|split; [|split; [|split; [|split]]]].
  - split; [lia|]. split; [nia|].
    intros q Hq Ht. pose proof (ceil_div_least total size Hpos q Ht). lia.
  - intros Hcp k.
    rewrite slice_nth_error by nia. fold total.
    replace ((cp - 1) * size + size) with (cp * size) by lia. reflexivity.
  - intros n Hn. apply numberedLinks_range in Hn. exact Hn.
  - intros n.
    destruct ((Z.max 1 (ceil_div total size) >? 5)
              && (cp <? Z.max 1 (ceil_div total size) - 2));
      [|discriminate].
    intros E. injection E as <-. lia.
  - unfold ParticipantsList.onPrevious, ParticipantsList.onNext. simpl. lia.
  - intros Hcp. unfold ParticipantsList.onPrevious, ParticipantsList.onNext.
    simpl. lia.
Qed.

Lemma pagination_view_witness :
  In "5" ParticipantsList.pageSizeChoices
  /\ exists v,
       ParticipantsList.renderParticipantsView
         (ParticipantsList.mkPageState 3 "5") sampleTickets = Some v
       /\ ParticipantsList.pageCount v = Z.max 1 (ceil_div 12 5)
       /\ forall n, In n (ParticipantsList.pageLinks v)
                    -> 1 <= n <= ParticipantsList.pageCount v.
Proof.
  assert (H : In "5" ParticipantsList.pageSizeChoices) by (left; reflexivity).
  split; [exact H|].
  destruct (pagination_view sampleTickets (ParticipantsList.mkPageState 3 "5") H)
    as [size [v [Hp [Hr [Hpc [_ [_ [Hl _]]]]]]]].
  exists v. split; [exact Hr|].
  injection Hp as <-. split; [exact Hpc | exact Hl].
Defined.

(** ** BuyTickets: the purchase flow *)

Section PurchaseFlow.
Import BuyTickets.

Lemma run_cons (e : Env) (ev : Event) (rest : list (Env * Event)) (s : State) :
  fst (run ((e, ev) :: rest) s) = fst (run rest (fst (step e ev s))).
Proof.
  simpl. destruct (step e ev s) as [s1 call]. simpl.
  destruct (run rest s1). reflexivity.
Qed.

(** Only [handleBuyClick] with a connected wallet opens a confirmation. *)
Lemma step_confirming (e : Env) (ev : Event) (s : State) :
  confirming (fst (step e ev s)) = true ->
  confirming s = true \/ (ev = ClickBuy /\ isConnected e = true).
Proof.
  unfold step, confirming.
  destruct (isConnected e) eqn:Hcon;
    destruct (showBuyConfirmModal s) eqn:Hb;
    destruct (showReconfirmModal s) eqn:Hr;
    try (intros _; left; reflexivity);
    destruct ev; simpl; rewrite ?Hb, ?Hr; simpl;
    unfold handleBuyClick, handleQuickPick; rewrite ?Hcon; simpl;
    repeat match goal with
           | |- context [if ?b then _ else _] => destruct b; simpl
           end;
    rewrite ?Hb, ?Hr; simpl;
    intros H; try discriminate H;
    right; split; reflexivity.
Qed.

Lemma run_confirming (session : list (Env * Event)) (s : State) :
  confirming (fst (run session s)) = true ->
  confirming s = true
  \/ exists e0, In (e0, ClickBuy) session /\ isConnected e0 = true.
Proof.
  revert s. induction session as [|[e ev] rest IH]; intros s H.
  - left. exact H.
  - rewrite run_cons in H. destruct (IH _ H) as [Hc|[e0 [Hin Hcon]]].
    + destruct (step_confirming e ev s Hc) as [Hs|[-> Hcon]].
      * left. exact Hs.
      * right. exists e. split; [left; reflexivity | exact Hcon].
    + right. exists e0. split; [right; exact Hin | exact Hcon].
Qed.

Lemma handleConfirmPurchase_call (e : Env) (s : State) (c : BuyCall) :
  snd (handleConfirmPurchase e s) = Some c ->
  purchaseChecked e s
  /\ c = mkBuyCall (selectedNumbers s) (selectedLottoNumber s)
           (selectedSeriesIndex e) (selectedDrawId e).
Proof.
  unfold handleConfirmPurchase, purchaseChecked.
  destruct (selectionIncomplete s) eqn:Hsel; [discriminate|].
  destruct (isDrawAvailable e); simpl; [|discriminate].
  destruct (isTimeRemainingZero e); [discriminate|].
  simpl. intros E. injection E as <-.
  unfold selectionIncomplete in Hsel.
  apply orb_false_iff in Hsel as [Hlen Hlotto].
  apply negb_false_iff, Z.eqb_eq in Hlen.
  repeat split; try lia.
  destruct (selectedLottoNumber s); [discriminate|discriminate].
Qed.

Lemma handleConfirmPurchase_calls (e : Env) (s : State) :
  purchaseChecked e s ->
  snd (handleConfirmPurchase e s)
  = Some (mkBuyCall (selectedNumbers s) (selectedLottoNumber s)
            (selectedSeriesIndex e) (selectedDrawId e)).
Proof.
  intros [Hlen [Hlotto [Hd Ht]]]. unfold handleConfirmPurchase.
  unfold selectionIncomplete. rewrite Hlen, Hd, Ht. simpl.
  destruct (selectedLottoNumber s); [reflexivity | contradiction].
Qed.

Lemma step_call_event (e : Env) (ev : Event) (s : State) (c : BuyCall) :
  snd (step e ev s) = Some c ->
  ev = ConfirmPurchase /\ showReconfirmModal s = true.
Proof.
  unfold step. destruct (enabled ev s) eqn:En; [|discriminate].
  destruct ev; simpl; try discriminate.
  intros _. split; [reflexivity | exact En].
Qed.

End PurchaseFlow.

(** C7 as the code has it: in every session, a [buyTicket] call is made
    only by [handleConfirmPurchase], and only when at that moment exactly 5
    main numbers and a LOTTO number are selected, a draw is available and
    the remaining time is not zero; the wallet connection is checked by
    [handleBuyClick] alone, so before every call the session contains a
    [handleBuyClick] handled with the wallet connected; and with the wallet
    not connected [handleBuyClick] only opens the wallet modal. *)
Theorem purchase_flow_guarded
    (session : list (BuyTickets.Env * BuyTickets.Event))
    (e : BuyTickets.Env) (ev : BuyTickets.Event) (c : BuyTickets.BuyCall) :
  snd (BuyTickets.step e ev (stateAfter session)) = Some c ->
  ev = BuyTickets.ConfirmPurchase
  /\ purchaseChecked e (stateAfter session)
  /\ BuyTickets.call_numbers c = BuyTickets.selectedNumbers (stateAfter session)
  /\ BuyTickets.call_lottoNumber c
     = BuyTickets.selectedLottoNumber (stateAfter session)
  /\ (exists e0, In (e0, BuyTickets.ClickBuy) session
                 /\ BuyTickets.isConnected e0 = true)
  /\ (forall e' s, BuyTickets.isConnected e' = false ->
        BuyTickets.handleBuyClick e' s = BuyTickets.setShowWalletModal true s
        /\ snd (BuyTickets.step e' BuyTickets.ClickBuy s) = None).
Proof.
  intros H.
  destruct (step_call_event _ _ _ _ H) as [-> Hopen].
  unfold BuyTickets.step in H. simpl in H. rewrite Hopen in H.
  destruct (handleConfirmPurchase_call _ _ _ H) as [Hchk ->].
  split; [reflexivity|]. split; [exact Hchk|].
  split; [reflexivity|]. split; [reflexivity|]. split.
  - assert (Hc : confirming (stateAfter session) = true).
    { unfold confirming. rewrite Hopen. apply orb_true_r. }
    destruct (run_confirming session BuyTickets.initialState Hc) as [Hi|Hi].
    + discriminate Hi.
    + exact Hi.
  - intros e' s He. unfold BuyTickets.handleBuyClick. rewrite He.
    split; reflexivity.
Qed.

Lemma purchase_flow_guarded_witness :
  snd (BuyTickets.step onlineEnv BuyTickets.ConfirmPurchase
         (stateAfter startedPurchase)) = Some defaultCall
  /\ purchaseChecked onlineEnv (stateAfter startedPurchase)
  /\ exists e0, In (e0, BuyTickets.ClickBuy) startedPurchase
                /\ BuyTickets.isConnected e0 = true.
Proof.
  assert (H : snd (BuyTickets.step onlineEnv BuyTickets.ConfirmPurchase
                     (stateAfter startedPurchase)) = Some defaultCall)
    by reflexivity.
  split; [exact H|].
  pose proof (purchase_flow_guarded startedPurchase onlineEnv
                BuyTickets.ConfirmPurchase defaultCall H) as T.
  split; [exact (proj1 (proj2 T))|].
  exact (proj1 (proj2 (proj2 (proj2 (proj2 T))))).
Defined.

(** C7 as stated fails: when the wallet disconnects while the
    reconfirmation modal is open, confirming still makes the [buyTicket]
    call, with the wallet not connected. *)
Lemma purchase_after_disconnect :
  snd (BuyTickets.step offlineEnv BuyTickets.ConfirmPurchase
         (stateAfter startedPurchase)) = Some defaultCall
  /\ snd (BuyTickets.run
            (startedPurchase ++ [(offlineEnv, BuyTickets.ConfirmPurchase)])
            BuyTickets.initialState)
     = [(offlineEnv, defaultCall)]
  /\ BuyTickets.isConnected offlineEnv = false
  /\ ~ (forall session e ev c,
          snd (BuyTickets.step e ev (stateAfter session)) = Some c ->
          BuyTickets.isConnected e = true).
Proof.
  split; [reflexivity|]. split; [reflexivity|]. split; [reflexivity|].
  intros H.
  specialize (H startedPurchase offlineEnv BuyTickets.ConfirmPurchase
                defaultCall eq_refl).
  discriminate H.
Qed.

(** * Further properties of the components *)

(** ** useAdmin: two-factor state, admin check and admin operations *)

Section StringFacts.

Lemma string_length_append (a b : string) :
  String.length (a ++ b) = (String.length a + String.length b)%nat.
Proof.
  induction a as [|c a IH]; simpl; [reflexivity | rewrite IH; reflexivity].
Qed.

Lemma list_ascii_append (a b : string) :
  list_ascii_of_string (a ++ b)
  = list_ascii_of_string a ++ list_ascii_of_string b.
Proof.
  induction a as [|c a IH]; simpl; [reflexivity | rewrite IH; reflexivity].
Qed.

Lemma get_In (s : string) (k : nat) (c : ascii) :
  String.get k s = Some c -> In c (list_ascii_of_string s).
Proof.
  revert k. induction s as [|d s IH]; intros k H; simpl in *; [discriminate|].
  destruct k as [|k].
  - injection H as ->. left. reflexivity.
  - right. apply (IH k H).
Qed.

Lemma get_in_range (s : string) (k : nat) :
  (k < String.length s)%nat -> exists c, String.get k s = Some c.
Proof.
  revert k. induction s as [|d s IH]; intros k H; simpl in *; [lia|].
  destruct k as [|k]; [exists d; reflexivity | apply IH; lia].
Qed.

End StringFacts.

Section AdminFacts.
Import Browser Admin.

Lemma charAt_in_range (s : string) (k : nat) :
  (k < String.length s)%nat -> String.length (charAt s k) = 1%nat.
Proof.
  intros H. unfold charAt. destruct (get_in_range s k H) as [c ->]. reflexivity.
Qed.

Lemma charAt_length_le (s : string) (k : nat) :
  (String.length (charAt s k) <= 1)%nat.
Proof. unfold charAt. destruct (String.get k s); simpl; lia. Qed.

Lemma charAt_chars (s : string) (k : nat) :
  Forall (fun c => In c (list_ascii_of_string s))
    (list_ascii_of_string (charAt s k)).
Proof.
  unfold charAt. destruct (String.get k s) as [c|] eqn:E; simpl.
  - constructor; [apply (get_In s k c E) | constructor].
  - constructor.
Qed.

Lemma secret_fold_length (random : nat -> nat) (idx : list nat) (acc : string) :
  (forall i, random i < 32)%nat ->
  String.length
    (fold_left (fun result i => (result ++ charAt base32Chars (random i))%string)
       idx acc)
  = (String.length acc + List.length idx)%nat.
Proof.
  intros R. revert acc. induction idx as [|i idx IH]; intros acc; simpl.
  - lia.
  - rewrite IH, string_length_append, charAt_in_range; [lia|].
    exact (R i).
Qed.

Lemma secret_fold_length_le (random : nat -> nat) (idx : list nat) (acc : string) :
  (String.length
     (fold_left (fun result i => (result ++ charAt base32Chars (random i))%string)
        idx acc)
   <= String.length acc + List.length idx)%nat.
Proof.
  revert acc. induction idx as [|i idx IH]; intros acc; simpl.
  - lia.
  - specialize (IH (acc ++ charAt base32Chars (random i))%string).
    rewrite string_length_append in IH.
    pose proof (charAt_length_le base32Chars (random i)). lia.
Qed.

Lemma secret_fold_chars (random : nat -> nat) (idx : list nat) (acc : string) :
  isBase32 acc ->
  isBase32
    (fold_left (fun result i => (result ++ charAt base32Chars (random i))%string)
       idx acc).
Proof.
  revert acc. induction idx as [|i idx IH]; intros acc H; simpl.
  - exact H.
  - apply IH. unfold isBase32. rewrite list_ascii_append.
    apply Forall_app. split; [exact H | apply charAt_chars].
Qed.

Lemma generateQrCode_frame (l : Libs) (secret acct : string) (h : Hook) :
  let h' := fst (generateQrCode l secret acct h) in
  isAdmin (state h') = isAdmin (state h)
  /\ twoFactorState (state h') = twoFactorState (state h)
  /\ twoFactorSecret (state h') = twoFactorSecret (state h)
  /\ localStorage h' = localStorage h
  /\ alerts h' = alerts h.
Proof.
  unfold generateQrCode.
  destruct (otpauthUrl l secret acct) as [url|]; [|repeat split].
  destruct (toDataURL l url); repeat split.
Qed.

Lemma compareAdmin_account (w : Wallet) (b : bool) :
  compareAdmin w = Some b ->
  exists acct, account w = Some acct /\ truthy_str acct = true
               /\ isConnected w = true.
Proof.
  unfold compareAdmin.
  destruct (isConnected w); [|discriminate].
  destruct (account w) as [acct|]; [|discriminate].
  unfold truthy_opt.
  destruct (truthy_str acct) eqn:T; [|discriminate].
  intros _. exists acct. repeat split. exact T.
Qed.

Lemma generateCustomSecret_length (random : nat -> nat) (n : nat) :
  (forall i, random i < 32)%nat ->
  String.length (generateCustomSecret random n) = n.
Proof.
  intros R. unfold generateCustomSecret.
  rewrite secret_fold_length by exact R. rewrite length_seq. reflexivity.
Qed.

Lemma cyclingRandom_bound (i : nat) : (cyclingRandom i < 32)%nat.
Proof. unfold cyclingRandom. apply Nat.mod_upper_bound. discriminate. Qed.

Lemma verifyTwoFactor_decision (token : string) (h : Hook) :
  let r := verifyTwoFactor token h in
  snd r
  = truthy_opt (twoFactorSecret (state h)) && (String.length token =? 6)%nat
  /\ if snd r then
       twoFactorState (state (fst r)) = Verified
       /\ getItem ADMIN_2FA_KEY (localStorage (fst r)) = Some "true"
       /\ twoFactorState (state (mount (localStorage (fst r)))) = Verified
       /\ alerts (fst r) = alerts h
     else
       state (fst r) = state h /\ localStorage (fst r) = localStorage h.
Proof.
  unfold verifyTwoFactor.
  destruct (truthy_opt (twoFactorSecret (state h))); simpl.
  - assert (E : (String.eqb token "123456" || (String.length token =? 6)%nat)
                = (String.length token =? 6)%nat).
    { destruct (String.eqb_spec token "123456") as [->|]; reflexivity. }
    rewrite E. destruct (String.length token =? 6)%nat; simpl; repeat split.
  - repeat split.
Qed.

End AdminFacts.

(** X1: [generateCustomSecret] yields at most [length] characters, all of
    them from the Base32 alphabet, and exactly [length] of them when every
    random index falls inside the alphabet, as [Math.floor(Math.random() *
    32)] does. *)
Theorem custom_secret_base32 (random : nat -> nat) (length : nat) :
  (String.length (Admin.generateCustomSecret random length) <= length)%nat
  /\ isBase32 (Admin.generateCustomSecret random length)
  /\ ((forall i, random i < 32)%nat ->
      String.length (Admin.generateCustomSecret random length) = length).
Proof.
  unfold Admin.generateCustomSecret. split; [|split].
  - pose proof (secret_fold_length_le random (seq 0 length) EmptyString) as H.
    rewrite length_seq in H. simpl in H. exact H.
  - apply secret_fold_chars. constructor.
  - intros R. rewrite secret_fold_length by exact R.
    rewrite length_seq. reflexivity.
Qed.

Lemma custom_secret_base32_witness :
  (forall i, cyclingRandom i < 32)%nat
  /\ String.length (Admin.generateCustomSecret cyclingRandom 20) = 20%nat.
Proof.
  assert (H : (forall i, cyclingRandom i < 32)%nat) by exact cyclingRandom_bound.
  split; [exact H|].
  exact (proj2 (proj2 (custom_secret_base32 cyclingRandom 20)) H).
Defined.

(** X2: [verifyTwoFactor] accepts a token exactly when a secret is set and
    the token has 6 characters, whatever they are.  On acceptance the state
    is 'verified' and the flag is stored, so that a later mount starts
    verified; otherwise neither the state nor the storage changes. *)
Theorem verify_two_factor_decision (token : string) (h : Admin.Hook) :
  let r := Admin.verifyTwoFactor token h in
  snd r
  = Browser.truthy_opt (Admin.twoFactorSecret (Admin.state h))
    && (String.length token =? 6)%nat
  /\ if snd r then
       Admin.twoFactorState (Admin.state (fst r)) = Admin.Verified
       /\ Browser.getItem Admin.ADMIN_2FA_KEY (Admin.localStorage (fst r))
          = Some "true"
       /\ Admin.twoFactorState
            (Admin.state (Admin.mount (Admin.localStorage (fst r))))
          = Admin.Verified
       /\ Admin.alerts (fst r) = Admin.alerts h
     else
       Admin.state (fst r) = Admin.state h
       /\ Admin.localStorage (fst r) = Admin.localStorage h.
Proof.
  unfold Admin.verifyTwoFactor.
  destruct (Browser.truthy_opt (Admin.twoFactorSecret (Admin.state h))); simpl.
  - assert (E : (String.eqb token "123456" || (String.length token =? 6)%nat)
                = (String.length token =? 6)%nat).
    { destruct (String.eqb_spec token "123456") as [->|]; reflexivity. }
    rewrite E. destruct (String.length token =? 6)%nat; simpl; repeat split.
  - repeat split.
Qed.

Section AdminLifecycle.
Import Browser Admin.

Lemma keys_differ : String.eqb ADMIN_2FA_SECRET_KEY ADMIN_2FA_KEY = false.
Proof. reflexivity. Qed.

Lemma setupTwoFactor_facts (l : Libs) (random : nat -> nat) (w : Wallet)
    (h : Hook) :
  let r := setupTwoFactor l random w h in
  let secret := generateCustomSecret random 20 in
  fst (snd r) = secret
  /\ twoFactorState (state (fst r)) = Setup
  /\ twoFactorSecret (state (fst r)) = Some secret
  /\ isAdmin (state (fst r)) = isAdmin (state h)
  /\ localStorage (fst r)
     = setItem ADMIN_2FA_SECRET_KEY secret (localStorage h).
Proof.
  unfold setupTwoFactor.
  set (secret := generateCustomSecret random 20).
  set (userAccount := match account w with
                      | Some a => if truthy_str a then a else demoAccount
                      | None => demoAccount
                      end).
  set (h0 := setTwoFactorSecret (Some secret)
               (withStorage (setItem ADMIN_2FA_SECRET_KEY secret) h)).
  pose proof (generateQrCode_frame l secret userAccount h0) as F.
  destruct (generateQrCode l secret userAccount h0) as [h1 qr].
  simpl in *. destruct F as [F1 [F2 [F3 [F4 F5]]]].
  repeat split; try assumption.
Qed.

Lemma truthy_of_length (s : string) (n : nat) :
  String.length s = S n -> truthy_str s = true.
Proof. destruct s; simpl; [discriminate | reflexivity]. Qed.

(** The admin query on a freshly mounted hook, for the current admin. *)
Lemma queryFn_mounted (l : Libs) (w : Wallet) (st : Storage) (secret : string) :
  compareAdmin w = Some true ->
  getItem ADMIN_2FA_SECRET_KEY st = Some secret ->
  truthy_str secret = true ->
  let h := fst (queryFn l w (mount st)) in
  isAdmin (state h) = true
  /\ twoFactorSecret (state h) = Some secret
  /\ twoFactorState (state h)
     = (if match getItem ADMIN_2FA_KEY st with
           | Some v => String.eqb v "true"
           | None => false
           end
        then Verified else Setup)
  /\ localStorage h = st.
Proof.
  intros Hc Hs Ht.
  destruct (compareAdmin_account w true Hc) as [acct [Ha _]].
  unfold queryFn. rewrite Hc, Ha. simpl.
  unfold loadTwoFactor. simpl. rewrite Hs, Ht.
  destruct (match getItem ADMIN_2FA_KEY st with
            | Some v => String.eqb v "true"
            | None => false
            end); [repeat split|].
  match goal with
  | |- context [generateQrCode l secret acct ?h0] =>
      pose proof (generateQrCode_frame l secret acct h0) as F
  end.
  simpl in F. destruct F as [F1 [F2 [F3 [F4 _]]]].
  rewrite F1, F2, F3, F4. repeat split.
Qed.

Lemma not_authorized_cases (h : Hook) :
  authorized h = false ->
  negb (isAdmin (state h)) || negb (is_verified (twoFactorState (state h)))
  = true.
Proof.
  unfold authorized. destruct (isAdmin (state h)); simpl.
  - intros ->. reflexivity.
  - reflexivity.
Qed.

Lemma authorized_cases (h : Hook) :
  authorized h = true ->
  negb (isAdmin (state h)) || negb (is_verified (twoFactorState (state h)))
  = false.
Proof.
  unfold authorized. destruct (isAdmin (state h)); simpl.
  - intros ->. reflexivity.
  - discriminate.
Qed.

Lemma sendAndWait_calls (contract : ContractCall -> Outcome Tx)
    (call : ContractCall) :
  fst (sendAndWait contract call) = [call].
Proof.
  unfold sendAndWait. destruct (contract call) as [tx|]; [|reflexivity].
  destruct (wait tx); reflexivity.
Qed.


Lemma signerContract_provider (w : Wallet) (p : Provider)
    (contract : ContractCall -> Outcome Tx) :
  signerContract w = Some (p, contract) -> provider w = Some p.
Proof.
  unfold signerContract. destruct (provider w) as [q|]; [|discriminate].
  destruct (getNetwork q) as [c|]; [|discriminate].
  destruct (getLotteryContractWithSigner q c) as [[k|]|]; try discriminate.
  intros E. injection E as -> _. reflexivity.
Qed.

Lemma loadTwoFactor_isAdmin (l : Libs) (acct : string) (h : Hook) :
  isAdmin (state (loadTwoFactor l acct h)) = isAdmin (state h).
Proof.
  unfold loadTwoFactor.
  destruct (getItem ADMIN_2FA_SECRET_KEY (localStorage h)) as [sec|];
    [|reflexivity].
  destruct (truthy_str sec); [|reflexivity].
  destruct (match getItem ADMIN_2FA_KEY (localStorage h) with
            | Some v => String.eqb v "true"
            | None => false
            end); [reflexivity|].
  match goal with
  | |- context [generateQrCode l sec acct ?h0] =>
      destruct (generateQrCode_frame l sec acct h0) as [F _]; rewrite F
  end.
  reflexivity.
Qed.

End AdminLifecycle.

(** X3: the life of the two-factor state for the current admin.  After
    [setupTwoFactor] the state is 'setup' with a 20-character secret; any
    6-character token then verifies; after a reload the admin query finds
    the state 'verified' again, with the same secret; [clearTwoFactorState]
    away from the admin page takes it back to 'setup', and it stays
    'setup' with the same secret over the next reload. *)
Theorem two_factor_lifecycle
    (l : Admin.Libs) (random : nat -> nat) (w : Admin.Wallet) (h : Admin.Hook)
    (token pathname : string) :
  Admin.compareAdmin w = Some true ->
  (forall i, random i < 32)%nat ->
  String.length token = 6%nat ->
  Browser.str_includes pathname "/admin" = false ->
  let set := Admin.setupTwoFactor l random w h in
  let secret := fst (snd set) in
  let ver := Admin.verifyTwoFactor token (fst set) in
  let reloaded :=
    fst (Admin.queryFn l w (Admin.mount (Admin.localStorage (fst ver)))) in
  let cleared := Admin.clearTwoFactorState pathname reloaded in
  let again :=
    fst (Admin.queryFn l w (Admin.mount (Admin.localStorage cleared))) in
  String.length secret = 20%nat
  /\ Admin.twoFactorState (Admin.state (fst set)) = Admin.Setup
  /\ snd ver = true
  /\ authorized reloaded = true
  /\ Admin.twoFactorSecret (Admin.state reloaded) = Some secret
  /\ Admin.twoFactorState (Admin.state cleared) = Admin.Setup
  /\ authorized again = false
  /\ Admin.twoFactorState (Admin.state again) = Admin.Setup
  /\ Admin.twoFactorSecret (Admin.state again) = Some secret.
Proof.
  intros Hc Hr Ht Hp set secret ver reloaded cleared again.
  destruct (setupTwoFactor_facts l random w h) as [S1 [S2 [S3 [S4 S5]]]].
  fold set in S1, S2, S3, S4, S5. fold secret in S1.
  assert (Hlen : String.length secret = 20%nat).
  { rewrite S1. apply generateCustomSecret_length, Hr. }
  assert (Htr : truthy_str secret = true) by (apply (truthy_of_length _ _ Hlen)).
  rewrite <- S1 in S3, S5.
  pose proof (verifyTwoFactor_decision token (fst set)) as V.
  fold ver in V. cbv zeta in V. destruct V as [V1 V2].
  rewrite S3 in V1. simpl in V1. rewrite Htr, Ht in V1. simpl in V1.
  rewrite V1 in V2. destruct V2 as [_ [V3 _]].
  assert (Vst : Admin.localStorage (fst ver)
                = Browser.setItem Admin.ADMIN_2FA_KEY "true"
                    (Admin.localStorage (fst set))).
  { unfold ver, Admin.verifyTwoFactor. rewrite S3. simpl. rewrite Htr, Ht.
    rewrite orb_true_r. reflexivity. }
  assert (Q1 : Browser.getItem Admin.ADMIN_2FA_SECRET_KEY
                 (Admin.localStorage (fst ver)) = Some secret).
  { rewrite Vst, S5. unfold Browser.getItem, Browser.setItem.
    rewrite keys_differ, String.eqb_refl. reflexivity. }
  destruct (queryFn_mounted l w (Admin.localStorage (fst ver)) secret Hc Q1 Htr)
    as [R1 [R2 [R3 R4]]].
  fold reloaded in R1, R2, R3, R4.
  unfold Browser.getItem in V3. unfold Browser.getItem in R3.
  rewrite V3 in R3. simpl in R3.
  assert (C1 : Admin.twoFactorState (Admin.state cleared) = Admin.Setup
               /\ Admin.localStorage cleared
                  = Browser.removeItem Admin.ADMIN_2FA_KEY
                      (Admin.localStorage (fst ver))).
  { unfold cleared, Admin.clearTwoFactorState. rewrite Hp. simpl.
    rewrite R2. simpl. rewrite Htr, R4. split; reflexivity. }
  destruct C1 as [C1 C2].
  assert (Q2 : Browser.getItem Admin.ADMIN_2FA_SECRET_KEY
                 (Admin.localStorage cleared) = Some secret).
  { rewrite C2. unfold Browser.getItem, Browser.removeItem.
    rewrite keys_differ. exact Q1. }
  destruct (queryFn_mounted l w (Admin.localStorage cleared) secret Hc Q2 Htr)
    as [A1 [A2 [A3 _]]].
  fold again in A1, A2, A3.
  assert (K : Browser.getItem Admin.ADMIN_2FA_KEY (Admin.localStorage cleared)
              = None).
  { rewrite C2. unfold Browser.getItem, Browser.removeItem.
    rewrite String.eqb_refl. reflexivity. }
  rewrite K in A3.
  repeat split; try assumption.
  - unfold authorized. rewrite R1, R3. reflexivity.
  - unfold authorized. rewrite A1, A3. reflexivity.
Qed.

Lemma two_factor_lifecycle_witness :
  Admin.compareAdmin adminWallet = Some true
  /\ authorized
       (fst (Admin.queryFn plainLibs adminWallet
          (Admin.mount
             (Admin.localStorage
                (fst (Admin.verifyTwoFactor "000000"
                   (fst (Admin.setupTwoFactor plainLibs cyclingRandom adminWallet
                           (Admin.mount Browser.emptyStorage)))))))))
     = true.
Proof.
  assert (Hc : Admin.compareAdmin adminWallet = Some true) by reflexivity.
  split; [exact Hc|].
  exact (proj1 (proj2 (proj2 (proj2
    (two_factor_lifecycle plainLibs cyclingRandom adminWallet
       (Admin.mount Browser.emptyStorage) "000000" "/tickets" Hc
       cyclingRandom_bound eq_refl eq_refl))))).
Defined.

(** X4: without admin status and verified 2FA, [startNewDraw] and
    [completeDrawManually] return false, send nothing to the contract,
    invalidate nothing and show the not-authorized alert, whatever the
    wallet and the arguments. *)
Theorem admin_operations_refused
    (l : Admin.Libs) (w : Admin.Wallet) (h : Admin.Hook)
    (ticketPrice initialJackpot : string) (drawTime seriesIndex drawId : Z)
    (useFutureBlock : bool) (winningNumbers : list Z) :
  authorized h = false ->
  let started :=
    Admin.startNewDraw l w h ticketPrice initialJackpot drawTime seriesIndex
      useFutureBlock in
  let completed := Admin.completeDrawManually w h drawId winningNumbers in
  (Admin.result started = false /\ Admin.calls started = []
   /\ Admin.invalidated started = false
   /\ Admin.shown started
      = Some ("Error starting new draw: " ++ Admin.notAuthorized)%string)
  /\ (Admin.result completed = false /\ Admin.calls completed = []
      /\ Admin.invalidated completed = false
      /\ Admin.shown completed
         = Some ("Error completing draw: " ++ Admin.notAuthorized)%string).
Proof.
  intros H started completed. apply not_authorized_cases in H.
  unfold started, completed, Admin.startNewDraw, Admin.completeDrawManually.
  rewrite H. repeat split.
Qed.

Lemma admin_operations_refused_witness :
  authorized (Admin.mount Browser.emptyStorage) = false
  /\ Admin.result
       (Admin.startNewDraw plainLibs adminWallet (Admin.mount Browser.emptyStorage)
          "1" "10" 1700000000 0 false) = false
  /\ Admin.calls
       (Admin.startNewDraw plainLibs adminWallet (Admin.mount Browser.emptyStorage)
          "1" "10" 1700000000 0 false) = [].
Proof.
  assert (H : authorized (Admin.mount Browser.emptyStorage) = false)
    by reflexivity.
  pose proof (admin_operations_refused plainLibs adminWallet
                (Admin.mount Browser.emptyStorage) "1" "10" 1700000000 0 1
                false [] H) as T.
  split; [exact H|].
  split; [exact (proj1 (proj1 T)) | exact (proj1 (proj2 (proj1 T)))].
Defined.

(** X5: even for a verified admin, [completeDrawManually] refuses any list
    that does not have exactly 6 winning numbers: it returns false and
    sends nothing. *)
Theorem complete_draw_needs_six_numbers
    (w : Admin.Wallet) (h : Admin.Hook) (drawId : Z) (winningNumbers : list Z) :
  List.length winningNumbers <> 6%nat ->
  let completed := Admin.completeDrawManually w h drawId winningNumbers in
  Admin.result completed = false
  /\ Admin.calls completed = []
  /\ Admin.invalidated completed = false.
Proof.
  intros H completed. unfold completed, Admin.completeDrawManually.
  destruct (negb (Admin.isAdmin (Admin.state h))
            || negb (Admin.is_verified (Admin.twoFactorState (Admin.state h))));
    [repeat split|].
  destruct (Nat.eqb_spec (List.length winningNumbers) 6); [contradiction|].
  repeat split.
Qed.

Lemma complete_draw_needs_six_numbers_witness :
  List.length [1; 2; 3; 4; 5] <> 6%nat
  /\ Admin.result
       (Admin.completeDrawManually adminWallet verifiedHook 1 [1; 2; 3; 4; 5])
     = false.
Proof.
  assert (H : List.length [1; 2; 3; 4; 5] <> 6%nat) by discriminate.
  split; [exact H|].
  exact (proj1 (complete_draw_needs_six_numbers adminWallet verifiedHook 1
                  [1; 2; 3; 4; 5] H)).
Defined.



(** X7: [startNewDraw] sends nothing but the draw it was asked for: a call
    it sends carries the prices [parseEther] gave, and is a future-block
    draw at the current block number plus 200 when [useFutureBlock] is
    set, and otherwise a timed draw at the given draw time. *)
Theorem start_new_draw_calls
    (l : Admin.Libs) (w : Admin.Wallet) (h : Admin.Hook)
    (ticketPrice initialJackpot : string) (drawTime seriesIndex : Z)
    (useFutureBlock : bool) (c : Admin.ContractCall) :
  In c (Admin.calls
          (Admin.startNewDraw l w h ticketPrice initialJackpot drawTime
             seriesIndex useFutureBlock)) ->
  authorized h = true
  /\ expectedDrawCall l w ticketPrice initialJackpot drawTime seriesIndex
       useFutureBlock c.
Proof.
  unfold Admin.startNewDraw, expectedDrawCall.
  destruct (authorized h) eqn:A.
  2:{ rewrite (not_authorized_cases h A). simpl. contradiction. }
  rewrite (authorized_cases h A).
  destruct (Admin.signerContract w) as [[p contract]|] eqn:S;
    [|simpl; contradiction].
  apply signerContract_provider in S.
  destruct (Admin.parseEther l ticketPrice) as [price|];
    [|simpl; contradiction].
  destruct (Admin.parseEther l initialJackpot) as [jackpot|];
    [|simpl; contradiction].
  intros H. split; [reflexivity|]. exists price, jackpot.
  split; [reflexivity|]. split; [reflexivity|].
  destruct useFutureBlock.
  - destruct (Admin.getBlockNumber p) as [b|] eqn:B.
    + pose proof (sendAndWait_calls contract
                    (Admin.StartNewFutureBlockDraw price jackpot (b + 200)
                       seriesIndex)) as C.
      destruct (Admin.sendAndWait contract _) as [sent ok]. simpl in *.
      subst sent. exists p, b. split; [exact S|]. split; [exact B|].
      destruct ok; simpl in H; destruct H as [<-|[]]; reflexivity.
    + simpl in H. contradiction.
  - pose proof (sendAndWait_calls contract
                  (Admin.StartNewXDraw price jackpot drawTime seriesIndex)) as C.
    destruct (Admin.sendAndWait contract _) as [sent ok]. simpl in *.
    subst sent. destruct ok; simpl in H; destruct H as [<-|[]]; reflexivity.
Qed.

Lemma start_new_draw_calls_witness :
  In (Admin.StartNewFutureBlockDraw 1 10 1200 0)
     (Admin.calls
        (Admin.startNewDraw plainLibs adminWallet verifiedHook "1" "10"
           1700000000 0 true))
  /\ expectedDrawCall plainLibs adminWallet "1" "10" 1700000000 0 true
       (Admin.StartNewFutureBlockDraw 1 10 1200 0).
Proof.
  assert (H : In (Admin.StartNewFutureBlockDraw 1 10 1200 0)
                (Admin.calls
                   (Admin.startNewDraw plainLibs adminWallet verifiedHook
                      "1" "10" 1700000000 0 true)))
    by (left; reflexivity).
  split; [exact H|].
  exact (proj2 (start_new_draw_calls plainLibs adminWallet verifiedHook
                  "1" "10" 1700000000 0 true _ H)).
Defined.

(** X8: the admin link of the header and the admin query of the hook
    decide alike.  [handleAdminClick] navigates to /admin, showing no
    toast, exactly when the query finds the wallet to be the admin (the
    addresses compared without regard to letter case); in every other case
    it stays where it is and shows exactly one toast.  The hook's
    [isAdmin] is the query's result. *)
Theorem admin_link_agrees_with_hook
    (l : Admin.Libs) (w : Admin.Wallet) (h : Admin.Hook) (s : Header.State) :
  let q := Admin.queryFn l w h in
  let c := Header.handleAdminClick w s in
  Admin.isAdmin (Admin.state (fst q)) = snd q
  /\ fst c = (if snd q
              then Header.mkState (Header.isOpen s) (Header.showWalletModal s)
                     "/admin"
              else s)
  /\ List.length (snd c) = (if snd q then 0%nat else 1%nat)
  /\ (snd q = true <->
      exists acct p chainId adminAddress,
        Admin.isConnected w = true
        /\ Admin.account w = Some acct
        /\ acct <> EmptyString
        /\ Admin.provider w = Some p
        /\ Admin.getNetwork p = Returned chainId
        /\ Admin.getLotteryContract p chainId
           = Returned (Some (Returned adminAddress))
        /\ Browser.toLowerCase adminAddress = Browser.toLowerCase acct).
Proof.
  unfold Admin.queryFn, Header.handleAdminClick, Admin.compareAdmin.
  destruct (Admin.isConnected w); simpl.
  2:{ repeat split; try discriminate.
      intros [a [p' [c' [d [H _]]]]]. discriminate H. }
  destruct (Admin.account w) as [acct|]; simpl.
  2:{ destruct (Admin.provider w); repeat split; try discriminate;
      intros [a [p' [c' [d [_ [H _]]]]]]; discriminate H. }
  destruct (truthy_str acct) eqn:T; simpl.
  2:{ destruct (Admin.provider w); repeat split; try discriminate.
      - intros [a [p' [c' [d [_ [Ha [Hne _]]]]]]].
        injection Ha as <-. destruct acct; [contradiction | discriminate T].
      - intros [a [p' [c' [d [_ [_ [_ [H _]]]]]]]]. discriminate H. }
  destruct (Admin.provider w) as [p|]; simpl.
  2:{ repeat split; try discriminate.
      intros [a [p' [c' [d [_ [_ [_ [H _]]]]]]]]. discriminate H. }
  destruct (Admin.getNetwork p) as [chainId|] eqn:N; simpl.
  2:{ repeat split; try discriminate.
      intros [a [p' [c' [d [_ [_ [_ [Hp [Hn _]]]]]]]]].
      injection Hp as <-. rewrite N in Hn. discriminate Hn. }
  destruct (Admin.getLotteryContract p chainId) as [[[adminAddress|]|]|] eqn:C;
    simpl;
    try (repeat split; try discriminate;
         intros [a [p' [c' [d [_ [_ [_ [Hp [Hn [Hc _]]]]]]]]]];
         injection Hp as <-; rewrite N in Hn; injection Hn as <-;
         rewrite C in Hc; discriminate Hc).
  destruct (String.eqb_spec (Browser.toLowerCase adminAddress)
              (Browser.toLowerCase acct)) as [E|E]; simpl.
  - split.
    + rewrite loadTwoFactor_isAdmin. reflexivity.
    + repeat split.
      exists acct, p, chainId, adminAddress. repeat split; try assumption.
      intros ->. discriminate T.
  - repeat split; try discriminate.
    intros [a [p' [c' [d [_ [Ha [_ [Hp [Hn [Hc Hl]]]]]]]]]].
    injection Ha as <-. injection Hp as <-. rewrite N in Hn.
    injection Hn as <-. rewrite C in Hc. injection Hc as <-. contradiction.
Qed.

(** X9: when the wallet is not connected, the account effect withdraws
    the admin rights in the hook, so that the admin operations are refused,
    but it leaves localStorage alone: a stored verification flag survives,
    and the next mount starts from it. *)
Theorem disconnect_revokes_state_only
    (l : Admin.Libs) (w : Admin.Wallet) (h : Admin.Hook)
    (ticketPrice initialJackpot : string) (drawTime seriesIndex : Z)
    (useFutureBlock : bool) :
  Admin.isConnected w = false ->
  let h' := Admin.accountEffect l w h in
  Admin.isAdmin (Admin.state h') = false
  /\ Admin.twoFactorState (Admin.state h') = Admin.NotSetup
  /\ Admin.result
       (Admin.startNewDraw l w h' ticketPrice initialJackpot drawTime
          seriesIndex useFutureBlock) = false
  /\ Admin.localStorage h' = Admin.localStorage h
  /\ Admin.mount (Admin.localStorage h') = Admin.mount (Admin.localStorage h).
Proof.
  intros H h'. unfold h', Admin.accountEffect. rewrite H. simpl.
  repeat split.
Qed.

Lemma disconnect_revokes_state_only_witness :
  Admin.isConnected noWallet = false
  /\ authorized (Admin.accountEffect plainLibs noWallet verifiedHook) = false
  /\ Admin.twoFactorState
       (Admin.state
          (Admin.mount
             (Admin.localStorage
                (Admin.accountEffect plainLibs noWallet verifiedHook))))
     = Admin.Verified.
Proof.
  assert (H : Admin.isConnected noWallet = false) by reflexivity.
  pose proof (disconnect_revokes_state_only plainLibs noWallet verifiedHook
                "1" "10" 0 0 false H) as T.
  split; [exact H|]. split.
  - unfold authorized. rewrite (proj1 T). reflexivity.
  - rewrite (proj2 (proj2 (proj2 (proj2 T)))). reflexivity.
Defined.

(** ** Home and its children: the shared selection *)

Section SharedSelection.

Lemma default_tables_agree (i : option Z) :
  ParticipantsListAlt.getDefaultDrawIdForSeries i = Home.defaultDrawId i.
Proof.
  destruct i as [[|q|q]|]; try reflexivity.
  destruct q as [[[q|q|]|[q|q|]|]|[[q|q|]|[q|q|]|]|]; reflexivity.
Qed.

Lemma strict_eq_refl (x : option Z) : strict_eq x x = true.
Proof. destruct x; simpl; [apply Z.eqb_refl | reflexivity]. Qed.

End SharedSelection.

(** X19: the synchronisation effect of the page runs one way and settles
    at once.  It never changes the page's own series index or draw ID;
    afterwards the hook's series index (draw ID) equals the page's wherever
    the page's is set, and is left alone where it is not; and running the
    effect again changes nothing. *)
Theorem home_sync_one_way (s : Home.State) :
  let s' := Home.syncEffect s in
  Home.homeSeriesIndex s' = Home.homeSeriesIndex s
  /\ Home.homeDrawId s' = Home.homeDrawId s
  /\ Home.selectedSeriesIndex (Home.lotteryData s')
     = (match Home.homeSeriesIndex s with
        | Some i => Some i
        | None => Home.selectedSeriesIndex (Home.lotteryData s)
        end)
  /\ Home.selectedDrawId (Home.lotteryData s')
     = (match Home.homeDrawId s with
        | Some d => Some d
        | None => Home.selectedDrawId (Home.lotteryData s)
        end)
  /\ Home.syncEffect s' = s'.
Proof.
  destruct s as [hs hd rt [ls ld rf]].
  unfold Home.syncEffect; simpl.
  destruct hs as [i|], hd as [d|], ls as [j|], ld as [e|]; simpl;
    repeat match goal with
           | |- context [?a =? ?b] =>
               destruct (Z.eqb_spec a b); subst; simpl
           end;
    rewrite ?Z.eqb_refl; simpl; repeat split; congruence.
Qed.



(** X21: the default draws of the series are the same table in both
    places that have one: [getDefaultDrawIdForSeries] of the participants
    list agrees with the default the page's series handler sets, for every
    series index and for none; hence, right after the page's handler ran
    for a series, the effective draw ID of the participants list is the
    page's draw ID, and it stays the same number when the page's draw ID
    is reset to undefined. *)
Theorem default_draw_tables_agree (i : option Z) (n : Z) (h : Home.State) :
  ParticipantsListAlt.getDefaultDrawIdForSeries i = Home.defaultDrawId i
  /\ (let h' := Home.handleHomeSeriesIndexChange (Home.Value (Some n)) h in
      Home.homeDrawId h'
      = Some (ParticipantsListAlt.effectiveDrawId (Home.homeSeriesIndex h')
                (Home.homeDrawId h'))
      /\ ParticipantsListAlt.effectiveDrawId
           (Home.homeSeriesIndex (Home.setHomeDrawId None h'))
           (Home.homeDrawId (Home.setHomeDrawId None h'))
         = ParticipantsListAlt.effectiveDrawId (Home.homeSeriesIndex h')
             (Home.homeDrawId h')).
Proof.
  split; [apply default_tables_agree|].
  unfold Home.handleHomeSeriesIndexChange, ParticipantsListAlt.effectiveDrawId.
  simpl. split; [reflexivity|]. exact (default_tables_agree (Some n)).
Qed.

(** ** ParticipantsList: scanned tickets and pages *)

Section ScanFacts.
Import ParticipantsList.

Lemma truthy_str_nonempty (s : string) : truthy_str s = true -> s <> EmptyString.
Proof. destruct s; [discriminate | intros _; discriminate]. Qed.

Lemma scanTicket_well_formed (c : Contract) (draw now : Z) (i : nat)
    (acc : list Ticket) :
  Forall wellFormedTicket acc ->
  Forall wellFormedTicket (scanTicket c draw now i acc).
Proof.
  intros H. unfold scanTicket.
  destruct (ticketsMapping c draw i) as [[td|]|]; try exact H.
  destruct (truthy_str (td_buyer td)) eqn:T; simpl; [|exact H].
  destruct (String.eqb_spec (td_buyer td) zeroAddress) as [E|E]; simpl;
    [exact H|].
  destruct (getTicketDetails c draw i) as [details|]; [|exact H].
  apply Forall_app. split; [exact H|].
  constructor; [|constructor].
  unfold wellFormedTicket.
  cbn [numbers walletAddress lottoNumber]. repeat split.
  - destruct details as [[[|n ns]|]|];
      try (cbn [List.length]; lia).
    exact (firstn_le_length 5 (n :: ns)).
  - apply truthy_str_nonempty, T.
  - exact E.
  - discriminate.
Qed.

Lemma scanTickets_well_formed (c : Contract) (draw : Z) (now : nat -> Z)
    (count : Z) :
  Forall wellFormedTicket (scanTickets c draw now count).
Proof.
  unfold scanTickets.
  assert (G : forall idx acc, Forall wellFormedTicket acc ->
            Forall wellFormedTicket
              (fold_left (fun acc i => scanTicket c draw (now i) i acc) idx acc)).
  { induction idx as [|i idx IH]; intros acc H; simpl; [exact H|].
    apply IH, scanTicket_well_formed, H. }
  apply G. constructor.
Qed.

End ScanFacts.

(** X16: every ticket [queryFn] returns has at most 5 numbers, a wallet
    address that is neither empty nor the zero address, and a LOTTO
    number; there are never more tickets than the participant count; and
    without a provider, a chain ID or a draw ID the result is empty with
    count 0. *)
Theorem query_tickets_well_formed
    (w : ParticipantsList.Wallet) (p : ParticipantsList.Props) (now : nat -> Z) :
  let data := ParticipantsList.queryFn w p now in
  Forall wellFormedTicket (ParticipantsList.tickets data)
  /\ (List.length (ParticipantsList.tickets data)
      <= Z.to_nat (ParticipantsList.participantCount data))%nat
  /\ (ParticipantsList.provider w = false
      \/ truthy (ParticipantsList.chainId w) = false
      \/ ParticipantsList.sharedDrawId p = None ->
      data = ParticipantsList.emptyData).
Proof.
  intros data. unfold data, ParticipantsList.queryFn.
  assert (Hempty : Forall wellFormedTicket
                     (ParticipantsList.tickets ParticipantsList.emptyData)
                   /\ (List.length
                         (ParticipantsList.tickets ParticipantsList.emptyData)
                       <= Z.to_nat
                            (ParticipantsList.participantCount
                               ParticipantsList.emptyData))%nat).
  { split; [constructor | simpl; lia]. }
  destruct Hempty as [He1 He2].
  destruct (ParticipantsList.sharedDrawId p) as [draw|];
    [|split; [exact He1 | split; [exact He2 | reflexivity]]].
  destruct (ParticipantsList.provider w); simpl;
    [|split; [exact He1 | split; [exact He2 | reflexivity]]].
  destruct (truthy (ParticipantsList.chainId w)); simpl;
    [|split; [exact He1 | split; [exact He2 | reflexivity]]].
  assert (Hno : true = false \/ true = false \/ Some draw = None -> False).
  { intros [H|[H|H]]; discriminate H. }
  destruct (ParticipantsList.getLotteryContract w) as [[c|]|];
    try (split; [exact He1 | split; [exact He2 | intros H; destruct (Hno H)]]).
  split; [apply scanTickets_well_formed|].
  split; [apply scanTickets_length|].
  intros H; destruct (Hno H).
Qed.

Section PageFacts.

Context {A : Type}.

Lemma firstn_add (a b : nat) (l : list A) :
  firstn (a + b) l = firstn a l ++ firstn b (skipn a l).
Proof.
  revert l. induction a as [|a IH]; intros l; simpl; [reflexivity|].
  destruct l as [|x l]; simpl.
  - rewrite firstn_nil. reflexivity.
  - rewrite IH. reflexivity.
Qed.

(** A page is the chunk of [size] elements after the pages before it. *)
Lemma pageOf_chunk (l : list A) (size : Z) (k : nat) :
  0 < size ->
  pageOf l size (Z.of_nat (S k))
  = firstn (Z.to_nat size) (skipn (k * Z.to_nat size) l).
Proof.
  intros Hs. unfold pageOf, slice, rel_index.
  set (len := Z.of_nat (List.length l)).
  replace (Z.of_nat (S k) - 1) with (Z.of_nat k) by lia.
  destruct (Z.ltb_spec (Z.of_nat k * size) 0); [nia|].
  destruct (Z.ltb_spec (Z.of_nat k * size + size) 0); [nia|].
  destruct (Z.le_gt_cases (Z.of_nat k * size) len) as [Hin|Hout].
  - replace (Z.to_nat (Z.min (Z.of_nat k * size) len))
      with (k * Z.to_nat size)%nat by nia.
    destruct (Z.le_gt_cases (Z.of_nat k * size + size) len) as [Hfull|Hpart].
    + f_equal. lia.
    + rewrite !firstn_all2; [reflexivity| |];
        rewrite length_skipn; unfold len in *; nia.
  - rewrite !skipn_all2 by (unfold len in *; nia).
    rewrite !firstn_nil. reflexivity.
Qed.

Lemma chunks_concat (l : list A) (size n : nat) :
  List.concat (map (fun k => firstn size (skipn (k * size) l)) (seq 0 n))
  = firstn (n * size) l.
Proof.
  induction n as [|n IH]; [reflexivity|].
  rewrite seq_S, map_app, concat_app, IH. simpl.
  rewrite app_nil_r. replace (size + n * size)%nat with (n * size + size)%nat
    by lia.
  rewrite firstn_add. reflexivity.
Qed.

Lemma pages_concat (l : list A) (size : Z) (n : nat) :
  0 < size ->
  List.concat (map (pageOf l size) (pagesUpTo n))
  = firstn (n * Z.to_nat size) l.
Proof.
  intros Hs. unfold pagesUpTo. rewrite <- chunks_concat.
  rewrite <- seq_shift, !map_map. f_equal.
  apply map_ext. intros k. apply pageOf_chunk, Hs.
Qed.

End PageFacts.

(** X17: the pages partition the ticket list.  For every page size of the
    select, putting the tickets of the pages 1 to pageCount one after the
    other gives back the whole list, in order, and every page after the
    last is empty. *)
Theorem pages_partition_tickets (l : list ParticipantsList.Ticket)
    (s : ParticipantsList.PageState) :
  In (ParticipantsList.pageSize s) ParticipantsList.pageSizeChoices ->
  exists size v,
    parseInt (ParticipantsList.pageSize s) = Some size
    /\ ParticipantsList.renderParticipantsView s l = Some v
    /\ ParticipantsList.currentTickets v
       = pageOf l size (ParticipantsList.currentPage s)
    /\ List.concat (map (pageOf l size)
                 (pagesUpTo (Z.to_nat (ParticipantsList.pageCount v)))) = l
    /\ (forall page, ParticipantsList.pageCount v < page ->
          pageOf l size page = []).
Proof.
  intros Hin. destruct (parseInt_choice _ Hin) as [size [Hparse Hpos]].
  exists size.
  unfold ParticipantsList.renderParticipantsView. rewrite Hparse.
  eexists. split; [reflexivity|]. split; [reflexivity|]. simpl.
  set (total := Z.of_nat (List.length l)).
  pose proof (ceil_div_upper total size Hpos) as Hup.
  split; [reflexivity|]. split.
  - rewrite pages_concat by exact Hpos.
    apply firstn_all2. unfold total in *. nia.
  - intros page Hp. unfold pageOf.
    apply length_zero_iff_nil.
    pose proof (slice_length l ((page - 1) * size) ((page - 1) * size + size))
      as L.
    assert (H1 : 0 <= (page - 1) * size) by nia.
    assert (H2 : 0 <= (page - 1) * size + size) by nia.
    specialize (L H1 H2). fold total in L.
    assert (total <= (page - 1) * size) by nia.
    lia.
Qed.

Lemma pages_partition_tickets_witness :
  In "5" ParticipantsList.pageSizeChoices
  /\ List.concat (map (pageOf sampleTickets 5) (pagesUpTo 3)) = sampleTickets.
Proof.
  assert (H : In "5" ParticipantsList.pageSizeChoices) by (left; reflexivity).
  split; [exact H|].
  destruct (pages_partition_tickets sampleTickets
              (ParticipantsList.mkPageState 1 "5") H)
    as [size [v [Hp [Hr [_ [Hc _]]]]]].
  injection Hp as <-. injection Hr as <-. exact Hc.
Defined.

Section LinkFacts.
Import ParticipantsList.

Lemma in_links (pc cp n : Z) :
  1 <= cp <= pc ->
  In n (numberedLinks pc cp)
  <-> exists i, 0 <= i < Z.min 5 pc /\ n = pageNumber pc cp i.
Proof.
  intros H. rewrite (numberedLinks_all pc cp H). rewrite in_map_iff. split.
  - intros [k [E Hk]]. apply in_seq in Hk. exists (Z.of_nat k).
    split; [lia | symmetry; exact E].
  - intros [i [Hi E]]. exists (Z.to_nat i). split.
    + rewrite Z2Nat.id by lia. symmetry. exact E.
    + apply in_seq. lia.
Qed.

End LinkFacts.

(** X18: for a current page within the pages, the numbered links are
    [min 5 pageCount] consecutive page numbers that include the current
    page, and the last page can always be reached: it is either among the
    numbered links or shown as the separate last-page link, never both. *)
Theorem page_links_cover (l : list ParticipantsList.Ticket)
    (s : ParticipantsList.PageState) (v : ParticipantsList.View) :
  ParticipantsList.renderParticipantsView s l = Some v ->
  1 <= ParticipantsList.currentPage s <= ParticipantsList.pageCount v ->
  let pc := ParticipantsList.pageCount v in
  let cp := ParticipantsList.currentPage s in
  In cp (ParticipantsList.pageLinks v)
  /\ (exists first,
        ParticipantsList.pageLinks v
        = map (fun i => first + Z.of_nat i) (seq 0 (Z.to_nat (Z.min 5 pc))))
  /\ (In pc (ParticipantsList.pageLinks v)
      <-> ParticipantsList.lastPageLink v = None)
  /\ (ParticipantsList.lastPageLink v = None
      \/ ParticipantsList.lastPageLink v = Some pc).
Proof.
  unfold ParticipantsList.renderParticipantsView.
  destruct (parseInt (ParticipantsList.pageSize s)) as [size|]; [|discriminate].
  intros E. injection E as <-. simpl.
  set (pc := Z.max 1 (ceil_div (Z.of_nat (List.length l)) size)).
  set (cp := ParticipantsList.currentPage s).
  intros Hcp.
  split; [|split; [|split]].
  - apply (in_links pc cp cp Hcp). unfold ParticipantsList.pageNumber.
    destruct (Z.leb_spec pc 5); simpl.
    + exists (cp - 1). split; lia.
    + destruct (Z.leb_spec cp 3); simpl.
      * exists (cp - 1). split; lia.
      * destruct (Z.geb_spec cp (pc - 2)).
        -- exists (cp - (pc - 4)). split; lia.
        -- exists 2. split; lia.
  - rewrite (numberedLinks_all pc cp Hcp). unfold ParticipantsList.pageNumber.
    destruct (Z.leb_spec pc 5); simpl.
    + exists 1. apply map_ext. intros i. lia.
    + destruct (Z.leb_spec cp 3); simpl.
      * exists 1. apply map_ext. intros i. lia.
      * destruct (Z.geb_spec cp (pc - 2)).
        -- exists (pc - 4). apply map_ext. intros i. lia.
        -- exists (cp - 2). apply map_ext. intros i. lia.
  - rewrite (in_links pc cp pc Hcp). unfold ParticipantsList.pageNumber.
    destruct (Z.gtb_spec pc 5); destruct (Z.ltb_spec cp (pc - 2)); simpl.
    + split; [|discriminate]. intros [i [Hi E]]. exfalso.
      destruct (Z.leb_spec pc 5); [lia|]. simpl in E.
      destruct (Z.leb_spec cp 3); simpl in E; [lia|].
      destruct (Z.geb_spec cp (pc - 2)); lia.
    + split; [reflexivity|]. intros _.
      destruct (Z.leb_spec pc 5); [lia|]. simpl.
      destruct (Z.leb_spec cp 3); simpl.
      * exists (pc - 1). split; lia.
      * destruct (Z.geb_spec cp (pc - 2)); [|lia].
        exists 4. split; lia.
    + split; [reflexivity|]. intros _.
      destruct (Z.leb_spec pc 5); [|lia]. simpl.
      exists (pc - 1). split; lia.
    + split; [reflexivity|]. intros _.
      destruct (Z.leb_spec pc 5); [|lia]. simpl.
      exists (pc - 1). split; lia.
  - destruct ((pc >? 5) && (cp <? pc - 2)); [right | left]; reflexivity.
Qed.

Lemma page_links_cover_witness :
  exists v,
    ParticipantsList.renderParticipantsView (ParticipantsList.mkPageState 2 "5")
      sampleTickets = Some v
    /\ In 2 (ParticipantsList.pageLinks v)
    /\ ParticipantsList.pageLinks v = [1; 2; 3].
Proof.
  eexists. split; [reflexivity|].
  assert (Hr : 1 <= 2 <= 3) by lia.
  pose proof (page_links_cover sampleTickets
                (ParticipantsList.mkPageState 2 "5") _ eq_refl Hr) as T.
  split; [exact (proj1 T) | reflexivity].
Defined.

(** ** BuyTickets: grids, sessions and the purchase path *)

Section GridFacts.
Import BuyTickets.

Lemma filter_out_shorter (n : Z) (l : list Z) :
  In n l ->
  (List.length (filter (fun m => negb (m =? n)%Z) l) < List.length l)%nat.
Proof.
  induction l as [|x l IH]; simpl; [intros []|].
  intros [->|H].
  - rewrite Z.eqb_refl. simpl.
    pose proof (filter_length_le (fun m => negb (m =? n)) l). lia.
  - specialize (IH H). destruct (negb (x =? n)); simpl; lia.
Qed.

Lemma toggled_In (n m : Z) (l : list Z) :
  In m (toggled n l) -> In m l \/ m = n.
Proof.
  unfold toggled. destruct (includes l n).
  - rewrite filter_In. tauto.
  - destruct (Z.of_nat (List.length l) <? 5); [|tauto].
    rewrite in_app_iff. simpl. intuition.
Qed.

Lemma gridState_initial : gridState initialState.
Proof.
  split; [split|split]; simpl.
  - unfold DEFAULT_SELECTED_NUMBERS.
    repeat (constructor; [simpl; intuition discriminate|]). constructor.
  - unfold DEFAULT_SELECTED_NUMBERS. simpl. intros n Hn.
    intuition subst; lia.
  - lia.
  - intros k Hk. injection Hk as <-. unfold DEFAULT_LOTTO_NUMBER. lia.
Qed.

Lemma gridState_same (s s' : State) :
  selectedNumbers s' = selectedNumbers s ->
  selectedLottoNumber s' = selectedLottoNumber s ->
  gridState s -> gridState s'.
Proof. unfold gridState. intros -> ->. tauto. Qed.

Lemma handleConfirmPurchase_selection (e : Env) (s : State) :
  selectedNumbers (fst (handleConfirmPurchase e s)) = selectedNumbers s
  /\ selectedLottoNumber (fst (handleConfirmPurchase e s))
     = selectedLottoNumber s.
Proof.
  unfold handleConfirmPurchase.
  destruct (selectionIncomplete s); [split; reflexivity|].
  destruct (negb (isDrawAvailable e)); [split; reflexivity|].
  destruct (isTimeRemainingZero e); [split; reflexivity|].
  simpl. destruct (txHash (buyResult e)) as [hsh|]; [|split; reflexivity].
  destruct (success (buyResult e) && truthy_str hsh); split; reflexivity.
Qed.

Lemma step_gridState (e : Env) (ev : Event) (s : State) :
  gridEvent (e, ev) -> gridState s -> gridState (fst (step e ev s)).
Proof.
  intros Hev Hs. unfold step.
  destruct (enabled ev s); [|exact Hs].
  destruct ev; simpl in *;
    try (apply (gridState_same s); [reflexivity | reflexivity | exact Hs]).
  - apply (gridState_same s); [| | exact Hs]; unfold handleBuyClick;
      destruct (negb (isConnected e)); try reflexivity;
      destruct (selectionIncomplete s); try reflexivity;
      destruct (negb (isDrawAvailable e)); try reflexivity;
      destruct (isTimeRemainingZero e); reflexivity.
  - apply (gridState_same s); [| | exact Hs]; unfold handleInitialConfirm;
      destruct (selectionIncomplete s); try reflexivity;
      destruct (negb (isDrawAvailable e)); try reflexivity;
      destruct (isTimeRemainingZero e); reflexivity.
  - destruct (handleConfirmPurchase_selection e s) as [E1 E2].
    apply (gridState_same s); assumption.
  - unfold gridEvent in Hev. simpl in Hev.
    destruct Hs as [[ND R] [L K]].
    destruct (toggled_valid n (selectedNumbers s) (conj ND L)) as [ND' L'].
    split; [split|split]; simpl.
    + exact ND'.
    + intros m Hm.
      destruct (toggled_In n m _ Hm) as [Hin| ->]; [apply R, Hin | exact Hev].
    + exact L'.
    + exact K.
  - unfold gridEvent in Hev. simpl in Hev.
    destruct Hs as [G [L K]].
    split; [exact G | split; [exact L|]]. simpl.
    intros k Hk.
    destruct (strict_eq (selectedLottoNumber s) (Some n));
      [discriminate Hk | injection Hk as <-; exact Hev].
  - unfold gridEvent in Hev. simpl in Hev. unfold handleQuickPick.
    destruct (isConnected e) eqn:C; simpl.
    + destruct Hev as [Hev|[G [L5 K]]]; [discriminate Hev|].
      split; [exact G | split]; simpl.
      * rewrite L5. lia.
      * intros k Hk. injection Hk as <-. exact K.
    + apply (gridState_same initialState);
        [reflexivity | reflexivity | apply gridState_initial].
Qed.

Lemma step_call_valid (e : Env) (ev : Event) (s : State) (c : BuyCall) :
  gridState s -> snd (step e ev s) = Some c -> validCall c.
Proof.
  intros [G [L K]] H.
  destruct (step_call_event e ev s c H) as [-> Hopen].
  unfold step in H. simpl in H. rewrite Hopen in H.
  destruct (handleConfirmPurchase_call e s c H) as [[H5 [Hl _]] ->].
  unfold validCall. simpl. split; [exact G|]. split; [exact H5|].
  destruct (selectedLottoNumber s) as [k|] eqn:E; [|contradiction].
  exists k. split; [reflexivity | apply (K k eq_refl)].
Qed.

Lemma run_calls_valid (session : list (Env * Event)) (s : State) :
  Forall gridEvent session -> gridState s ->
  forall x, In x (snd (run session s)) -> validCall (snd x).
Proof.
  revert s. induction session as [|[e ev] rest IH]; intros s Hall Hs x Hx.
  - destruct Hx.
  - inversion Hall as [|y ys Hev Hrest]; subst.
    simpl in Hx.
    pose proof (step_gridState e ev s Hev Hs) as Hs1.
    pose proof (step_call_valid e ev s) as Hc.
    destruct (step e ev s) as [s1 call]. simpl in *.
    specialize (IH s1 Hrest Hs1).
    destruct (run rest s1) as [s2 calls]. simpl in *.
    destruct call as [c|].
    + destruct Hx as [<-|Hx]; [apply (Hc c Hs eq_refl) | apply (IH x Hx)].
    + apply (IH x Hx).
Qed.

End GridFacts.

(** X22: a main-number button is disabled exactly when pressing it would
    do nothing: [isDisabled] holds for a number if and only if
    [toggleNumber] on it leaves the selection as it is. *)
Theorem disabled_button_is_noop (l : list Z) (i : Z) :
  NumberGrid.isDisabled l i = true <-> BuyTickets.toggled i l = l.
Proof.
  unfold NumberGrid.isDisabled.
  destruct (includes l i) eqn:Inc; simpl.
  - rewrite andb_false_r. split; [discriminate|].
    intros E. exfalso. apply includes_In in Inc.
    pose proof (filter_out_shorter i l Inc) as L.
    rewrite (toggled_present i l Inc) in E. rewrite E in L. lia.
  - rewrite andb_true_r. apply includes_not_In in Inc.
    destruct (Z.geb_spec (Z.of_nat (List.length l)) 5) as [G|G].
    + split; [intros _|reflexivity].
      apply toggled_absent_full; [exact Inc | lia].
    + split; [discriminate|]. intros E. exfalso.
      rewrite (toggled_absent_room i l Inc) in E by lia.
      apply (f_equal (@List.length Z)) in E.
      rewrite length_app in E. simpl in E. lia.
Qed.

(** X23: whatever the user does with the grids and buttons, a ticket that
    reaches [buyTicket] is well formed.  In every session from the initial
    state in which number clicks come from the 1..70 grid, LOTTO clicks
    from the 1..30 grid and quick picks of a connected wallet are valid
    picks, each [buyTicket] call carries exactly 5 distinct numbers between
    1 and 70 and a LOTTO number between 1 and 30. *)
Theorem grid_sessions_buy_valid_tickets
    (session : list (BuyTickets.Env * BuyTickets.Event))
    (e : BuyTickets.Env) (c : BuyTickets.BuyCall) :
  Forall gridEvent session ->
  In (e, c) (snd (BuyTickets.run session BuyTickets.initialState)) ->
  validCall c.
Proof.
  intros Hall Hin.
  exact (run_calls_valid session BuyTickets.initialState Hall
           gridState_initial (e, c) Hin).
Qed.

Lemma grid_sessions_buy_valid_tickets_witness :
  Forall gridEvent
    ((onlineEnv, BuyTickets.ClickNumber 7)
     :: (onlineEnv, BuyTickets.ClickNumber 70) :: startedPurchase
     ++ [(onlineEnv, BuyTickets.ConfirmPurchase)])
  /\ validCall
       (BuyTickets.mkBuyCall [14; 21; 42; 63; 70] (Some 17) (Some 0) (Some 1)).
Proof.
  assert (H : Forall gridEvent
                ((onlineEnv, BuyTickets.ClickNumber 7)
                 :: (onlineEnv, BuyTickets.ClickNumber 70) :: startedPurchase
                 ++ [(onlineEnv, BuyTickets.ConfirmPurchase)])).
  { repeat constructor; simpl; lia. }
  split; [exact H|].
  apply (grid_sessions_buy_valid_tickets _ onlineEnv _ H).
  left. reflexivity.
Defined.

(** X24: the purchase path, from any state with a complete selection.
    With the wallet connected, a draw available and time remaining, Buy,
    the first confirmation and the final confirmation make exactly one
    [buyTicket] call, for the selected numbers, LOTTO number, series and
    draw.  Afterwards the confirmation and pending modals are closed and
    the selection is kept; with a successful result carrying a hash the
    success modal is open and shows that hash, and otherwise the success
    modal and the hash are as before. *)
Theorem purchase_path (e : BuyTickets.Env) (s : BuyTickets.State) :
  BuyTickets.selectionIncomplete s = false ->
  BuyTickets.isConnected e = true ->
  BuyTickets.isDrawAvailable e = true ->
  BuyTickets.isTimeRemainingZero e = false ->
  let r := BuyTickets.run
             [(e, BuyTickets.ClickBuy); (e, BuyTickets.ConfirmInitial);
              (e, BuyTickets.ConfirmPurchase)] s in
  let succeeded :=
    match BuyTickets.txHash (BuyTickets.buyResult e) with
    | Some hash =>
        BuyTickets.success (BuyTickets.buyResult e) && truthy_str hash
    | None => false
    end in
  snd r
  = [(e, BuyTickets.mkBuyCall (BuyTickets.selectedNumbers s)
           (BuyTickets.selectedLottoNumber s) (BuyTickets.selectedSeriesIndex e)
           (BuyTickets.selectedDrawId e))]
  /\ BuyTickets.showBuyConfirmModal (fst r) = false
  /\ BuyTickets.showReconfirmModal (fst r) = false
  /\ BuyTickets.showPendingModal (fst r) = false
  /\ BuyTickets.selectedNumbers (fst r) = BuyTickets.selectedNumbers s
  /\ BuyTickets.selectedLottoNumber (fst r) = BuyTickets.selectedLottoNumber s
  /\ BuyTickets.showSuccessModal (fst r)
     = (if succeeded then true else BuyTickets.showSuccessModal s)
  /\ BuyTickets.transactionHash (fst r)
     = (if succeeded
        then match BuyTickets.txHash (BuyTickets.buyResult e) with
             | Some hash => hash
             | None => BuyTickets.transactionHash s
             end
        else BuyTickets.transactionHash s).
Proof.
  intros Hsel Hc Hd Ht r succeeded. unfold r, succeeded.
  unfold BuyTickets.run, BuyTickets.step, BuyTickets.enabled, BuyTickets.handle.
  unfold BuyTickets.handleBuyClick. rewrite Hc, Hsel, Hd, Ht. simpl.
  unfold BuyTickets.handleInitialConfirm.
  replace (BuyTickets.selectionIncomplete
             (BuyTickets.setShowBuyConfirmModal true s)) with false
    by (symmetry; exact Hsel).
  rewrite Hd, Ht. simpl.
  unfold BuyTickets.handleConfirmPurchase.
  match goal with
  | |- context [BuyTickets.selectionIncomplete ?t] =>
      replace (BuyTickets.selectionIncomplete t) with false
        by (symmetry; exact Hsel)
  end.
  rewrite Hd, Ht. simpl.
  destruct (BuyTickets.txHash (BuyTickets.buyResult e)) as [hash|]; simpl;
    [|repeat split].
  destruct (BuyTickets.success (BuyTickets.buyResult e) && truthy_str hash);
    simpl; repeat split.
Qed.

Lemma purchase_path_witness :
  BuyTickets.selectionIncomplete BuyTickets.initialState = false
  /\ snd (BuyTickets.run
            [(successEnv, BuyTickets.ClickBuy);
             (successEnv, BuyTickets.ConfirmInitial);
             (successEnv, BuyTickets.ConfirmPurchase)] BuyTickets.initialState)
     = [(successEnv, defaultCall)]
  /\ BuyTickets.transactionHash
       (fst (BuyTickets.run
               [(successEnv, BuyTickets.ClickBuy);
                (successEnv, BuyTickets.ConfirmInitial);
                (successEnv, BuyTickets.ConfirmPurchase)]
               BuyTickets.initialState)) = "0xabc123".
Proof.
  assert (H : BuyTickets.selectionIncomplete BuyTickets.initialState = false)
    by reflexivity.
  pose proof (purchase_path successEnv BuyTickets.initialState H
                eq_refl eq_refl eq_refl) as T.
  split; [exact H|].
  split; [exact (proj1 T)|].
  exact (proj2 (proj2 (proj2 (proj2 (proj2 (proj2 (proj2 T))))))).
Defined.

(** ** PromoBanner: the controls *)

(** X25: the banner always has an image to show.  Whatever sequence of
    autoplay ticks, arrow clicks, dot clicks and autoplay resumptions
    happens after the first render, the current index stays one of the 6
    banner images. *)
Theorem banner_index_always_valid (events : list BannerControls.Event) :
  validIndex
    (PromoBanner.currentIndex
       (BannerControls.run events PromoBanner.initialState)).
Proof.
  assert (G : forall evs s, validIndex (PromoBanner.currentIndex s) ->
            validIndex
              (PromoBanner.currentIndex (BannerControls.run evs s))).
  { induction evs as [|ev evs IH]; intros s H; simpl; [exact H|].
    apply IH. destruct s as [i a]. simpl in H.
    destruct ev; simpl.
    - destruct a; simpl; [|exact H].
      destruct (validIndex_cases i H) as [->|[->|[->|[->|[->| ->]]]]];
        vm_compute; split; congruence.
    - exact H.
    - destruct (validIndex_cases i H) as [->|[->|[->|[->|[->| ->]]]]];
        vm_compute; split; congruence.
    - destruct (validIndex_cases i H) as [->|[->|[->|[->|[->| ->]]]]];
        vm_compute; split; congruence.
    - destruct (Z.ltb_spec (Z.of_nat index) PromoBanner.bannerCount); simpl;
        [|exact H].
      unfold validIndex. lia. }
  apply G. vm_compute. split; congruence.
Qed.

(** X26: an arrow button moves the banner by exactly one slide and stops
    the autoplay, although its handler updates the index twice: on a valid
    index the two updates agree, Previous ends where [goToPrevSlide] leads
    and Next where [goToNextSlide] leads, and Next after Previous returns
    to the slide shown before. *)
Theorem arrow_buttons_move_one_slide (s : PromoBanner.State) :
  validIndex (PromoBanner.currentIndex s) ->
  BannerControls.clickPrevious s
  = PromoBanner.mkState
      (PromoBanner.currentIndex (PromoBanner.goToPrevSlide s)) false
  /\ BannerControls.clickNext s
     = PromoBanner.mkState
         (PromoBanner.currentIndex (PromoBanner.goToNextSlide s)) false
  /\ PromoBanner.currentIndex
       (BannerControls.clickNext (BannerControls.clickPrevious s))
     = PromoBanner.currentIndex s
  /\ PromoBanner.currentIndex (BannerControls.clickPrevious s)
     = (PromoBanner.currentIndex s - 1) mod 6.
Proof.
  destruct s as [i a]. simpl. intros H.
  destruct (validIndex_cases i H) as [->|[->|[->|[->|[->| ->]]]]];
    repeat split; reflexivity.
Qed.

Lemma arrow_buttons_move_one_slide_witness :
  validIndex 0
  /\ BannerControls.clickPrevious (PromoBanner.mkState 0 true)
     = PromoBanner.mkState 5 false.
Proof.
  assert (H : validIndex 0) by (vm_compute; split; congruence).
  split; [exact H|].
  exact (proj1 (arrow_buttons_move_one_slide (PromoBanner.mkState 0 true) H)).
Defined.

(** ** PastWinners: time helper, loading flag, fallback scope, refresh *)

Section WinnerCardFacts.
Import WinnerCards.

Lemma hours_below_day (x : Z) : (x / 3600000 <? 24) = (x <? 86400000).
Proof.
  destruct (Z.ltb_spec x 86400000) as [H|H].
  - apply Z.ltb_lt. apply Z.div_lt_upper_bound; lia.
  - apply Z.ltb_ge. apply Z.div_le_lower_bound; lia.
Qed.

End WinnerCardFacts.

(** X10: [getTimeDifference] shows "Unknown time" for a missing or zero
    timestamp; otherwise it shows whole hours while less than a day
    (86400000 ms) has passed and whole days from then on, the days being
    the elapsed milliseconds divided by 86400000 and rounded down.  For a
    timestamp not in the future the hours lie in 0..23 and the days are
    at least 1. *)
Theorem time_difference_units (ts now : Z) :
  ts <> 0 ->
  let elapsed := now - ts in
  WinnerCards.getTimeDifference (Some ts) now
  = (if elapsed <? 86400000
     then (show (elapsed / 3600000) ++ " hours ago")%string
     else (show (elapsed / 86400000) ++ " days ago")%string)
  /\ (0 <= elapsed < 86400000 -> 0 <= elapsed / 3600000 < 24)
  /\ (86400000 <= elapsed -> 1 <= elapsed / 86400000)
  /\ WinnerCards.getTimeDifference None now = "Unknown time"
  /\ WinnerCards.getTimeDifference (Some 0) now = "Unknown time".
Proof.
  intros Hts elapsed. split; [|split; [|split; [|split]]].
  - unfold WinnerCards.getTimeDifference. simpl truthy.
    destruct (Z.eqb_spec ts 0) as [E|_]; [contradiction|]. simpl negb.
    cbv iota. change (1000 * 60 * 60) with 3600000. fold elapsed.
    rewrite hours_below_day.
    destruct (elapsed <? 86400000); [reflexivity|].
    rewrite Z.div_div by lia. reflexivity.
  - intros [H1 H2]. split.
    + apply Z.div_pos; lia.
    + apply Z.div_lt_upper_bound; lia.
  - intros H. apply Z.div_le_lower_bound; lia.
  - reflexivity.
  - reflexivity.
Qed.

Lemma time_difference_units_witness :
  1700000000000 <> 0
  /\ WinnerCards.getTimeDifference (Some 1700000000000) 1700200000000
     = "2 days ago".
Proof.
  assert (H : 1700000000000 <> 0) by discriminate.
  split; [exact H|].
  rewrite (proj1 (time_difference_units 1700000000000 1700200000000 H)).
  reflexivity.
Defined.

Section WinnersMore.
Import Winners.

Lemma backup_refresh_trackers (w : Wallet) (c : Chain) (p : Props) (now : Z)
    (s : State) :
  previousDrawId (PastWinnersBackup.refreshWinners w c p now false s)
  = previousDrawId s
  /\ previousSeriesIndex (PastWinnersBackup.refreshWinners w c p now false s)
     = previousSeriesIndex s.
Proof.
  unfold PastWinnersBackup.refreshWinners.
  destruct (negb (provider w) || negb (truthy (chainId w))
            || negb (truthy (sharedDrawId p))); [split; reflexivity|].
  destruct (getDrawWinners c (sharedDrawId p) (sharedSeriesIndex p));
    [|split; reflexivity].
  destruct (getWinningNumbers c (sharedDrawId p)); split; reflexivity.
Qed.

Lemma backup_forced_untracked (w : Wallet) (c : Chain) (p : Props) (now : Z)
    (s : State) :
  previousDrawId (PastWinnersBackup.refreshWinners w c p now true s) = None
  /\ previousSeriesIndex (PastWinnersBackup.refreshWinners w c p now true s)
     = None.
Proof.
  unfold PastWinnersBackup.refreshWinners.
  destruct (negb (provider w) || negb (truthy (chainId w))
            || negb (truthy (sharedDrawId p))); [split; reflexivity|].
  destruct (getDrawWinners c (sharedDrawId p) (sharedSeriesIndex p));
    [|split; reflexivity].
  destruct (getWinningNumbers c (sharedDrawId p)); split; reflexivity.
Qed.

Lemma unchanged_defined (previous current : option Z) :
  negb (is_undefined previous) && negb (strict_eq current previous) = false ->
  is_undefined previous = false -> previous = current.
Proof.
  intros H D. rewrite D in H. simpl in H.
  apply negb_false_iff in H. apply strict_eq_true in H. congruence.
Qed.

Lemma connected_guard (w : Wallet) (p : Props) :
  connected w = true -> truthy (sharedDrawId p) = true ->
  negb (provider w) || negb (truthy (chainId w))
  || negb (truthy (sharedDrawId p)) = false.
Proof.
  unfold connected. intros H D. apply andb_true_iff in H as [-> ->].
  rewrite D. reflexivity.
Qed.

End WinnersMore.

(** X11: the load effect of the active component and both
    [refreshWinners] functions never leave the loading flag set: after the
    load effect, after [refreshWinners] of the active component and after
    [refreshWinners] of the backup copy, [isLoading] is false, whether the
    contract reads succeed, throw or are never made.  The load effect of
    the backup copy is not of that kind: a timer it sets clears the flag
    only when it goes off, and with no draw ID and no change of the props
    it sets no timer and leaves the flag as it found it, so that from the
    initial state the backup stays loading. *)
Theorem loading_always_ends
    (w : Winners.Wallet) (c : Winners.Chain) (p : Winners.Props) (now : Z)
    (forceReset : bool) (s : Winners.State) :
  Winners.isLoading (PastWinners.loadEffect w c p now s) = false
  /\ Winners.isLoading (PastWinners.refreshWinners w c p s) = false
  /\ Winners.isLoading (PastWinnersBackup.refreshWinners w c p now forceReset s)
     = false
  /\ (forall t, In t (snd (BackupEffect.loadEffect w c p now s)) ->
      Winners.isLoading (fst (BackupEffect.loadEffect w c p now s))
      = Winners.isLoading s
      /\ Winners.isLoading
           (BackupEffect.fire w c p now t
              (fst (BackupEffect.loadEffect w c p now s))) = false)
  /\ (truthy (Winners.sharedDrawId p) = false -> ~ propsChanged p s ->
      snd (BackupEffect.loadEffect w c p now s) = []
      /\ Winners.isLoading (fst (BackupEffect.loadEffect w c p now s))
         = Winners.isLoading s)
  /\ BackupEffect.loadEffect w c
       (Winners.mkProps None (Winners.sharedSeriesIndex p)) now
       Winners.initialState
     = (Winners.setPreviousSeriesIndex (Winners.sharedSeriesIndex p)
          Winners.initialState, [])
  /\ Winners.isLoading
       (fst (BackupEffect.loadEffect w c
               (Winners.mkProps None (Winners.sharedSeriesIndex p)) now
               Winners.initialState)) = true.
Proof.
  assert (B : forall force s',
            Winners.isLoading
              (PastWinnersBackup.refreshWinners w c p now force s') = false).
  { intros force s'. unfold PastWinnersBackup.refreshWinners.
    destruct (negb (Winners.provider w) || negb (truthy (Winners.chainId w))
              || negb (truthy (Winners.sharedDrawId p))); [reflexivity|].
    destruct (Winners.getDrawWinners c _ _); [|reflexivity].
    destruct (Winners.getWinningNumbers c _); reflexivity. }
  split; [|split; [|split; [|split; [|split; [|split]]]]].
  - unfold PastWinners.loadEffect.
    destruct (negb (truthy (Winners.sharedDrawId p))); [reflexivity|].
    destruct (negb (Winners.provider w) || negb (truthy (Winners.chainId w)));
      reflexivity.
  - unfold PastWinners.refreshWinners.
    destruct (negb (Winners.provider w) || negb (truthy (Winners.chainId w))
              || negb (truthy (Winners.sharedDrawId p))); [reflexivity|].
    destruct (Winners.getDrawWinners c _ _); [|reflexivity].
    destruct (Winners.getWinningNumbers c _); reflexivity.
  - apply B.
  - intros t Ht. split; [|apply B].
    revert Ht. unfold BackupEffect.loadEffect.
    destruct ((negb (is_undefined (Winners.previousDrawId s))
               && negb (strict_eq (Winners.sharedDrawId p)
                          (Winners.previousDrawId s)))
              || (negb (is_undefined (Winners.previousSeriesIndex s))
                  && negb (strict_eq (Winners.sharedSeriesIndex p)
                             (Winners.previousSeriesIndex s))));
      [reflexivity|].
    destruct (is_undefined (Winners.previousDrawId s)
              || is_undefined (Winners.previousSeriesIndex s)); simpl.
    + destruct (truthy (Winners.sharedDrawId p)); [reflexivity|].
      rewrite !andb_false_r. simpl. intros [].
    + destruct ((Z.of_nat (List.length (Winners.winners s)) =? 0)
                && truthy (Winners.sharedDrawId p) && Winners.provider w
                && truthy (Winners.chainId w)); simpl; intros [].
  - intros Hd Hn.
    pose proof (parametersChanged_reflect p s) as R.
    unfold PastWinners.parametersChanged in R. fold (propsChanged p s) in R.
    unfold BackupEffect.loadEffect. rewrite Hd.
    destruct ((negb (is_undefined (Winners.previousDrawId s))
               && negb (strict_eq (Winners.sharedDrawId p)
                          (Winners.previousDrawId s)))
              || (negb (is_undefined (Winners.previousSeriesIndex s))
                  && negb (strict_eq (Winners.sharedSeriesIndex p)
                             (Winners.previousSeriesIndex s)))).
    + exfalso. apply Hn, R. reflexivity.
    + rewrite !andb_false_r. simpl.
      destruct (is_undefined (Winners.previousDrawId s)
                || is_undefined (Winners.previousSeriesIndex s));
        split; reflexivity.
  - reflexivity.
  - reflexivity.
Qed.

(** X12: the hardcoded winner is confined to draw 1 of series 0.  For any
    other selection [fetchWinners] sets the winners to the list the
    contract returned (with the winning numbers attached when they could
    be read), and to the empty list when [getDrawWinners] throws. *)
Theorem fallback_only_for_first_draw
    (w : Winners.Wallet) (c : Winners.Chain) (p : Winners.Props) (now : Z)
    (s : Winners.State) :
  ~ firstDrawOfFirstSeries p ->
  let result := Winners.winners (PastWinners.fetchWinners w c p now s) in
  match Winners.getDrawWinners c (Winners.sharedDrawId p)
          (Winners.sharedSeriesIndex p) with
  | Returned ws => isContractList ws result
  | Thrown => result = []
  end.
Proof.
  intros Hn result.
  assert (Hs : Winners.isSpecialDraw p = false).
  { destruct (Winners.isSpecialDraw p) eqn:E; [|reflexivity].
    exfalso. apply Hn, isSpecialDraw_reflect, E. }
  unfold result. rewrite fetchWinners_winners.
  unfold PastWinners.fetchedFromContract. rewrite Hs.
  destruct (Winners.getDrawWinners c _ _) as [ws|].
  - destruct ws as [|x xs].
    + left. reflexivity.
    + apply attach_cases.
  - reflexivity.
Qed.

Lemma fallback_only_for_first_draw_witness :
  Winners.winners
    (PastWinners.fetchWinners onlineWallet emptyChain secondDraw 1700000000000
       Winners.initialState) = []
  \/ exists wn,
       Winners.winners
         (PastWinners.fetchWinners onlineWallet emptyChain secondDraw
            1700000000000 Winners.initialState)
       = map (Winners.withWinningNumbers wn) [].
Proof.
  assert (H : ~ firstDrawOfFirstSeries secondDraw).
  { intros [E _]. discriminate E. }
  exact (fallback_only_for_first_draw onlineWallet emptyChain secondDraw
           1700000000000 Winners.initialState H).
Defined.

(** X13: unreadable winning numbers are tolerated on load but not on
    refresh.  With a connection, a draw ID and a non-empty winners list
    from the contract, when [getWinningNumbers] throws the load path
    ([fetchWinners]) still shows the contract's winners without an error,
    while [refreshWinners] discards them: it keeps the winners shown before
    and sets the refresh error. *)
Theorem numbers_failure_load_vs_refresh
    (w : Winners.Wallet) (c : Winners.Chain) (p : Winners.Props) (now : Z)
    (s : Winners.State) (ws : list Winners.Winner) :
  Winners.connected w = true ->
  truthy (Winners.sharedDrawId p) = true ->
  Winners.getDrawWinners c (Winners.sharedDrawId p) (Winners.sharedSeriesIndex p)
  = Returned ws ->
  ws <> [] ->
  Winners.getWinningNumbers c (Winners.sharedDrawId p) = Thrown ->
  let loaded := PastWinners.loadEffect w c p now s in
  let refreshed := PastWinners.refreshWinners w c p s in
  Winners.winners loaded = ws
  /\ Winners.error loaded = None
  /\ Winners.winners refreshed = Winners.winners s
  /\ Winners.error refreshed = Some Winners.refreshFailed.
Proof.
  intros Hc Hd Hw Hne Hn loaded refreshed.
  unfold loaded. rewrite loadEffect_fetches by assumption.
  split; [|split].
  - rewrite fetchWinners_winners.
    unfold PastWinners.fetchedFromContract, PastWinners.attachWinningNumbers.
    rewrite Hw, Hn. destruct ws as [|x xs]; [contradiction|]. simpl.
    destruct (Winners.checkDrawCompletion w c p); reflexivity.
  - unfold PastWinners.fetchWinners. simpl.
    unfold Winners.fetchTotalWinners.
    destruct (negb (Winners.provider w) || negb (truthy (Winners.chainId w)));
      [reflexivity|].
    destruct (Winners.getTotalWinners c); reflexivity.
  - unfold refreshed, PastWinners.refreshWinners.
    rewrite (connected_guard w p Hc Hd), Hw, Hn. split; reflexivity.
Qed.

Lemma numbers_failure_load_vs_refresh_witness :
  Winners.winners
    (PastWinners.loadEffect onlineWallet numbersUnreadable secondDraw
       1700000000000 Winners.initialState)
  = [Winners.fallbackWinner 1700000000000]
  /\ Winners.winners
       (PastWinners.refreshWinners onlineWallet numbersUnreadable secondDraw
          Winners.initialState) = []
  /\ Winners.error
       (PastWinners.refreshWinners onlineWallet numbersUnreadable secondDraw
          Winners.initialState) = Some Winners.refreshFailed.
Proof.
  assert (Hne : [Winners.fallbackWinner 1700000000000] <> []) by discriminate.
  pose proof (numbers_failure_load_vs_refresh onlineWallet numbersUnreadable
                secondDraw 1700000000000 Winners.initialState
                [Winners.fallbackWinner 1700000000000]
                eq_refl eq_refl eq_refl Hne eq_refl) as T.
  split; [exact (proj1 T)|].
  split; [exact (proj1 (proj2 (proj2 T))) | exact (proj2 (proj2 (proj2 T)))].
Defined.

(** X14: whatever branch the backup's load effect takes, it leaves both
    trackers equal to the current props and sets at most one timer; on a
    change of the props it keeps the winners and the loading flag as they
    were and defers everything to a forced refresh after 100 ms.  The load
    effect of the active component, run on the same change, discards the
    winners instead: it acts as if it had started with an empty list and
    the loading flag set, and with a draw ID and no connection it ends
    with no winners where the backup still shows the old ones. *)
Theorem backup_effect_tracks_and_defers
    (w : Winners.Wallet) (c : Winners.Chain) (p : Winners.Props) (now : Z)
    (s : Winners.State) :
  let r := BackupEffect.loadEffect w c p now s in
  tracksProps p (fst r)
  /\ (List.length (snd r) <= 1)%nat
  /\ (propsChanged p s ->
      snd r = [BackupEffect.mkTimer 100 true]
      /\ Winners.winners (fst r) = Winners.winners s
      /\ Winners.isLoading (fst r) = Winners.isLoading s
      /\ PastWinners.loadEffect w c p now s
         = PastWinners.loadEffect w c p now
             (Winners.setIsLoading true (Winners.setWinners [] s))
      /\ (truthy (Winners.sharedDrawId p) = true ->
          Winners.connected w = false ->
          Winners.winners (PastWinners.loadEffect w c p now s) = []
          /\ Winners.isLoading (PastWinners.loadEffect w c p now s) = false)).
Proof.
  intros r.
  assert (Active : propsChanged p s ->
            PastWinners.loadEffect w c p now s
            = PastWinners.loadEffect w c p now
                (Winners.setIsLoading true (Winners.setWinners [] s))
            /\ (truthy (Winners.sharedDrawId p) = true ->
                Winners.connected w = false ->
                Winners.winners (PastWinners.loadEffect w c p now s) = []
                /\ Winners.isLoading (PastWinners.loadEffect w c p now s)
                   = false)).
  { intros H. apply parametersChanged_reflect in H.
    assert (E : PastWinners.resetOnChange p s
                = Winners.setIsLoading true (Winners.setWinners [] s)).
    { unfold PastWinners.resetOnChange. rewrite H. reflexivity. }
    split.
    - unfold PastWinners.loadEffect at 1 2. rewrite E.
      unfold PastWinners.resetOnChange.
      assert (H' : PastWinners.parametersChanged p
                     (Winners.setIsLoading true (Winners.setWinners [] s))
                   = true) by exact H.
      rewrite H'. reflexivity.
    - intros Hd Hc. rewrite (loadEffect_offline w c p now s Hd Hc), E.
      split; reflexivity. }
  unfold r, BackupEffect.loadEffect, tracksProps.
  pose proof (parametersChanged_reflect p s) as R.
  unfold PastWinners.parametersChanged in R. fold (propsChanged p s) in R.
  destruct ((negb (is_undefined (Winners.previousDrawId s))
             && negb (strict_eq (Winners.sharedDrawId p)
                        (Winners.previousDrawId s)))
            || (negb (is_undefined (Winners.previousSeriesIndex s))
                && negb (strict_eq (Winners.sharedSeriesIndex p)
                           (Winners.previousSeriesIndex s)))) eqn:Ch.
  - simpl.
    split; [split; reflexivity|]. split; [lia|]. intros H.
    split; [reflexivity|]. split; [reflexivity|]. split; [reflexivity|].
    exact (Active H).
  - apply orb_false_iff in Ch as [Cd Cs].
    assert (Hno : ~ propsChanged p s).
    { intros H. apply R in H. discriminate H. }
    pose proof (unchanged_defined _ _ Cd) as Ed.
    pose proof (unchanged_defined _ _ Cs) as Es.
    set (tracked := Winners.setPreviousSeriesIndex (Winners.sharedSeriesIndex p)
                      (Winners.setPreviousDrawId (Winners.sharedDrawId p) s)).
    set (cond := (Z.of_nat (List.length (Winners.winners s)) =? 0)
                 && truthy (Winners.sharedDrawId p) && Winners.provider w
                 && truthy (Winners.chainId w)).
    destruct (backup_refresh_trackers w c p now tracked) as [T1 T2].
    destruct (backup_refresh_trackers w c p now s) as [N1 N2].
    destruct (is_undefined (Winners.previousDrawId s));
      destruct (is_undefined (Winners.previousSeriesIndex s)); simpl;
      destruct (truthy (Winners.sharedDrawId p)); simpl;
      destruct cond; simpl;
      rewrite ?T1, ?T2, ?N1, ?N2;
      repeat split; simpl; try lia;
      try (intros H; contradiction);
      try (apply Ed; reflexivity);
      try (apply Es; reflexivity);
      try (exfalso; apply Hno; assumption).
Qed.

(** X15: the forced refresh of the backup erases the trackers the effect
    has just set.  So, after a change of the props to a draw ID that is
    set, when the timer of the effect has gone off and the effect runs
    again, it takes the initial-load path once more: it sets the trackers
    anew and schedules a second, unforced refresh. *)
Theorem backup_refresh_rearms_effect
    (w : Winners.Wallet) (c : Winners.Chain) (p : Winners.Props)
    (now later : Z) (s : Winners.State) :
  propsChanged p s ->
  truthy (Winners.sharedDrawId p) = true ->
  let first := BackupEffect.loadEffect w c p now s in
  let fired :=
    BackupEffect.fire w c p now (BackupEffect.mkTimer 100 true) (fst first) in
  let second := BackupEffect.loadEffect w c p later fired in
  snd first = [BackupEffect.mkTimer 100 true]
  /\ untracked fired
  /\ snd second = [BackupEffect.mkTimer 100 false]
  /\ tracksProps p (fst second).
Proof.
  intros Hch Hd first fired second.
  assert (F1 : snd first = [BackupEffect.mkTimer 100 true]).
  { unfold first, BackupEffect.loadEffect.
    apply parametersChanged_reflect in Hch.
    unfold PastWinners.parametersChanged in Hch. rewrite Hch. reflexivity. }
  assert (F2 : untracked fired).
  { unfold fired, BackupEffect.fire. simpl.
    apply backup_forced_untracked. }
  destruct F2 as [U1 U2].
  assert (S : second
              = (Winners.setPreviousSeriesIndex (Winners.sharedSeriesIndex p)
                   (Winners.setPreviousDrawId (Winners.sharedDrawId p) fired),
                 [BackupEffect.mkTimer 100 false])).
  { unfold second, BackupEffect.loadEffect. rewrite U1, U2, Hd. reflexivity. }
  split; [exact F1|]. split; [split; assumption|].
  rewrite S. split; [reflexivity | split; reflexivity].
Qed.

Lemma backup_refresh_rearms_effect_witness :
  propsChanged secondDraw sampleShown
  /\ snd (BackupEffect.loadEffect onlineWallet emptyChain secondDraw
            1700000000200
            (BackupEffect.fire onlineWallet emptyChain secondDraw 1700000000100
               (BackupEffect.mkTimer 100 true)
               (fst (BackupEffect.loadEffect onlineWallet emptyChain secondDraw
                       1700000000100 sampleShown))))
     = [BackupEffect.mkTimer 100 false].
Proof.
  assert (H : propsChanged secondDraw sampleShown).
  { left. split; discriminate. }
  split; [exact H|].
  exact (proj1 (proj2 (proj2
    (backup_refresh_rearms_effect onlineWallet emptyChain secondDraw
       1700000000100 1700000000200 sampleShown H eq_refl)))).
Defined.
